(** * Album aggregation service (backend/services/aggregation.py)

    A shallow embedding of the aggregation engine of Postmarked and the
    properties its specification states about it.

    Modelling conventions.
    - A Python [int] is a [Z]; a Python [float] is an exact rational [Q]
      (floating-point rounding error of [/], [*] and [+] is abstracted away);
      [round(x, n)] rounds the exact value half-to-even to [n] decimals and
      returns the reduced fraction.
    - A Python [dict] (also [Counter] and [defaultdict]) is an association
      list in insertion order, because the code relies on that order.
    - The JSON-shaped inputs are records whose fields are all optional:
      [None] is a missing key, so [d.get(k)] is the field and
      [d.get(k, default)] replaces [None] by [default].
      A key bound to JSON [null] and a value of another type than the
      analysis prompt asks for are outside these records; module [WithNull]
      reads the scene block as the key holds it, [null] included.
    - Operations of the source that can raise ([a / b], [xs[0]], [d[k]])
      live in the error monad [exc]. *)

From Stdlib Require Import List String Ascii ZArith QArith Qround Bool Lia.
From Stdlib Require Import Sorting.Sorted Sorting.Permutation.
Import ListNotations.

Local Open Scope string_scope.
Local Open Scope list_scope.
Local Open Scope Z_scope.

(** ** Exceptions *)

Inductive exn : Set :=
  ZeroDivisionError | IndexError | KeyError | AttributeError.

Inductive exc (A : Type) : Type :=
| Ok (a : A)
| Raise (e : exn).

Arguments Ok {A} a.
Arguments Raise {A} e.

Definition bind {A B : Type} (c : exc A) (k : A -> exc B) : exc B :=
  match c with
  | Ok a => k a
  | Raise e => Raise e
  end.

Notation "x <- c ;; k" := (bind c (fun x => k))
  (at level 61, c at next level, right associativity).

(** A list comprehension whose body can raise. *)
Fixpoint mapM {A B : Type} (f : A -> exc B) (l : list A) : exc (list B) :=
  match l with
  | [] => Ok []
  | x :: xs => y <- f x ;; ys <- mapM f xs ;; Ok (y :: ys)
  end.

(** A [for] loop over [l] threading the state [s], whose body can raise. *)
Fixpoint foldM {A S : Type} (f : S -> A -> exc S) (l : list A) (s : S) : exc S :=
  match l with
  | [] => Ok s
  | x :: xs => s' <- f s x ;; foldM f xs s'
  end.

(** ** Python primitives *)

(** Truthiness of the result of [d.get(k)] for a string, a bool, an int. *)
Definition truthy_str (o : option string) : bool :=
  match o with
  | Some s => negb (String.eqb s "")
  | None => false
  end.

Definition truthy_bool (o : option bool) : bool :=
  match o with
  | Some b => b
  | None => false
  end.

Definition truthy_int (z : Z) : bool := negb (z =? 0).

(** [d.get(k, default)] once [d.get(k)] is known. *)
Definition get_default {A : Type} (o : option A) (default : A) : A :=
  match o with
  | Some a => a
  | None => default
  end.

(** [a / b] on numbers: true division. *)
Definition py_truediv (a b : Q) : exc Q :=
  if Qeq_bool b 0 then Raise ZeroDivisionError else Ok (a / b)%Q.

Definition round_half_even (x : Q) : Z :=
  let n := Qnum x in
  let d := Zpos (Qden x) in
  let fl := n / d in
  match 2 * (n mod d) ?= d with
  | Lt => fl
  | Gt => fl + 1
  | Eq => if Z.even fl then fl else fl + 1
  end.

(** [round(x, ndigits)]. *)
Definition py_round (x : Q) (ndigits : nat) : Q :=
  let p := 10 ^ Z.of_nat ndigits in
  Qred (round_half_even (x * inject_Z p) # Z.to_pos p).

(** [xs[0]]. *)
Definition subscript0 {A : Type} (xs : list A) : exc A :=
  match xs with
  | x :: _ => Ok x
  | [] => Raise IndexError
  end.

(** [xs[i:j]] for constant [0 <= i <= j]. *)
Definition slice {A : Type} (i j : nat) (xs : list A) : list A :=
  firstn (j - i) (skipn i xs).

(** [len(xs)]. *)
Definition len {A : Type} (xs : list A) : Z := Z.of_nat (List.length xs).

Definition Qgtb (a b : Q) : bool :=
  match (a ?= b)%Q with
  | Gt => true
  | _ => false
  end.

Definition Qgeb (a b : Q) : bool := negb (Qgtb b a).

(** ** Insertion-ordered dictionaries *)

Section Dict.
Context {V : Type}.

Definition dict : Type := list (string * V).

  (** [d.get(k)] *)
Fixpoint dict_get (d : dict) (k : string) : option V :=
    match d with
    | [] => None
    | (k', v) :: d' => if String.eqb k' k then Some v else dict_get d' k
    end.

  (** [d[k] = v]: an existing key keeps its position, a new key goes last. *)
Fixpoint dict_set (k : string) (v : V) (d : dict) : dict :=
    match d with
    | [] => [(k, v)]
    | (k', v') :: d' =>
        if String.eqb k' k then (k', v) :: d' else (k', v') :: dict_set k v d'
    end.

  (** [d[k]] on a [defaultdict] or a [Counter] whose missing value is [zero]. *)
Definition dd_get (zero : V) (d : dict) (k : string) : V :=
    get_default (dict_get d k) zero.

  (** [d[k] += x], as [d[k] = add (d[k]) x]. *)
Definition dd_add (zero : V) (add : V -> V -> V) (k : string) (x : V)
                    (d : dict) : dict :=
    dict_set k (add (dd_get zero d k) x) d.

Definition keys (d : dict) : list string := map fst d.
End Dict.

Arguments dict V : clear implicits.

(** ** [sorted(xs, key=..., reverse=True)]

    [gtb x y] says that the key of [x] is greater than the key of [y].
    The sort is stable: entries with equal keys keep their order. *)

Section SortedReverse.
Context {A : Type} (gtb : A -> A -> bool).

Fixpoint insert_desc (x : A) (l : list A) : list A :=
    match l with
    | [] => [x]
    | y :: ys => if gtb y x then y :: insert_desc x ys else x :: y :: ys
    end.

Definition sorted_reverse (l : list A) : list A :=
    fold_right insert_desc [] l.
End SortedReverse.

(** ** [collections.Counter] *)

Definition Counter : Type := dict Z.

(** [c[k] += 1] *)
Definition counter_incr (c : Counter) (k : string) : Counter :=
  dd_add 0 Z.add k 1 c.

(** [Counter(xs)] *)
Definition Counter_of (xs : list string) : Counter :=
  fold_left counter_incr xs [].

Definition count_gtb (x y : string * Z) : bool := snd x >? snd y.

(** [c.most_common()] sorts the items by count with
    [sorted(..., reverse=True)]; [c.most_common(n)] takes [heapq.nlargest],
    which the library documents as [sorted(..., reverse=True)[:n]]. *)
Definition most_common (c : Counter) : list (string * Z) :=
  sorted_reverse count_gtb c.

Definition most_common_n (n : nat) (c : Counter) : list (string * Z) :=
  firstn n (most_common c).

(** [c.most_common(1)[0][0] if c else fallback] *)
Definition top_or (c : Counter) (fallback : string) : exc string :=
  match c with
  | [] => Ok fallback
  | _ :: _ => e <- subscript0 (most_common_n 1 c) ;; Ok (fst e)
  end.

(** ** Per-image analysis records (the input)

    The shape is the JSON object the vision step returns.  Every field is
    optional; the empty dict [{}] is the record whose fields are all [None]. *)

Module Scene.
Record t : Type := {
    primary_category : option string;
    secondary_categories : option (list string)
  }.
Definition empty : t :=
    {| primary_category := None; secondary_categories := None |}.
End Scene.

Module Elem.
Record t : Type := {
    present : option bool;
    prominence : option Q;
    count : option Z
  }.
Definition empty : t :=
    {| present := None; prominence := None; count := None |}.
End Elem.

Module Visual.
Record t : Type := {
    dominant_colors : option (list string);
    color_temperature : option string;
    lighting_condition : option string;
    indoor_outdoor : option string;
    time_of_day : option string;
    weather_apparent : option string
  }.
Definition empty : t :=
    {| dominant_colors := None; color_temperature := None;
       lighting_condition := None; indoor_outdoor := None;
       time_of_day := None; weather_apparent := None |}.
End Visual.

Module Mood.
Record t : Type := {
    overall_mood : option string;
    energy_level : option string;
    descriptive_tags : option (list string)
  }.
Definition empty : t :=
    {| overall_mood := None; energy_level := None; descriptive_tags := None |}.
End Mood.

(** The payload under the key ["analysis"].  [other_keys] lists the keys of
    the dict that the engine never reads; they only count for its truthiness. *)
Module Analysis.
Record t : Type := {
    scene_classification : option Scene.t;
    segmented_elements : option (dict Elem.t);
    visual_features : option Visual.t;
    mood_atmosphere : option Mood.t;
    notable_elements : option (list string);
    other_keys : list string
  }.

  (** [bool(d)] for a dict: it has at least one key. *)
Definition truthy (a : t) : bool :=
    match scene_classification a, segmented_elements a, visual_features a,
          mood_atmosphere a, notable_elements a, other_keys a with
    | None, None, None, None, None, [] => false
    | _, _, _, _, _, _ => true
    end.
End Analysis.

Module ImageAnalysis.
Record t : Type := {
    success : option bool;
    analysis : option Analysis.t
  }.
End ImageAnalysis.

(** ** The album profile (the output) *)

Module RankedCategory.
Record t : Type := { category : string; count : Z; percentage : Q }.
End RankedCategory.

Module SceneSummary.
Record t : Type := {
    primary_categories : list RankedCategory.t;
    all_categories : list RankedCategory.t;
    dominant_scene_type : string;
    scene_diversity : Z
  }.
End SceneSummary.

Module ElemStats.
Record t : Type := {
    presence_count : Z;
    presence_rate : Q;
    avg_prominence : Q
  }.
End ElemStats.

Module PeoplePresence.
Record t : Type := { images_with_people : Z; avg_people_per_image : Q }.
End PeoplePresence.

Module ElementSummary.
Record t : Type := {
    element_stats : dict ElemStats.t;
    ranked_by_presence : list (string * ElemStats.t);
    dominant_elements : list string;
    rare_elements : list string;
    people_presence : PeoplePresence.t
  }.
End ElementSummary.

Module ColorPalette.
Record t : Type := {
    top_colors : list (string * Z);
    unique_colors_mentioned : Z
  }.
End ColorPalette.

Module ColorTemperature.
Record t : Type := { distribution : Counter; dominant : string }.
End ColorTemperature.

Module Lighting.
Record t : Type := { distribution : Counter; dominant : string }.
End Lighting.

Module Setting.
Record t : Type := {
    indoor_outdoor_distribution : Counter;
    primary_setting : string
  }.
End Setting.

Module TimeOfDay.
Record t : Type := { distribution : Counter; most_common : string }.
End TimeOfDay.

Module Weather.
Record t : Type := { distribution : Counter; most_common : string }.
End Weather.

Module VisualSummary.
Record t : Type := {
    color_palette : ColorPalette.t;
    color_temperature : ColorTemperature.t;
    lighting : Lighting.t;
    setting : Setting.t;
    time_of_day : TimeOfDay.t;
    weather : Weather.t
  }.
End VisualSummary.

Module MoodSummary.
Record t : Type := {
    mood_distribution : Counter;
    dominant_mood : string;
    secondary_moods : list string;
    energy_distribution : Counter;
    overall_energy : string;
    top_atmosphere_tags : list (string * Z);
    mood_consistency : Q
  }.
End MoodSummary.

Module NotableSummary.
Record t : Type := {
    all_notable_elements : list (string * Z);
    unique_notable_count : Z;
    recurring_elements : list string
  }.
End NotableSummary.

Module Synthesis.
Record t : Type := {
    primary_scene_type : string;
    secondary_scene_types : list string;
    dominant_visual_elements : list string;
    color_palette : list string;
    color_temperature : string;
    lighting_style : string;
    setting : string;
    time_of_day : string;
    dominant_mood : string;
    mood_descriptors : list string;
    energy_level : string;
    recurring_notable_elements : list string;
    has_people : bool
  }.
End Synthesis.

Module AlbumProfile.
Record t : Type := {
    total_images_analyzed : Z;
    scene_summary : SceneSummary.t;
    element_summary : ElementSummary.t;
    visual_summary : VisualSummary.t;
    mood_summary : MoodSummary.t;
    notable_elements : NotableSummary.t;
    synthesis_prompt_data : Synthesis.t
  }.
End AlbumProfile.

(** What [aggregate_album_analysis] returns: the dict with
    ["success": False] and an ["error"] message, or the dict with
    ["success": True] and the profile. *)
Inductive AggregationResult : Type :=
| Failure (error : string)
| Success (profile : AlbumProfile.t).

(** ** The reducers *)

(** [if x := d.get(k): c[x] += 1] *)
Definition tally (c : Counter) (o : option string) : Counter :=
  match o with
  | Some x => if truthy_str o then counter_incr c x else c
  | None => c
  end.

(** *** _aggregate_scene_classifications *)

(** One iteration of the loop; the state is
    [(primary_categories, all_categories)]. *)
Definition scene_step (st : Counter * Counter) (analysis : Analysis.t)
  : Counter * Counter :=
  let scene := get_default (Analysis.scene_classification analysis) Scene.empty in
  let primary := Scene.primary_category scene in
  let primary_categories := tally (fst st) primary in
  let all_categories := tally (snd st) primary in
  (primary_categories,
   fold_left counter_incr
     (get_default (Scene.secondary_categories scene) []) all_categories).

(** [{"category": cat, "count": count,
      "percentage": round(count / total * 100, 1)}] *)
Definition ranked_entry (total : Z) (e : string * Z) : exc RankedCategory.t :=
  q <- py_truediv (inject_Z (snd e)) (inject_Z total) ;;
  Ok {| RankedCategory.category := fst e;
        RankedCategory.count := snd e;
        RankedCategory.percentage := py_round (q * 100) 1 |}.

Definition _aggregate_scene_classifications (analyses : list Analysis.t)
  : exc SceneSummary.t :=
  let st := fold_left scene_step analyses ([], []) in
  let primary_categories := fst st in
  let all_categories := snd st in
  let total := len analyses in
  primary_ranked <- mapM (ranked_entry total) (most_common primary_categories) ;;
  all_ranked <- mapM (ranked_entry total) (most_common all_categories) ;;
  dominant <- match primary_ranked with
              | [] => Ok "mixed"
              | _ :: _ =>
                  e <- subscript0 primary_ranked ;; Ok (RankedCategory.category e)
              end ;;
  Ok {| SceneSummary.primary_categories := primary_ranked;
        SceneSummary.all_categories := all_ranked;
        SceneSummary.dominant_scene_type := dominant;
        SceneSummary.scene_diversity := len primary_categories |}.

(** *** _aggregate_segmented_elements *)

Definition elements_to_track : list string :=
  ["sky"; "buildings"; "water"; "people"; "vegetation"; "food_drinks";
   "vehicles_transit"].

Record ElemAcc : Type := {
  element_presence : dict Z;
  element_prominence_sum : dict Q;
  people_count_total : Z;
  people_images : Z
}.

Definition ElemAcc_init : ElemAcc :=
  {| element_presence := []; element_prominence_sum := [];
     people_count_total := 0; people_images := 0 |}.

(** The body of the inner loop [for element in elements_to_track]. *)
Definition elem_step (segments : dict Elem.t) (st : ElemAcc) (element : string)
  : ElemAcc :=
  let elem_data := get_default (dict_get segments element) Elem.empty in
  if truthy_bool (Elem.present elem_data) then
    let prominence := get_default (Elem.prominence elem_data) 0%Q in
    let presence' := dd_add 0 Z.add element 1 (element_presence st) in
    let prominence' :=
      dd_add 0%Q Qplus element prominence (element_prominence_sum st) in
    let count := get_default (Elem.count elem_data) 0 in
    if String.eqb element "people" && truthy_int count then
      {| element_presence := presence';
         element_prominence_sum := prominence';
         people_count_total := people_count_total st + count;
         people_images := people_images st + 1 |}
    else
      {| element_presence := presence';
         element_prominence_sum := prominence';
         people_count_total := people_count_total st;
         people_images := people_images st |}
  else st.

(** The body of the outer loop [for analysis in analyses]. *)
Definition elem_loop_body (st : ElemAcc) (analysis : Analysis.t) : ElemAcc :=
  let segments := get_default (Analysis.segmented_elements analysis) [] in
  fold_left (elem_step segments) elements_to_track st.

(** The body of the loop that fills [element_stats]. *)
Definition stats_step (acc : ElemAcc) (total : Z)
                      (element_stats : dict ElemStats.t) (element : string)
  : exc (dict ElemStats.t) :=
  let presence := dd_get 0 (element_presence acc) element in
  rate <- py_truediv (inject_Z presence) (inject_Z total) ;;
  avg <- (if presence >? 0 then
            q <- py_truediv (dd_get 0%Q (element_prominence_sum acc) element)
                            (inject_Z presence) ;;
            Ok (py_round q 2)
          else Ok 0%Q) ;;
  Ok (dict_set element
        {| ElemStats.presence_count := presence;
           ElemStats.presence_rate := py_round (rate * 100) 1;
           ElemStats.avg_prominence := avg |}
        element_stats).

(** The sort key [(presence_count, avg_prominence)], compared as a tuple. *)
Definition stats_gtb (x y : string * ElemStats.t) : bool :=
  (ElemStats.presence_count (snd x) >? ElemStats.presence_count (snd y))
  || ((ElemStats.presence_count (snd x) =? ElemStats.presence_count (snd y))
      && Qgtb (ElemStats.avg_prominence (snd x))
              (ElemStats.avg_prominence (snd y))).

Definition is_dominant (e : string * ElemStats.t) : bool :=
  Qgeb (ElemStats.presence_rate (snd e)) 50.

Definition is_rare (e : string * ElemStats.t) : bool :=
  Qgtb (ElemStats.presence_rate (snd e)) 0
  && Qgtb 20 (ElemStats.presence_rate (snd e)).

Definition _aggregate_segmented_elements (analyses : list Analysis.t)
  : exc ElementSummary.t :=
  let acc := fold_left elem_loop_body analyses ElemAcc_init in
  let total := len analyses in
  element_stats <- foldM (stats_step acc total) elements_to_track [] ;;
  let ranked_elements := sorted_reverse stats_gtb element_stats in
  avg_people <- (if people_images acc >? 0 then
                   q <- py_truediv (inject_Z (people_count_total acc))
                                   (inject_Z (people_images acc)) ;;
                   Ok (py_round q 1)
                 else Ok 0%Q) ;;
  Ok {| ElementSummary.element_stats := element_stats;
        ElementSummary.ranked_by_presence := ranked_elements;
        ElementSummary.dominant_elements :=
          map fst (filter is_dominant ranked_elements);
        ElementSummary.rare_elements :=
          map fst (filter is_rare ranked_elements);
        ElementSummary.people_presence :=
          {| PeoplePresence.images_with_people := people_images acc;
             PeoplePresence.avg_people_per_image := avg_people |} |}.

(** *** _aggregate_visual_features *)

Record VisualAcc : Type := {
  all_colors : list string;
  color_temperatures : Counter;
  lighting_conditions : Counter;
  indoor_outdoor : Counter;
  times_of_day : Counter;
  weather : Counter
}.

Definition VisualAcc_init : VisualAcc :=
  {| all_colors := []; color_temperatures := []; lighting_conditions := [];
     indoor_outdoor := []; times_of_day := []; weather := [] |}.

Definition visual_step (st : VisualAcc) (analysis : Analysis.t) : VisualAcc :=
  let visual := get_default (Analysis.visual_features analysis) Visual.empty in
  let colors := get_default (Visual.dominant_colors visual) [] in
  {| all_colors := all_colors st ++ colors;
     color_temperatures :=
       tally (color_temperatures st) (Visual.color_temperature visual);
     lighting_conditions :=
       tally (lighting_conditions st) (Visual.lighting_condition visual);
     indoor_outdoor := tally (indoor_outdoor st) (Visual.indoor_outdoor visual);
     times_of_day := tally (times_of_day st) (Visual.time_of_day visual);
     weather := tally (weather st) (Visual.weather_apparent visual) |}.

Definition _aggregate_visual_features (analyses : list Analysis.t)
  : exc VisualSummary.t :=
  let st := fold_left visual_step analyses VisualAcc_init in
  let color_counts := Counter_of (all_colors st) in
  let top_colors := most_common_n 8 color_counts in
  temperature <- top_or (color_temperatures st) "mixed" ;;
  light <- top_or (lighting_conditions st) "varied" ;;
  primary_setting <- top_or (indoor_outdoor st) "mixed" ;;
  tod <- top_or (times_of_day st) "varied" ;;
  w <- top_or (weather st) "varied" ;;
  Ok {| VisualSummary.color_palette :=
          {| ColorPalette.top_colors := top_colors;
             ColorPalette.unique_colors_mentioned := len color_counts |};
        VisualSummary.color_temperature :=
          {| ColorTemperature.distribution := color_temperatures st;
             ColorTemperature.dominant := temperature |};
        VisualSummary.lighting :=
          {| Lighting.distribution := lighting_conditions st;
             Lighting.dominant := light |};
        VisualSummary.setting :=
          {| Setting.indoor_outdoor_distribution := indoor_outdoor st;
             Setting.primary_setting := primary_setting |};
        VisualSummary.time_of_day :=
          {| TimeOfDay.distribution := times_of_day st;
             TimeOfDay.most_common := tod |};
        VisualSummary.weather :=
          {| Weather.distribution := weather st;
             Weather.most_common := w |} |}.

(** *** _aggregate_mood_atmosphere *)

Record MoodAcc : Type := {
  moods : Counter;
  energy_levels : Counter;
  all_tags : list string
}.

Definition MoodAcc_init : MoodAcc :=
  {| moods := []; energy_levels := []; all_tags := [] |}.

Definition mood_step (st : MoodAcc) (analysis : Analysis.t) : MoodAcc :=
  let mood_data := get_default (Analysis.mood_atmosphere analysis) Mood.empty in
  {| moods := tally (moods st) (Mood.overall_mood mood_data);
     energy_levels := tally (energy_levels st) (Mood.energy_level mood_data);
     all_tags :=
       all_tags st ++ get_default (Mood.descriptive_tags mood_data) [] |}.

Definition _aggregate_mood_atmosphere (analyses : list Analysis.t)
  : exc MoodSummary.t :=
  let st := fold_left mood_step analyses MoodAcc_init in
  let tag_counts := Counter_of (all_tags st) in
  dominant <- top_or (moods st) "mixed" ;;
  energy <- top_or (energy_levels st) "medium" ;;
  consistency <- match moods st with
                 | [] => Ok 0%Q
                 | _ :: _ =>
                     e <- subscript0 (most_common_n 1 (moods st)) ;;
                     py_truediv (inject_Z (snd e)) (inject_Z (len analyses))
                 end ;;
  Ok {| MoodSummary.mood_distribution := moods st;
        MoodSummary.dominant_mood := dominant;
        MoodSummary.secondary_moods :=
          if len (moods st) >? 1
          then map fst (skipn 1 (most_common_n 3 (moods st)))
          else [];
        MoodSummary.energy_distribution := energy_levels st;
        MoodSummary.overall_energy := energy;
        MoodSummary.top_atmosphere_tags := most_common_n 10 tag_counts;
        MoodSummary.mood_consistency := consistency |}.

(** *** _aggregate_notable_elements *)

Definition notable_step (all_notable : list string) (analysis : Analysis.t)
  : list string :=
  all_notable ++ get_default (Analysis.notable_elements analysis) [].

Definition _aggregate_notable_elements (analyses : list Analysis.t)
  : exc NotableSummary.t :=
  let all_notable := fold_left notable_step analyses [] in
  let notable_counts := Counter_of all_notable in
  Ok {| NotableSummary.all_notable_elements := most_common_n 20 notable_counts;
        NotableSummary.unique_notable_count := len notable_counts;
        NotableSummary.recurring_elements :=
          map fst (filter (fun e => snd e >=? 2) notable_counts) |}.

(** *** _create_synthesis_prompt_data

    The five summaries are the dicts built above, so every key the projector
    asks for with [.get(key, default)] is there and the default is not used. *)

Definition _create_synthesis_prompt_data
    (scene_summary : SceneSummary.t) (element_summary : ElementSummary.t)
    (visual_summary : VisualSummary.t) (mood_summary : MoodSummary.t)
    (notable_summary : NotableSummary.t) : Synthesis.t :=
  let top_scene := SceneSummary.dominant_scene_type scene_summary in
  let secondary_scenes :=
    map RankedCategory.category
        (slice 1 4 (SceneSummary.primary_categories scene_summary)) in
  let colors :=
    map fst
        (slice 0 5 (ColorPalette.top_colors
                      (VisualSummary.color_palette visual_summary))) in
  let top_tags :=
    map fst (slice 0 5 (MoodSummary.top_atmosphere_tags mood_summary)) in
  {| Synthesis.primary_scene_type := top_scene;
     Synthesis.secondary_scene_types := secondary_scenes;
     Synthesis.dominant_visual_elements :=
       ElementSummary.dominant_elements element_summary;
     Synthesis.color_palette := colors;
     Synthesis.color_temperature :=
       ColorTemperature.dominant
         (VisualSummary.color_temperature visual_summary);
     Synthesis.lighting_style :=
       Lighting.dominant (VisualSummary.lighting visual_summary);
     Synthesis.setting :=
       Setting.primary_setting (VisualSummary.setting visual_summary);
     Synthesis.time_of_day :=
       TimeOfDay.most_common (VisualSummary.time_of_day visual_summary);
     Synthesis.dominant_mood := MoodSummary.dominant_mood mood_summary;
     Synthesis.mood_descriptors :=
       MoodSummary.secondary_moods mood_summary ++ top_tags;
     Synthesis.energy_level := MoodSummary.overall_energy mood_summary;
     Synthesis.recurring_notable_elements :=
       slice 0 10 (NotableSummary.recurring_elements notable_summary);
     Synthesis.has_people :=
       PeoplePresence.images_with_people
         (ElementSummary.people_presence element_summary) >? 0 |}.

(** *** aggregate_album_analysis *)

(** The filter [a.get("success") and a.get("analysis")]. *)
Definition survives (a : ImageAnalysis.t) : bool :=
  truthy_bool (ImageAnalysis.success a)
  && match ImageAnalysis.analysis a with
     | Some payload => Analysis.truthy payload
     | None => false
     end.

(** [a["analysis"]] *)
Definition subscript_analysis (a : ImageAnalysis.t) : exc Analysis.t :=
  match ImageAnalysis.analysis a with
  | Some payload => Ok payload
  | None => Raise KeyError
  end.

Definition valid_analyses (image_analyses : list ImageAnalysis.t)
  : exc (list Analysis.t) :=
  mapM subscript_analysis (filter survives image_analyses).

Definition aggregate_album_analysis (image_analyses : list ImageAnalysis.t)
  : exc AggregationResult :=
  valid <- valid_analyses image_analyses ;;
  match valid with
  | [] => Ok (Failure "No valid image analyses to aggregate")
  | _ :: _ =>
      let total_images := len valid in
      scene_summary <- _aggregate_scene_classifications valid ;;
      element_summary <- _aggregate_segmented_elements valid ;;
      visual_summary <- _aggregate_visual_features valid ;;
      mood_summary <- _aggregate_mood_atmosphere valid ;;
      notable_summary <- _aggregate_notable_elements valid ;;
      Ok (Success
            {| AlbumProfile.total_images_analyzed := total_images;
               AlbumProfile.scene_summary := scene_summary;
               AlbumProfile.element_summary := element_summary;
               AlbumProfile.visual_summary := visual_summary;
               AlbumProfile.mood_summary := mood_summary;
               AlbumProfile.notable_elements := notable_summary;
               AlbumProfile.synthesis_prompt_data :=
                 _create_synthesis_prompt_data
                   scene_summary element_summary visual_summary
                   mood_summary notable_summary |})
  end.

(** ** A block bound to JSON [null]

    [analysis.get("scene_classification", {})] gives [{}] for a missing key
    only: under a key bound to [null] it gives [None], and the [.get] that
    follows raises.  The scene reducer once more, over payloads whose scene
    block is read as the key holds it; the keys this reducer does not read
    are left out. *)

Module WithNull.

(** What a key of a JSON object is bound to. *)
Inductive value (A : Type) : Type :=
| Null
| Val (a : A).

Arguments Null {A}.
Arguments Val {A} a.

(** The payload, as far as this reducer reads it. *)
Record analysis : Type := { scene_classification : option (value Scene.t) }.

(** [x.get(k)] reads the dict [x]; [None] has no attribute [get]. *)
Definition attr_get {A : Type} (x : value A) : exc A :=
  match x with
  | Val d => Ok d
  | Null => Raise AttributeError
  end.

Definition scene_step (st : Counter * Counter) (a : analysis)
  : exc (Counter * Counter) :=
  let scene :=
    get_default (scene_classification a) (Val Scene.empty) in
  scene <- attr_get scene ;;
  let primary := Scene.primary_category scene in
  let primary_categories := tally (fst st) primary in
  let all_categories := tally (snd st) primary in
  Ok (primary_categories,
      fold_left counter_incr
        (get_default (Scene.secondary_categories scene) []) all_categories).

Definition _aggregate_scene_classifications (analyses : list analysis)
  : exc SceneSummary.t :=
  st <- foldM scene_step analyses ([], []) ;;
  let primary_categories := fst st in
  let all_categories := snd st in
  let total := len analyses in
  primary_ranked <- mapM (ranked_entry total) (most_common primary_categories) ;;
  all_ranked <- mapM (ranked_entry total) (most_common all_categories) ;;
  dominant <- match primary_ranked with
              | [] => Ok "mixed"
              | _ :: _ =>
                  e <- subscript0 primary_ranked ;; Ok (RankedCategory.category e)
              end ;;
  Ok {| SceneSummary.primary_categories := primary_ranked;
        SceneSummary.all_categories := all_ranked;
        SceneSummary.dominant_scene_type := dominant;
        SceneSummary.scene_diversity := len primary_categories |}.

(** A payload without [null] seen at this level. *)
Definition of_typed (a : Analysis.t) : analysis :=
  {| scene_classification := option_map Val (Analysis.scene_classification a) |}.

End WithNull.

(** * The Flask application (backend/app.py)

    File names are strings of 8-bit characters; [lower] acts on the ASCII
    letters, as [str.lower] does on them.  The global [sessions] dict is
    threaded through the handler as explicit state. *)

(** ['.' in filename] *)
Fixpoint contains_dot (s : string) : bool :=
  match s with
  | EmptyString => false
  | String c rest => Ascii.eqb c "." || contains_dot rest
  end.

(** The two parts of [s.rsplit('.', 1)] when [s] has a dot: what stands
    before the last dot and what stands after it. *)
Fixpoint rsplit_dot (s : string) : option (string * string) :=
  match s with
  | EmptyString => None
  | String c rest =>
      match rsplit_dot rest with
      | Some (before, after) => Some (String c before, after)
      | None => if Ascii.eqb c "." then Some (EmptyString, rest) else None
      end
  end.

(** [s.rsplit('.', 1)] *)
Definition rsplit1 (s : string) : list string :=
  match rsplit_dot s with
  | Some (before, after) => [before; after]
  | None => [s]
  end.

(** [xs[1]] *)
Definition subscript1 {A : Type} (xs : list A) : exc A :=
  match xs with
  | _ :: x :: _ => Ok x
  | _ => Raise IndexError
  end.

Definition lower_ascii (c : ascii) : ascii :=
  let n := nat_of_ascii c in
  if (65 <=? n)%nat && (n <=? 90)%nat then ascii_of_nat (n + 32) else c.

(** [s.lower()] *)
Fixpoint lower (s : string) : string :=
  match s with
  | EmptyString => EmptyString
  | String c rest => String (lower_ascii c) (lower rest)
  end.

Definition ALLOWED_EXTENSIONS : list string :=
  ["png"; "jpg"; "jpeg"; "gif"; "webp"].

(** [x in ALLOWED_EXTENSIONS] *)
Definition is_allowed_extension (x : string) : bool :=
  existsb (String.eqb x) ALLOWED_EXTENSIONS.

Definition allowed_file (filename : string) : exc bool :=
  if contains_dot filename then
    part <- subscript1 (rsplit1 filename) ;;
    Ok (is_allowed_extension (lower part))
  else Ok false.

Definition get_image_format (filename : string) : exc string :=
  part <- subscript1 (rsplit1 filename) ;;
  let ext := lower part in
  if String.eqb ext "jpg" then Ok "jpeg" else Ok ext.

(** One entry of [sessions].  The handler below reads and writes three of
    its keys; the stored images and the postcard are left abstract. *)
Module Session.
Record t (Image Postcard : Type) : Type := {
  created_at : string;
  status : string;
  images : list Image;
  analyses : list ImageAnalysis.t;
  aggregation : option AggregationResult;
  postcard : option Postcard
}.
Arguments created_at {Image Postcard} _.
Arguments status {Image Postcard} _.
Arguments images {Image Postcard} _.
Arguments analyses {Image Postcard} _.
Arguments aggregation {Image Postcard} _.
Arguments postcard {Image Postcard} _.
End Session.

(** The JSON body of [request.get_json()]; only [session_id] is read. *)
Module AggregateRequest.
Record t : Type := { session_id : option string }.
End AggregateRequest.

(** The JSON bodies the handler returns. *)
Inductive AggregateBody : Type :=
| ErrorBody (error : string)
| AggregationBody (success : bool) (aggregation : AggregationResult).

(** [aggregation_result.get("success", False)] *)
Definition result_success (r : AggregationResult) : bool :=
  match r with
  | Failure _ => false
  | Success _ => true
  end.

Section AggregateHandler.
Context {Image Postcard : Type}.

Definition Sessions : Type := dict (Session.t Image Postcard).

(** [sessions[session_id]] *)
Definition subscript_session (sessions : Sessions) (session_id : string)
  : exc (Session.t Image Postcard) :=
  match dict_get sessions session_id with
  | Some session => Ok session
  | None => Raise KeyError
  end.

(** The handler of [POST /api/aggregate]: the body and status code it
    returns, and [sessions] afterwards. *)
Definition aggregate_analysis (data : option AggregateRequest.t)
                              (sessions : Sessions)
  : exc ((AggregateBody * Z) * Sessions) :=
  let session_id :=
    match data with
    | Some d => AggregateRequest.session_id d
    | None => None
    end in
  let sid := get_default session_id "" in
  if negb (truthy_str session_id)
     || negb (match dict_get sessions sid with Some _ => true | None => false end)
  then Ok ((ErrorBody "Invalid or missing session_id", 400), sessions)
  else
    session <- subscript_session sessions sid ;;
    match Session.analyses session with
    | [] =>
        Ok ((ErrorBody "No analyses available. Run /api/analyze first.", 400),
            sessions)
    | _ :: _ =>
        aggregation_result <- aggregate_album_analysis (Session.analyses session) ;;
        let session' :=
          {| Session.created_at := Session.created_at session;
             Session.status := "aggregated";
             Session.images := Session.images session;
             Session.analyses := Session.analyses session;
             Session.aggregation := Some aggregation_result;
             Session.postcard := Session.postcard session |} in
        Ok ((AggregationBody (result_success aggregation_result)
                             aggregation_result, 200),
            dict_set sid session' sessions)
    end.
End AggregateHandler.

(** * Specification vocabulary

    The notions the statements below are written in: what the loops count,
    in which order, and the values the reducers produce once their
    divisions have gone through. *)

(** ** Counting and order of first occurrence *)

Definition memb (k : string) (l : list string) : bool :=
  existsb (String.eqb k) l.

(** The number of occurrences of [k] in [xs], as a Python int. *)
Definition count_in (k : string) (xs : list string) : Z :=
  Z.of_nat (count_occ string_dec xs k).

(** The distinct entries of [xs], each at the place of its first occurrence:
    the insertion order of a dict filled by a loop over [xs]. *)
Fixpoint first_seen (xs : list string) : list string :=
  match xs with
  | [] => []
  | x :: xs' => x :: filter (fun y => negb (String.eqb x y)) (first_seen xs')
  end.

(** The position of the first occurrence of [k] in [xs]. *)
Fixpoint first_index (k : string) (xs : list string) : nat :=
  match xs with
  | [] => O
  | x :: xs' => if String.eqb x k then O else S (first_index k xs')
  end.

(** Entry [x] precedes entry [y] in a ranking by count whose ties are
    broken by [tie]. *)
Definition ranks_before (tie : string -> string -> Prop) (x y : string * Z)
  : Prop :=
  snd x > snd y \/ (snd x = snd y /\ tie (fst x) (fst y)).

(** Entry [x] is ranked before entry [y]: by descending count, and among
    equal counts by the first occurrence of the category in [seq]. *)
Definition ranked_before (seq : list string) (x y : RankedCategory.t) : Prop :=
  RankedCategory.count x > RankedCategory.count y
  \/ (RankedCategory.count x = RankedCategory.count y
      /\ (first_index (RankedCategory.category x) seq
          < first_index (RankedCategory.category y) seq)%nat).

(** [c.most_common(1)[0][0] if c else fallback], when it does not raise. *)
Definition top_value (c : Counter) (fallback : string) : string :=
  match most_common c with
  | e :: _ => fst e
  | [] => fallback
  end.

(** The value a [tally] counts: the field when it is there and truthy. *)
Definition counted (o : option string) : list string :=
  match o with
  | Some x => if truthy_str o then [x] else []
  | None => []
  end.

(** ** Valid records *)

(** The empty dict as a payload. *)
Definition empty_payload : Analysis.t :=
  {| Analysis.scene_classification := None;
     Analysis.segmented_elements := None;
     Analysis.visual_features := None;
     Analysis.mood_atmosphere := None;
     Analysis.notable_elements := None;
     Analysis.other_keys := [] |}.

(** A record takes part in the aggregation: its success flag is true and
    its payload is there and not empty. *)
Definition is_valid_record (a : ImageAnalysis.t) : Prop :=
  ImageAnalysis.success a = Some true /\
  exists payload,
    ImageAnalysis.analysis a = Some payload /\ payload <> empty_payload.

Definition payload_list (a : ImageAnalysis.t) : list Analysis.t :=
  match ImageAnalysis.analysis a with
  | Some payload => [payload]
  | None => []
  end.

(** The payloads of the records that pass the filter, in input order. *)
Definition payloads (image_analyses : list ImageAnalysis.t)
  : list Analysis.t :=
  flat_map payload_list (filter survives image_analyses).

(** ** What the reducers read *)

(** The blocks of a payload, [{}] when missing. *)
Definition scene_of (a : Analysis.t) : Scene.t :=
  get_default (Analysis.scene_classification a) Scene.empty.

Definition segments_of (a : Analysis.t) : dict Elem.t :=
  get_default (Analysis.segmented_elements a) [].

Definition visual_of (a : Analysis.t) : Visual.t :=
  get_default (Analysis.visual_features a) Visual.empty.

Definition mood_of (a : Analysis.t) : Mood.t :=
  get_default (Analysis.mood_atmosphere a) Mood.empty.

Definition elem_data_of (a : Analysis.t) (element : string) : Elem.t :=
  get_default (dict_get (segments_of a) element) Elem.empty.

(** The optional single-valued fields. *)
Definition primary_of (a : Analysis.t) : option string :=
  Scene.primary_category (scene_of a).

Definition color_temperature_of (a : Analysis.t) : option string :=
  Visual.color_temperature (visual_of a).

Definition lighting_of (a : Analysis.t) : option string :=
  Visual.lighting_condition (visual_of a).

Definition setting_of (a : Analysis.t) : option string :=
  Visual.indoor_outdoor (visual_of a).

Definition time_of_day_of (a : Analysis.t) : option string :=
  Visual.time_of_day (visual_of a).

Definition weather_of (a : Analysis.t) : option string :=
  Visual.weather_apparent (visual_of a).

Definition overall_mood_of (a : Analysis.t) : option string :=
  Mood.overall_mood (mood_of a).

Definition energy_level_of (a : Analysis.t) : option string :=
  Mood.energy_level (mood_of a).

(** No valid record supplies the field: it is missing or the empty string. *)
Definition never_supplied (field : Analysis.t -> option string)
                          (analyses : list Analysis.t) : Prop :=
  forall a, In a analyses -> field a = None \/ field a = Some "".

(** ** What the loops count, in input order *)

(** The values of one optional field that a tally counts. *)
Definition field_seq (field : Analysis.t -> option string)
                     (analyses : list Analysis.t) : list string :=
  flat_map (fun a => counted (field a)) analyses.

(** The categories the primary-only tally counts. *)
Definition primary_seq (analyses : list Analysis.t) : list string :=
  field_seq primary_of analyses.

(** The categories the combined tally counts: per record the primary
    category, then every secondary category. *)
Definition all_seq (analyses : list Analysis.t) : list string :=
  flat_map (fun a => counted (primary_of a)
                     ++ get_default (Scene.secondary_categories (scene_of a)) [])
           analyses.

Definition notable_seq (analyses : list Analysis.t) : list string :=
  flat_map (fun a => get_default (Analysis.notable_elements a) []) analyses.

(** [present = true] for [element] in the elements block of [a]. *)
Definition present_in (a : Analysis.t) (element : string) : bool :=
  truthy_bool (Elem.present (elem_data_of a element)).

(** The tracked elements counted as present, record after record. *)
Definition presence_seq (analyses : list Analysis.t) : list string :=
  flat_map (fun a => filter (present_in a) elements_to_track) analyses.

(** The number of images in which the people element is present. *)
Definition images_with_people_present (analyses : list Analysis.t) : Z :=
  len (filter (fun a => present_in a "people") analyses).

(** The image counts for [images_with_people]: people are present and the
    people count is truthy. *)
Definition people_counted (a : Analysis.t) : bool :=
  present_in a "people"
  && truthy_int (get_default (Elem.count (elem_data_of a "people")) 0).

(** The inner loop adds one to [people_images] at this element. *)
Definition people_hit (segments : dict Elem.t) (e : string) : bool :=
  truthy_bool (Elem.present (get_default (dict_get segments e) Elem.empty))
  && (String.eqb e "people"
      && truthy_int
           (get_default
              (Elem.count (get_default (dict_get segments e) Elem.empty)) 0)).

(** ** What the reducers produce *)

(** [round(count / n * 100, 1)] *)
Definition percentage_of (count n : Z) : Q :=
  py_round (inject_Z count / inject_Z n * 100) 1.

(** [q] is [x] rounded to one decimal place: a multiple of one tenth that is
    no farther from [x] than half a tenth.  When two tenths are equally
    near, either may be taken. *)
Definition rounded_to_tenth (q x : Q) : Prop :=
  (exists z : Z, q == z # 10)%Q /\
  (x - (1 # 20) <= q)%Q /\ (q <= x + (1 # 20))%Q.

(** [q] is [x >= 0] to the precision of a double: no farther from [x] than
    [x * 2^-53], which holds of [x] itself and of the double nearest to
    it. *)
Definition within_double_precision (q x : Q) : Prop :=
  (x * (1 - (1 # 9007199254740992)) <= q)%Q /\
  (q <= x * (1 + (1 # 9007199254740992)))%Q.

(** The ranked entry of a counter entry, once the division went through. *)
Definition entry_of (total : Z) (e : string * Z) : RankedCategory.t :=
  {| RankedCategory.category := fst e;
     RankedCategory.count := snd e;
     RankedCategory.percentage := percentage_of (snd e) total |}.

(** The stats of one element, once the divisions went through. *)
Definition stats_of (acc : ElemAcc) (total : Z) (element : string)
  : ElemStats.t :=
  let presence := dd_get 0 (element_presence acc) element in
  {| ElemStats.presence_count := presence;
     ElemStats.presence_rate := percentage_of presence total;
     ElemStats.avg_prominence :=
       if presence >? 0
       then py_round (dd_get 0%Q (element_prominence_sum acc) element
                      / inject_Z presence) 2
       else 0%Q |}.

Definition zero_stats : ElemStats.t :=
  {| ElemStats.presence_count := 0;
     ElemStats.presence_rate := 0;
     ElemStats.avg_prominence := 0 |}.

(** The entries of the top-20 list whose count is at least 2, in the order of
    that list. *)
Definition recurring_of_top20 (no : NotableSummary.t) : list string :=
  map fst (filter (fun e => snd e >=? 2)
                  (NotableSummary.all_notable_elements no)).

(** ** Notions for the further properties *)

(** [sum(1 for a in analyses if a.get("success"))], as the callers in
    app.py count the successful analyses. *)
Definition successful (analyses : list ImageAnalysis.t) : Z :=
  len (filter (fun a => truthy_bool (ImageAnalysis.success a)) analyses).

(** [w] is the most frequent entry of [seq]; among the most frequent ones it
    is the one seen first. *)
Definition is_winner (w : string) (seq : list string) : Prop :=
  In w seq /\
  forall k, In k seq ->
    count_in k seq < count_in w seq
    \/ (count_in k seq = count_in w seq
        /\ (first_index w seq <= first_index k seq)%nat).

(** [w] is the fallback when nothing was counted, the winner otherwise. *)
Definition winner_or (fallback w : string) (seq : list string) : Prop :=
  match seq with
  | [] => w = fallback
  | _ :: _ => is_winner w seq
  end.

(** Entry [x] of a tally of [seq] ranks before entry [y]. *)
Definition tally_before (seq : list string) (x y : string * Z) : Prop :=
  ranks_before (fun a b => (first_index a seq < first_index b seq)%nat) x y.

(** [top] is the list of the [n] best-ranked entries of the tally of [seq]:
    it has [n] entries, or all distinct entries when these are fewer; it is
    ranked; each entry carries its number of occurrences; and whatever is
    left out ranks after everything in it. *)
Definition top_ranking (n : nat) (seq : list string) (top : list (string * Z))
  : Prop :=
  List.length top = Nat.min n (List.length (first_seen seq)) /\
  StronglySorted (tally_before seq) top /\
  (forall e, In e top -> In (fst e) seq /\ snd e = count_in (fst e) seq) /\
  (forall k e, In k seq -> ~ In k (map fst top) -> In e top ->
               tally_before seq e (k, count_in k seq)).

(** The colour names, mood tags, in input order. *)
Definition color_seq (analyses : list Analysis.t) : list string :=
  flat_map (fun a => get_default (Visual.dominant_colors (visual_of a)) [])
           analyses.

Definition tag_seq (analyses : list Analysis.t) : list string :=
  flat_map (fun a => get_default (Mood.descriptive_tags (mood_of a)) [])
           analyses.

(** The prominence the loop adds for [element] of [a]. *)
Definition prominence_of (a : Analysis.t) (element : string) : Q :=
  get_default (Elem.prominence (elem_data_of a element)) 0%Q.

(** The key [(presence_count, avg_prominence)] of [x] is not below that of
    [y]. *)
Definition stats_ge (x y : string * ElemStats.t) : Prop :=
  ElemStats.presence_count (snd x) > ElemStats.presence_count (snd y)
  \/ (ElemStats.presence_count (snd x) = ElemStats.presence_count (snd y)
      /\ (ElemStats.avg_prominence (snd y)
          <= ElemStats.avg_prominence (snd x))%Q).

(** The prominence sum of an element lies between 0 and its presence
    count. *)
Definition prominence_inv (st : ElemAcc) : Prop :=
  forall e,
    (0 <= dd_get 0%Q (element_prominence_sum st) e)%Q /\
    (dd_get 0%Q (element_prominence_sum st) e
     <= inject_Z (dd_get 0%Z (element_presence st) e))%Q.

(** Every people count of the records is at least 0. *)
Definition counts_nonneg (analyses : list Analysis.t) : Prop :=
  forall a, In a analyses ->
            0 <= get_default (Elem.count (elem_data_of a "people")) 0%Z.

(** Every prominence of the records lies in [[0, 1]]. *)
Definition prominences_in_unit (analyses : list Analysis.t) : Prop :=
  forall a element,
    In a analyses ->
    (0 <= prominence_of a element)%Q /\ (prominence_of a element <= 1)%Q.

(** The people count the loop reads from [a]. *)
Definition people_count_of (a : Analysis.t) : Z :=
  get_default (Elem.count (elem_data_of a "people")) 0.

(** The people counts of the images counted for [images_with_people]. *)
Definition counted_people (analyses : list Analysis.t) : list Z :=
  map people_count_of (filter people_counted analyses).

Definition sum_Z (zs : list Z) : Z := fold_right Z.add 0 zs.

(** ** Sample inputs *)

Definition payload (sc : option Scene.t) (se : option (dict Elem.t))
    (vi : option Visual.t) (mo : option Mood.t) (no : option (list string))
  : Analysis.t :=
  {| Analysis.scene_classification := sc;
     Analysis.segmented_elements := se;
     Analysis.visual_features := vi;
     Analysis.mood_atmosphere := mo;
     Analysis.notable_elements := no;
     Analysis.other_keys := [] |}.

(** [{"success": True, "analysis": a}] *)
Definition analysed (a : Analysis.t) : ImageAnalysis.t :=
  {| ImageAnalysis.success := Some true; ImageAnalysis.analysis := Some a |}.

(** [{"success": False, "error": ...}] *)
Definition failed : ImageAnalysis.t :=
  {| ImageAnalysis.success := Some false; ImageAnalysis.analysis := None |}.

Definition scene (primary : string) (secondary : list string) : Scene.t :=
  {| Scene.primary_category := Some primary;
     Scene.secondary_categories := Some secondary |}.

(** A payload with a scene block only. *)
Definition scene_only (primary : string) (secondary : list string)
  : ImageAnalysis.t :=
  analysed (payload (Some (scene primary secondary)) None None None None).

(** A payload with a notable-elements list only. *)
Definition notable_only (notable : list string) : ImageAnalysis.t :=
  analysed (payload None None None None (Some notable)).

(** A payload with an elements block only. *)
Definition elements_only (segments : dict Elem.t) : ImageAnalysis.t :=
  analysed (payload None (Some segments) None None None).

(** A payload none of whose five blocks is there. *)
Definition blockless : ImageAnalysis.t :=
  analysed {| Analysis.scene_classification := None;
              Analysis.segmented_elements := None;
              Analysis.visual_features := None;
              Analysis.mood_atmosphere := None;
              Analysis.notable_elements := None;
              Analysis.other_keys := ["caption"] |}.

(** Scenario A of the specification, after one failed analysis. *)
Definition beach_beach_city : list ImageAnalysis.t :=
  [failed; scene_only "beach" []; scene_only "beach" []; scene_only "city" []].

(** One image whose primary category is also listed as secondary. *)
Definition beach_twice : list ImageAnalysis.t :=
  [scene_only "beach" ["beach"]].

(** Two primary categories with the same count. *)
Definition city_then_beach : list ImageAnalysis.t :=
  [scene_only "city" ["harbor"]; scene_only "beach" ["harbor"; "sunset"]].

(** People are present but no count is given. *)
Definition people_without_count : list ImageAnalysis.t :=
  [elements_only
     [("people", {| Elem.present := Some true;
                    Elem.prominence := Some 0.5%Q;
                    Elem.count := None |})]].

(** People are present and counted. *)
Definition people_with_count : list ImageAnalysis.t :=
  [failed;
   elements_only
     [("people", {| Elem.present := Some true;
                    Elem.prominence := Some 0.5%Q;
                    Elem.count := Some 3 |})]].

Definition sky_present : dict Elem.t :=
  [("sky", {| Elem.present := Some true;
              Elem.prominence := Some 0.4%Q;
              Elem.count := None |})].

(** The sky is in one of two valid images: a presence rate of exactly 50. *)
Definition sky_in_one_of_two : list ImageAnalysis.t :=
  [elements_only sky_present; failed; elements_only []].

(** The sky is in one of five valid images: a presence rate of exactly 20. *)
Definition sky_in_one_of_five : list ImageAnalysis.t :=
  [elements_only sky_present; blockless; blockless; blockless; blockless].

(** Two notable entries that recur, the rarer one seen first. *)
Definition harbor_lighthouse : list ImageAnalysis.t :=
  [notable_only ["harbor"; "lighthouse"];
   notable_only ["lighthouse"; "harbor"; "lighthouse"]].

Definition twenty_one_names : list string :=
  ["n01"; "n02"; "n03"; "n04"; "n05"; "n06"; "n07"; "n08"; "n09"; "n10"; "n11";
   "n12"; "n13"; "n14"; "n15"; "n16"; "n17"; "n18"; "n19"; "n20"; "n21"].

(** Twenty-one notable entries, each seen twice. *)
Definition twenty_one_twice : list ImageAnalysis.t :=
  [notable_only twenty_one_names; notable_only twenty_one_names].

(** The session a request names: its [session_id] is there, not empty, and
    a key of [sessions]. *)
Definition requested_session {Image Postcard : Type}
    (data : option AggregateRequest.t)
    (sessions : dict (Session.t Image Postcard))
  : option (string * Session.t Image Postcard) :=
  match data with
  | Some d =>
      match AggregateRequest.session_id d with
      | Some sid =>
          if String.eqb sid "" then None
          else match dict_get sessions sid with
               | Some session => Some (sid, session)
               | None => None
               end
      | None => None
      end
  | None => None
  end.

(** The session after a successful run of the handler. *)
Definition aggregated {Image Postcard : Type}
    (session : Session.t Image Postcard) (r : AggregationResult)
  : Session.t Image Postcard :=
  {| Session.created_at := Session.created_at session;
     Session.status := "aggregated";
     Session.images := Session.images session;
     Session.analyses := Session.analyses session;
     Session.aggregation := Some r;
     Session.postcard := Session.postcard session |}.

(** A store with one session that holds the analyses of Scenario A. *)
Definition one_session : dict (Session.t unit unit) :=
  [("s1", {| Session.created_at := "2025-01-01T00:00:00";
             Session.status := "analyzed";
             Session.images := [tt; tt; tt; tt];
             Session.analyses := beach_beach_city;
             Session.aggregation := None;
             Session.postcard := None |})].

Definition request_s1 : option AggregateRequest.t :=
  Some {| AggregateRequest.session_id := Some "s1" |}.

(** People are present, with this count. *)
Definition people_seen (count : option Z) : ImageAnalysis.t :=
  elements_only
    [("people", {| Elem.present := Some true;
                   Elem.prominence := Some 0.5%Q;
                   Elem.count := count |})].

(** Two images with counted people, one with people and no count. *)
Definition people_album : list ImageAnalysis.t :=
  [people_seen (Some 3); failed; people_seen None; people_seen (Some 4)].

(** A record with a scene, a visual and a mood block. *)
Definition described (primary : string) (colors : list string)
    (temperature lighting setting tod weather mood energy : string)
    (tags : list string) : ImageAnalysis.t :=
  analysed
    (payload
       (Some (scene primary []))
       None
       (Some {| Visual.dominant_colors := Some colors;
                Visual.color_temperature := Some temperature;
                Visual.lighting_condition := Some lighting;
                Visual.indoor_outdoor := Some setting;
                Visual.time_of_day := Some tod;
                Visual.weather_apparent := Some weather |})
       (Some {| Mood.overall_mood := Some mood;
                Mood.energy_level := Some energy;
                Mood.descriptive_tags := Some tags |})
       None).

(** Five described images and a failed analysis: four primary categories
    and four moods, each with one value seen twice and ties among the
    others. *)
Definition rich_album : list ImageAnalysis.t :=
  [described "beach" ["blue"; "gold"] "warm" "golden_hour" "outdoor" "sunset"
             "sunny" "serene" "low" ["calm"; "warm"];
   described "city" ["grey"; "blue"] "cool" "overcast" "outdoor" "midday"
             "cloudy" "bustling" "high" ["busy"; "calm"];
   failed;
   described "food" ["red"] "warm" "indoor_artificial" "indoor" "evening"
             "unclear" "vibrant" "high" ["busy"; "tasty"];
   described "city" ["grey"] "cool" "overcast" "outdoor" "midday"
             "cloudy" "bustling" "medium" ["busy"];
   described "nature" ["green"] "neutral" "bright_daylight" "outdoor"
             "morning" "sunny" "playful" "high" ["fresh"]].

(** A record with mood tags only. *)
Definition tagged (tags : list string) : ImageAnalysis.t :=
  analysed
    (payload None None None
       (Some {| Mood.overall_mood := None;
                Mood.energy_level := None;
                Mood.descriptive_tags := Some tags |})
       None).

(** Eleven distinct tags, two of them seen twice. *)
Definition tagged_album : list ImageAnalysis.t :=
  [tagged ["calm"; "warm"; "busy"; "tasty"; "fresh"; "bright"; "quiet";
           "lively"; "rustic"; "urban"; "scenic"];
   tagged ["scenic"; "busy"]].

(** The only record is valid and its scene block is [null]:
    [[{"success": True, "analysis": {"scene_classification": None}}]]. *)
Definition null_scene : list WithNull.analysis :=
  [{| WithNull.scene_classification := Some WithNull.Null |}].

(** A store whose session ["s0"] has no analyses yet. *)
Definition unanalysed_session : dict (Session.t unit unit) :=
  [("s0", {| Session.created_at := "2025-01-01T00:00:00";
             Session.status := "created";
             Session.images := [tt];
             Session.analyses := [];
             Session.aggregation := None;
             Session.postcard := None |})].

Definition request_s0 : option AggregateRequest.t :=
  Some {| AggregateRequest.session_id := Some "s0" |}.

(** A request that names a session the store does not have. *)
Definition request_unknown : option AggregateRequest.t :=
  Some {| AggregateRequest.session_id := Some "nowhere" |}.

(** * Properties *)

(** ** The error monad *)

Lemma Ok_inj {A : Type} (a b : A) : Ok a = Ok b -> a = b.
Proof. congruence. Qed.

Lemma py_truediv_Z (a : Q) (t : Z) :
  t <> 0 -> py_truediv a (inject_Z t) = Ok (a / inject_Z t)%Q.
Proof.
  intros Ht. unfold py_truediv.
  destruct (Qeq_bool (inject_Z t) 0) eqn:E; [|reflexivity].
  apply Qeq_bool_eq in E. unfold Qeq in E. simpl in E. lia.
Qed.

Lemma mapM_total {A B : Type} (f : A -> exc B) (g : A -> B) (l : list A) :
  (forall a, In a l -> f a = Ok (g a)) -> mapM f l = Ok (map g l).
Proof.
  induction l as [|x xs IH]; simpl; intros H; [reflexivity|].
  rewrite (H x) by auto. simpl. rewrite IH by auto. reflexivity.
Qed.

Lemma foldM_total {A S : Type} (f : S -> A -> exc S) (g : S -> A -> S) :
  (forall s a, f s a = Ok (g s a)) ->
  forall l s, foldM f l s = Ok (fold_left g l s).
Proof.
  intros H. induction l as [|x xs IH]; simpl; intros s; [reflexivity|].
  rewrite H. simpl. apply IH.
Qed.

(** ** Rounding *)

Lemma round_half_even_bounds (x : Q) :
  let n := Qnum x in
  let d := Zpos (Qden x) in
  n / d <= round_half_even x <= n / d + 1 /\
  (n mod d = 0 -> round_half_even x = n / d).
Proof.
  intros n d. unfold round_half_even. fold n. fold d.
  assert (Hd : 0 < d) by (unfold d; lia).
  pose proof (Z.mod_pos_bound n d Hd) as Hm.
  destruct (2 * (n mod d) ?= d) eqn:E.
  - apply Z.compare_eq in E.
    destruct (Z.even (n / d)); split; try lia; intros; lia.
  - split; [lia | reflexivity].
  - rewrite Z.compare_gt_iff in E. split; [lia | intros; lia].
Qed.

Lemma round_half_even_nonneg (x : Q) : (0 <= x)%Q -> 0 <= round_half_even x.
Proof.
  intros Hx. pose proof (round_half_even_bounds x) as [[Hlo _] _].
  unfold Qle in Hx. simpl in Hx.
  assert (0 <= Qnum x / Zpos (Qden x)) by (apply Z.div_pos; lia).
  lia.
Qed.

Lemma round_half_even_le (x : Q) (m : Z) :
  (x <= inject_Z m)%Q -> round_half_even x <= m.
Proof.
  intros Hx. pose proof (round_half_even_bounds x) as [[_ Hhi] Hex].
  unfold Qle in Hx. simpl in Hx.
  set (n := Qnum x) in *. set (d := Zpos (Qden x)) in *.
  assert (Hd : 0 < d) by (unfold d; lia).
  assert (Hn : n <= m * d) by lia.
  destruct (Z.eq_dec (n mod d) 0) as [Hz|Hnz].
  - rewrite (Hex Hz). apply Z.div_le_upper_bound; lia.
  - assert (n / d < m); [|lia].
    apply Z.div_lt_upper_bound; [lia|].
    pose proof (Z.div_mod n d ltac:(lia)) as Hdm.
    pose proof (Z.mod_pos_bound n d Hd).
    destruct (Z.eq_dec n (m * d)) as [->|]; [|lia].
    rewrite Z.mod_mul in Hnz by lia. congruence.
Qed.

Lemma py_round_nonneg (x : Q) (nd : nat) : (0 <= x)%Q -> (0 <= py_round x nd)%Q.
Proof.
  intros Hx. unfold py_round. rewrite Qred_correct.
  assert (Hp : 0 < 10 ^ Z.of_nat nd) by (apply Z.pow_pos_nonneg; lia).
  assert (0 <= round_half_even (x * inject_Z (10 ^ Z.of_nat nd))).
  { apply round_half_even_nonneg. apply Qmult_le_0_compat; [assumption|].
    unfold Qle; simpl; lia. }
  unfold Qle; simpl. lia.
Qed.

Lemma py_round_le (x : Q) (nd : nat) (m : Z) :
  (x <= inject_Z m)%Q -> (py_round x nd <= inject_Z m)%Q.
Proof.
  intros Hx. unfold py_round. rewrite Qred_correct.
  set (p := 10 ^ Z.of_nat nd).
  assert (Hp : 0 < p) by (apply Z.pow_pos_nonneg; lia).
  assert (H : round_half_even (x * inject_Z p) <= m * p).
  { apply round_half_even_le. rewrite inject_Z_mult.
    apply Qmult_le_compat_r; [assumption|]. unfold Qle; simpl; lia. }
  unfold Qle; simpl. rewrite Z2Pos.id by assumption. lia.
Qed.

Lemma round_half_even_near (x : Q) :
  2 * round_half_even x * Zpos (Qden x) - Zpos (Qden x) <= 2 * Qnum x /\
  2 * Qnum x <= 2 * round_half_even x * Zpos (Qden x) + Zpos (Qden x).
Proof.
  unfold round_half_even.
  set (n := Qnum x). set (d := Zpos (Qden x)).
  assert (Hd : 0 < d) by (unfold d; lia).
  pose proof (Z.mod_pos_bound n d Hd) as Hm.
  pose proof (Z.div_mod n d ltac:(lia)) as Hdm.
  destruct (2 * (n mod d) ?= d) eqn:E.
  - apply Z.compare_eq in E. destruct (Z.even (n / d)); nia.
  - rewrite Z.compare_lt_iff in E. nia.
  - rewrite Z.compare_gt_iff in E. nia.
Qed.

Lemma py_round_tenth (x : Q) : rounded_to_tenth (py_round x 1) x.
Proof.
  unfold rounded_to_tenth.
  change (py_round x 1)
    with (Qred (round_half_even (x * inject_Z 10) # 10)).
  split; [eexists; apply Qred_correct|].
  rewrite Qred_correct.
  pose proof (round_half_even_near (x * inject_Z 10)) as [Hlo Hhi].
  set (z := round_half_even (x * inject_Z 10)) in *.
  destruct x as [n d]. cbn [Qnum Qden Qmult inject_Z] in Hlo, Hhi.
  rewrite Pos.mul_1_r in Hlo, Hhi.
  unfold Qle, Qminus, Qplus, Qopp. cbn [Qnum Qden].
  rewrite !Pos2Z.inj_mul. split; nia.
Qed.

Lemma exact_within_double_precision (x : Q) :
  (0 <= x)%Q -> within_double_precision x x.
Proof.
  intros Hx. unfold within_double_precision. split.
  - apply Qle_trans with (x * 1)%Q; [|rewrite Qmult_1_r; apply Qle_refl].
    rewrite !(Qmult_comm x). apply Qmult_le_compat_r; [|exact Hx].
    unfold Qle; simpl; lia.
  - apply Qle_trans with (x * 1)%Q; [rewrite Qmult_1_r; apply Qle_refl|].
    rewrite !(Qmult_comm x). apply Qmult_le_compat_r; [|exact Hx].
    unfold Qle; simpl; lia.
Qed.

Lemma quotient_is_one (c n : Z) :
  0 < n -> ((inject_Z c / inject_Z n == 1)%Q <-> c = n).
Proof.
  intros Hn. unfold Qeq, Qdiv, Qinv, Qmult, inject_Z. simpl.
  destruct n as [|p|p]; try lia. simpl. lia.
Qed.

Lemma py_round_zero (x : Q) (nd : nat) : Qnum x = 0 -> py_round x nd = 0%Q.
Proof.
  intros Hx. unfold py_round.
  assert (E : round_half_even (x * inject_Z (10 ^ Z.of_nat nd)) = 0).
  { unfold round_half_even. simpl Qnum. rewrite Hx. simpl. reflexivity. }
  rewrite E. unfold Qred. simpl. reflexivity.
Qed.

(** ** Dictionaries and counters *)

Lemma memb_app (k : string) (l1 l2 : list string) :
  memb k (l1 ++ l2) = memb k l1 || memb k l2.
Proof. unfold memb. apply existsb_app. Qed.

Lemma count_in_nil (k : string) : count_in k [] = 0.
Proof. reflexivity. Qed.

Lemma count_in_cons (k x : string) (xs : list string) :
  count_in k (x :: xs) = (if String.eqb x k then 1 else 0) + count_in k xs.
Proof.
  unfold count_in. simpl.
  destruct (string_dec x k) as [->|Hne].
  - rewrite String.eqb_refl. lia.
  - apply String.eqb_neq in Hne. rewrite Hne. lia.
Qed.

Lemma count_in_app (k : string) (xs ys : list string) :
  count_in k (xs ++ ys) = count_in k xs + count_in k ys.
Proof. unfold count_in. rewrite count_occ_app. lia. Qed.

Lemma count_in_nonneg (k : string) (xs : list string) : 0 <= count_in k xs.
Proof. unfold count_in. lia. Qed.

Lemma count_in_pos (k : string) (xs : list string) :
  In k xs <-> 0 < count_in k xs.
Proof.
  unfold count_in. rewrite (count_occ_In string_dec). lia.
Qed.

Section DictFacts.
Context {V : Type}.
Implicit Types (d : dict V) (k : string) (v : V).

Lemma dict_get_set d k v k' :
  dict_get (dict_set k v d) k' =
  if String.eqb k k' then Some v else dict_get d k'.
Proof.
  induction d as [|[k0 v0] d IH]; simpl.
  - reflexivity.
  - destruct (String.eqb k0 k) eqn:E0; simpl.
    + apply String.eqb_eq in E0. subst k0.
      destruct (String.eqb k k'); reflexivity.
    + destruct (String.eqb k0 k') eqn:E1.
      * apply String.eqb_eq in E1. subst k0.
        rewrite String.eqb_sym, E0. reflexivity.
      * apply IH.
Qed.

Lemma keys_dict_set d k v :
  keys (dict_set k v d) = if memb k (keys d) then keys d else keys d ++ [k].
Proof.
  induction d as [|[k0 v0] d IH]; simpl.
  - reflexivity.
  - rewrite (String.eqb_sym k k0).
    destruct (String.eqb k0 k) eqn:E0; simpl.
    + reflexivity.
    + unfold keys in *. simpl. rewrite IH.
      destruct (memb k (map fst d)); reflexivity.
Qed.

(** A dict is the list of its keys, each with its value. *)
Lemma dict_as_map d (zero : V) :
  NoDup (keys d) -> d = map (fun k => (k, dd_get zero d k)) (keys d).
Proof.
  induction d as [|[k0 v0] d IH]; simpl; intros Hnd; [reflexivity|].
  inversion Hnd as [|? ? Hnotin Hnd']; subst.
  unfold dd_get at 1. simpl. rewrite String.eqb_refl. simpl. f_equal.
  rewrite (IH Hnd') at 1. apply map_ext_in. intros k Hk.
  unfold dd_get. simpl.
  destruct (String.eqb k0 k) eqn:E; [|reflexivity].
  apply String.eqb_eq in E. subst. contradiction.
Qed.
End DictFacts.

Lemma filter_filter {A : Type} (f g : A -> bool) (l : list A) :
  filter f (filter g l) = filter (fun x => g x && f x) l.
Proof.
  induction l as [|x xs IH]; simpl; [reflexivity|].
  destruct (g x); simpl; [destruct (f x)|]; rewrite ?IH; reflexivity.
Qed.

Lemma dd_get_counter_incr (c : Counter) (k k' : string) :
  dd_get 0 (counter_incr c k) k' =
  dd_get 0 c k' + (if String.eqb k k' then 1 else 0).
Proof.
  unfold counter_incr, dd_add, dd_get. rewrite dict_get_set.
  destruct (String.eqb k k') eqn:E; simpl; [|lia].
  apply String.eqb_eq in E. subst. reflexivity.
Qed.

Lemma dd_get_fold_incr (xs : list string) (c : Counter) (k : string) :
  dd_get 0 (fold_left counter_incr xs c) k = dd_get 0 c k + count_in k xs.
Proof.
  revert c. induction xs as [|x xs IH]; intros c; simpl.
  - rewrite count_in_nil. lia.
  - rewrite IH, dd_get_counter_incr, count_in_cons. lia.
Qed.

Lemma keys_counter_incr (c : Counter) (k : string) :
  keys (counter_incr c k) = if memb k (keys c) then keys c else keys c ++ [k].
Proof. unfold counter_incr, dd_add. apply keys_dict_set. Qed.

Lemma keys_fold_incr (xs : list string) (c : Counter) :
  keys (fold_left counter_incr xs c) =
  keys c ++ filter (fun k => negb (memb k (keys c))) (first_seen xs).
Proof.
  revert c. induction xs as [|x xs IH]; intros c; simpl.
  - rewrite app_nil_r. reflexivity.
  - rewrite IH, keys_counter_incr.
    destruct (memb x (keys c)) eqn:Ex; simpl.
    + f_equal. rewrite filter_filter. apply filter_ext_in. intros y _.
      destruct (String.eqb x y) eqn:E; simpl; [|reflexivity].
      apply String.eqb_eq in E. subst. rewrite Ex. reflexivity.
    + rewrite <- app_assoc. simpl. f_equal. f_equal.
      rewrite filter_filter. apply filter_ext. intros y.
      rewrite memb_app. simpl. rewrite orb_false_r, negb_orb.
      rewrite (String.eqb_sym y x). apply andb_comm.
Qed.

Lemma first_seen_In (k : string) (xs : list string) :
  In k (first_seen xs) <-> In k xs.
Proof.
  induction xs as [|x xs IH]; simpl; [tauto|].
  rewrite filter_In, IH.
  destruct (String.eqb x k) eqn:E.
  - apply String.eqb_eq in E. subst. simpl. intuition discriminate.
  - apply String.eqb_neq in E. simpl. intuition.
Qed.

Lemma NoDup_filter {A : Type} (f : A -> bool) (l : list A) :
  NoDup l -> NoDup (filter f l).
Proof.
  induction 1 as [|x l Hx Hnd IH]; simpl; [constructor|].
  destruct (f x); [constructor|]; auto.
  rewrite filter_In. tauto.
Qed.

Lemma first_seen_NoDup (xs : list string) : NoDup (first_seen xs).
Proof.
  induction xs as [|x xs IH]; simpl; constructor.
  - rewrite filter_In. intros [_ H]. rewrite String.eqb_refl in H. discriminate.
  - apply NoDup_filter. exact IH.
Qed.

(** [Counter(xs)] lists the distinct entries of [xs] in first-seen order,
    each with its number of occurrences. *)
Lemma Counter_of_spec (xs : list string) :
  Counter_of xs = map (fun k => (k, count_in k xs)) (first_seen xs).
Proof.
  assert (Hk : keys (Counter_of xs) = first_seen xs).
  { unfold Counter_of. rewrite keys_fold_incr. simpl.
    induction (first_seen xs) as [|y ys IH]; simpl; [reflexivity|].
    f_equal. exact IH. }
  rewrite (dict_as_map (Counter_of xs) 0).
  - rewrite Hk. apply map_ext. intros k. f_equal.
    unfold Counter_of. rewrite dd_get_fold_incr. reflexivity.
  - rewrite Hk. apply first_seen_NoDup.
Qed.

Lemma Counter_of_count (xs : list string) (e : string * Z) :
  In e (Counter_of xs) -> snd e = count_in (fst e) xs /\ In (fst e) xs.
Proof.
  rewrite Counter_of_spec, in_map_iff. intros [k [<- Hk]]. simpl.
  split; [reflexivity | apply first_seen_In; assumption].
Qed.

(** ** Stable descending sort *)

Section SortedReverseFacts.
Context {A : Type} (gtb : A -> A -> bool).

Lemma insert_desc_perm (x : A) (l : list A) :
    Permutation (insert_desc gtb x l) (x :: l).
  Proof.
    induction l as [|y ys IH]; simpl; [reflexivity|].
    destruct (gtb y x); [|reflexivity].
    rewrite IH. apply perm_swap.
  Qed.

Lemma sorted_reverse_perm (l : list A) : Permutation (sorted_reverse gtb l) l.
  Proof.
    induction l as [|x xs IH]; simpl; [reflexivity|].
    rewrite insert_desc_perm. constructor. exact IH.
  Qed.

Lemma sorted_reverse_In (x : A) (l : list A) :
    In x (sorted_reverse gtb l) <-> In x l.
  Proof.
    split; apply Permutation_in;
      [|symmetry]; apply sorted_reverse_perm.
  Qed.

Lemma sorted_reverse_nonempty (l : list A) :
    l <> [] -> sorted_reverse gtb l <> [].
  Proof.
    intros Hl E. apply Hl.
    apply Permutation_nil. rewrite <- E. apply sorted_reverse_perm.
  Qed.
End SortedReverseFacts.

Lemma StronglySorted_weaken {A : Type} (R R' : A -> A -> Prop) (l : list A) :
  (forall a b, In a l -> In b l -> R a b -> R' a b) ->
  StronglySorted R l -> StronglySorted R' l.
Proof.
  intros H Hs. induction Hs as [|x l Hs IH Hall]; constructor.
  - apply IH. intros a b Ha Hb. apply H; right; assumption.
  - rewrite Forall_forall in *. intros y Hy.
    apply H; [left; reflexivity | right; assumption | auto].
Qed.

Lemma StronglySorted_filter {A : Type} (R : A -> A -> Prop) (f : A -> bool)
      (l : list A) :
  StronglySorted R l -> StronglySorted R (filter f l).
Proof.
  induction 1 as [|x l Hs IH Hall]; simpl; [constructor|].
  destruct (f x); [constructor|]; auto.
  rewrite Forall_forall in *. intros y Hy. apply filter_In in Hy. apply Hall, Hy.
Qed.

Lemma StronglySorted_map {A B : Type} (R : B -> B -> Prop) (f : A -> B)
      (l : list A) :
  StronglySorted (fun a b => R (f a) (f b)) l -> StronglySorted R (map f l).
Proof.
  induction 1 as [|x l Hs IH Hall]; simpl; constructor; [assumption|].
  rewrite Forall_forall in *. intros y Hy.
  apply in_map_iff in Hy as [a [<- Ha]]. auto.
Qed.

Lemma insert_desc_ranked (tie : string -> string -> Prop) (x : string * Z)
      (l : list (string * Z)) :
  StronglySorted (ranks_before tie) l ->
  Forall (fun y => tie (fst x) (fst y)) l ->
  StronglySorted (ranks_before tie) (insert_desc count_gtb x l).
Proof.
  intros Hs Ht. induction Hs as [|y ys Hs IH Hall]; simpl.
  - constructor; constructor.
  - inversion Ht as [|? ? Hty Htys]; subst.
    unfold count_gtb at 1. destruct (snd y >? snd x) eqn:E.
    + constructor; [apply IH; assumption|].
      rewrite Forall_forall in *. intros z Hz.
      apply (Permutation_in _ (insert_desc_perm count_gtb x ys)) in Hz.
      destruct Hz as [<-|Hz]; [|auto].
      left. apply Z.gtb_lt in E. lia.
    + assert (Hle : snd y <= snd x) by (rewrite Z.gtb_ltb, Z.ltb_ge in E; lia).
      constructor; [constructor; assumption|].
      rewrite Forall_forall in *. intros z [<-|Hz].
      * unfold ranks_before. destruct (Z.eq_dec (snd x) (snd y)); [right|left];
          [split; assumption | lia].
      * pose proof (Hall z Hz) as Hyz. pose proof (Htys z Hz) as Hxz.
        unfold ranks_before in *.
        destruct (Z.eq_dec (snd x) (snd z)); [right; tauto | left; lia].
Qed.

(** [most_common] sorts by descending count and keeps the order of the
    counter among equal counts. *)
Lemma most_common_ranked (tie : string -> string -> Prop) (c : Counter) :
  StronglySorted (fun x y => tie (fst x) (fst y)) c ->
  StronglySorted (ranks_before tie) (most_common c).
Proof.
  unfold most_common. induction 1 as [|x xs Hs IH Hall]; simpl.
  - constructor.
  - apply insert_desc_ranked; [exact IH|].
    rewrite Forall_forall in *. intros y Hy. apply Hall.
    apply (sorted_reverse_In count_gtb). assumption.
Qed.

Lemma most_common_In (e : string * Z) (c : Counter) :
  In e (most_common c) <-> In e c.
Proof. apply sorted_reverse_In. Qed.

Lemma first_seen_sorted (xs : list string) :
  StronglySorted (fun a b => (first_index a xs < first_index b xs)%nat)
                 (first_seen xs).
Proof.
  induction xs as [|x xs IH]; simpl; constructor.
  - eapply StronglySorted_weaken; [|apply StronglySorted_filter; exact IH].
    simpl. intros a b Ha Hb Hab.
    apply filter_In in Ha as [_ Ha]. apply filter_In in Hb as [_ Hb].
    destruct (String.eqb x a), (String.eqb x b); try discriminate. lia.
  - rewrite Forall_forall. intros y Hy. apply filter_In in Hy as [_ Hy].
    rewrite String.eqb_refl. destruct (String.eqb x y); [discriminate | lia].
Qed.

(** ** The validity filter *)

Lemma truthy_nonempty (payload : Analysis.t) :
  Analysis.truthy payload = true <-> payload <> empty_payload.
Proof.
  destruct payload as [sc se vi mo no ok]. unfold Analysis.truthy, empty_payload.
  simpl. split.
  - intros H E. inversion E; subst. discriminate.
  - intros H.
    destruct sc, se, vi, mo, no, ok; try reflexivity. contradiction H. reflexivity.
Qed.

Lemma survives_iff (a : ImageAnalysis.t) :
  survives a = true <-> is_valid_record a.
Proof.
  unfold survives, is_valid_record. rewrite andb_true_iff.
  destruct a as [s an]; simpl. split.
  - intros [Hs Ha]. destruct s as [[|]|]; try discriminate.
    split; [reflexivity|].
    destruct an as [payload|]; [|discriminate].
    exists payload. split; [reflexivity | apply truthy_nonempty; assumption].
  - intros [-> [payload [-> Hne]]]. split; [reflexivity|].
    apply truthy_nonempty. assumption.
Qed.

Lemma valid_analyses_ok (l : list ImageAnalysis.t) :
  valid_analyses l = Ok (payloads l).
Proof.
  unfold valid_analyses, payloads.
  induction l as [|a l IH]; cbn [filter]; [reflexivity|].
  destruct (survives a) eqn:Ea; [|exact IH].
  cbn [mapM flat_map]. rewrite IH.
  unfold subscript_analysis, payload_list.
  unfold survives in Ea. apply andb_true_iff in Ea as [_ Ea].
  destruct (ImageAnalysis.analysis a) as [payload|]; [|discriminate].
  reflexivity.
Qed.

Lemma payloads_length (l : list ImageAnalysis.t) :
  List.length (payloads l) = List.length (filter survives l).
Proof.
  unfold payloads. induction l as [|a l IH]; cbn [filter]; [reflexivity|].
  destruct (survives a) eqn:Ea; [|exact IH].
  cbn [flat_map]. rewrite length_app. cbn [List.length]. rewrite IH.
  unfold payload_list.
  unfold survives in Ea. apply andb_true_iff in Ea as [_ Ea].
  destruct (ImageAnalysis.analysis a); [|discriminate].
  reflexivity.
Qed.

Lemma payloads_nil_iff (l : list ImageAnalysis.t) :
  payloads l = [] <-> ~ exists a, In a l /\ is_valid_record a.
Proof.
  rewrite <- length_zero_iff_nil, payloads_length, length_zero_iff_nil.
  split.
  - intros E [a [Ha Hv]]. apply survives_iff in Hv.
    assert (Hin : In a (filter survives l)) by (apply filter_In; auto).
    rewrite E in Hin. exact Hin.
  - intros H. destruct (filter survives l) as [|a r] eqn:E; [reflexivity|].
    exfalso. apply H. exists a.
    assert (Hin : In a (filter survives l)) by (rewrite E; left; reflexivity).
    apply filter_In in Hin as [Hin Hs]. split; [assumption|].
    apply survives_iff. assumption.
Qed.

Lemma len_nonzero {A : Type} (l : list A) : l <> [] -> len l <> 0.
Proof. destruct l; [congruence | unfold len; simpl; lia]. Qed.

(** ** Loops as folds over the counted values *)

Lemma fold_left_proj {S A C : Type} (step : S -> A -> S) (proj : S -> C)
      (upd : C -> A -> C) :
  (forall s a, proj (step s a) = upd (proj s) a) ->
  forall l s, proj (fold_left step l s) = fold_left upd l (proj s).
Proof.
  intros H. induction l as [|x xs IH]; intros s; simpl; [reflexivity|].
  rewrite IH, H. reflexivity.
Qed.

Lemma fold_incr_flat_map {A : Type} (f : A -> list string) (l : list A)
      (c : Counter) :
  fold_left (fun c a => fold_left counter_incr (f a) c) l c =
  fold_left counter_incr (flat_map f l) c.
Proof.
  revert c. induction l as [|x xs IH]; intros c; simpl; [reflexivity|].
  rewrite fold_left_app. apply IH.
Qed.

Lemma tally_counted (c : Counter) (o : option string) :
  tally c o = fold_left counter_incr (counted o) c.
Proof.
  unfold tally, counted. destruct o as [x|]; [|reflexivity].
  destruct (truthy_str (Some x)); reflexivity.
Qed.

Lemma tally_loop {S : Type} (step : S -> Analysis.t -> S) (proj : S -> Counter)
      (field : Analysis.t -> option string) :
  (forall s a, proj (step s a) = tally (proj s) (field a)) ->
  forall l s,
    proj (fold_left step l s) =
    fold_left counter_incr (field_seq field l) (proj s).
Proof.
  intros H l s.
  rewrite (fold_left_proj step proj (fun c a => tally c (field a)) H).
  unfold field_seq. rewrite <- fold_incr_flat_map.
  generalize (proj s). clear H s.
  induction l as [|x xs IH]; intros c; simpl; [reflexivity|].
  rewrite tally_counted. apply IH.
Qed.

Lemma extend_loop {S A : Type} (step : S -> A -> S) (proj : S -> list string)
      (f : A -> list string) :
  (forall s a, proj (step s a) = proj s ++ f a) ->
  forall l s, proj (fold_left step l s) = proj s ++ flat_map f l.
Proof.
  intros H. induction l as [|x xs IH]; intros s; simpl.
  - rewrite app_nil_r. reflexivity.
  - rewrite IH, H, <- app_assoc. reflexivity.
Qed.

Lemma top_or_total (c : Counter) (fallback : string) :
  top_or c fallback = Ok (top_value c fallback).
Proof.
  unfold top_or, top_value, most_common_n.
  destruct c as [|e c]; [reflexivity|].
  pose proof (sorted_reverse_nonempty count_gtb (e :: c) ltac:(discriminate)) as H.
  fold (most_common (e :: c)) in H.
  destruct (most_common (e :: c)) as [|e' r]; [contradiction|]. reflexivity.
Qed.

(** ** The scene reducer *)

Lemma scene_loop (analyses : list Analysis.t) (c1 c2 : Counter) :
  fold_left scene_step analyses (c1, c2) =
  (fold_left counter_incr (primary_seq analyses) c1,
   fold_left counter_incr (all_seq analyses) c2).
Proof.
  revert c1 c2. induction analyses as [|a l IH]; intros c1 c2; [reflexivity|].
  cbn [fold_left]. unfold scene_step at 2. cbn [fst snd].
  rewrite IH. unfold primary_seq, field_seq, all_seq. cbn [flat_map].
  rewrite !fold_left_app, !tally_counted. reflexivity.
Qed.

Lemma ranked_entry_total (total : Z) (e : string * Z) :
  total <> 0 -> ranked_entry total e = Ok (entry_of total e).
Proof.
  intros Ht. unfold ranked_entry. rewrite py_truediv_Z by assumption.
  reflexivity.
Qed.

Lemma scene_ok (analyses : list Analysis.t) :
  analyses <> [] ->
  _aggregate_scene_classifications analyses =
  Ok {| SceneSummary.primary_categories :=
          map (entry_of (len analyses))
              (most_common (Counter_of (primary_seq analyses)));
        SceneSummary.all_categories :=
          map (entry_of (len analyses))
              (most_common (Counter_of (all_seq analyses)));
        SceneSummary.dominant_scene_type :=
          top_value (Counter_of (primary_seq analyses)) "mixed";
        SceneSummary.scene_diversity :=
          len (Counter_of (primary_seq analyses)) |}.
Proof.
  intros Hne. apply len_nonzero in Hne.
  unfold _aggregate_scene_classifications. rewrite scene_loop. cbn [fst snd].
  fold (Counter_of (primary_seq analyses)). fold (Counter_of (all_seq analyses)).
  rewrite !(mapM_total _ (entry_of (len analyses)))
    by (intros; apply ranked_entry_total; assumption).
  cbn [bind]. unfold top_value.
  destruct (most_common (Counter_of (primary_seq analyses))); reflexivity.
Qed.

(** ** The element reducer *)

Lemma elem_presence_inner (segments : dict Elem.t) (es : list string)
      (st : ElemAcc) :
  element_presence (fold_left (elem_step segments) es st) =
  fold_left counter_incr
    (filter (fun e => truthy_bool
                        (Elem.present
                           (get_default (dict_get segments e) Elem.empty))) es)
    (element_presence st).
Proof.
  revert st. induction es as [|e es IH]; intros st; [reflexivity|].
  cbn [fold_left filter]. rewrite IH. unfold elem_step.
  destruct (truthy_bool _); [|reflexivity].
  destruct (_ && _); reflexivity.
Qed.

Lemma elem_presence_loop (analyses : list Analysis.t) :
  element_presence (fold_left elem_loop_body analyses ElemAcc_init) =
  Counter_of (presence_seq analyses).
Proof.
  unfold Counter_of, presence_seq.
  change (@nil (string * Z)) with (element_presence ElemAcc_init).
  generalize ElemAcc_init.
  induction analyses as [|a l IH]; intros st; [reflexivity|].
  cbn [fold_left flat_map]. rewrite IH, fold_left_app. f_equal.
  unfold elem_loop_body. apply elem_presence_inner.
Qed.

Lemma people_images_step (segments : dict Elem.t) (st : ElemAcc) (e : string) :
  people_images (elem_step segments st e) =
  people_images st + (if people_hit segments e then 1 else 0).
Proof.
  unfold elem_step, people_hit.
  destruct (truthy_bool _); simpl; [|lia].
  destruct (_ && _); simpl; lia.
Qed.

Lemma people_images_inner (a : Analysis.t) (st : ElemAcc) :
  people_images (elem_loop_body st a) =
  people_images st + (if people_counted a then 1 else 0).
Proof.
  unfold elem_loop_body.
  rewrite (fold_left_proj _ people_images
             (fun n e => n + (if people_hit (segments_of a) e then 1 else 0)))
    by (intros; apply people_images_step).
  unfold elements_to_track. cbn [fold_left].
  unfold people_hit at 1 2 3 5 6 7. cbn [String.eqb Ascii.eqb Bool.eqb].
  rewrite !andb_false_r. unfold people_hit, people_counted, present_in,
    elem_data_of, segments_of. rewrite String.eqb_refl. cbn [andb]. lia.
Qed.

Lemma people_images_loop (analyses : list Analysis.t) (st : ElemAcc) :
  people_images (fold_left elem_loop_body analyses st) =
  people_images st + len (filter people_counted analyses).
Proof.
  revert st. induction analyses as [|a l IH]; intros st; cbn [fold_left filter].
  - unfold len. simpl. lia.
  - rewrite IH, people_images_inner.
    destruct (people_counted a); unfold len; cbn [List.length]; lia.
Qed.

Lemma stats_step_total (acc : ElemAcc) (total : Z) (d : dict ElemStats.t)
      (e : string) :
  total <> 0 ->
  stats_step acc total d e = Ok (dict_set e (stats_of acc total e) d).
Proof.
  intros Ht. unfold stats_step, stats_of.
  rewrite py_truediv_Z by assumption. cbn [bind].
  destruct (dd_get 0 (element_presence acc) e >? 0) eqn:E; [|reflexivity].
  rewrite py_truediv_Z by (apply Z.gtb_lt in E; lia). reflexivity.
Qed.

Lemma element_stats_ok (acc : ElemAcc) (total : Z) :
  total <> 0 ->
  foldM (stats_step acc total) elements_to_track [] =
  Ok (map (fun e => (e, stats_of acc total e)) elements_to_track).
Proof.
  intros Ht.
  rewrite (foldM_total _ (fun d e => dict_set e (stats_of acc total e) d))
    by (intros; apply stats_step_total; assumption).
  reflexivity.
Qed.

Lemma elements_ok (analyses : list Analysis.t) :
  analyses <> [] ->
  let acc := fold_left elem_loop_body analyses ElemAcc_init in
  let es := map (fun e => (e, stats_of acc (len analyses) e)) elements_to_track in
  exists avg,
    _aggregate_segmented_elements analyses =
    Ok {| ElementSummary.element_stats := es;
          ElementSummary.ranked_by_presence := sorted_reverse stats_gtb es;
          ElementSummary.dominant_elements :=
            map fst (filter is_dominant (sorted_reverse stats_gtb es));
          ElementSummary.rare_elements :=
            map fst (filter is_rare (sorted_reverse stats_gtb es));
          ElementSummary.people_presence :=
            {| PeoplePresence.images_with_people :=
                 len (filter people_counted analyses);
               PeoplePresence.avg_people_per_image := avg |} |}.
Proof.
  intros Hne acc es. apply len_nonzero in Hne.
  unfold _aggregate_segmented_elements. fold acc.
  rewrite element_stats_ok by assumption. cbn [bind]. fold es.
  assert (Hp : people_images acc = len (filter people_counted analyses)).
  { unfold acc. rewrite people_images_loop. reflexivity. }
  destruct (people_images acc >? 0) eqn:E.
  - rewrite py_truediv_Z by (apply Z.gtb_lt in E; lia). cbn [bind].
    rewrite Hp. eexists. reflexivity.
  - cbn [bind]. rewrite Hp. eexists. reflexivity.
Qed.

(** ** The visual-feature, mood and notable-element reducers *)

Lemma visual_ok (analyses : list Analysis.t) :
  exists v,
    _aggregate_visual_features analyses = Ok v /\
    ColorTemperature.dominant (VisualSummary.color_temperature v) =
      top_value (Counter_of (field_seq color_temperature_of analyses)) "mixed" /\
    Lighting.dominant (VisualSummary.lighting v) =
      top_value (Counter_of (field_seq lighting_of analyses)) "varied" /\
    Setting.primary_setting (VisualSummary.setting v) =
      top_value (Counter_of (field_seq setting_of analyses)) "mixed" /\
    TimeOfDay.most_common (VisualSummary.time_of_day v) =
      top_value (Counter_of (field_seq time_of_day_of analyses)) "varied" /\
    Weather.most_common (VisualSummary.weather v) =
      top_value (Counter_of (field_seq weather_of analyses)) "varied".
Proof.
  unfold _aggregate_visual_features. rewrite !top_or_total. cbn [bind].
  eexists. split; [reflexivity|]. simpl.
  rewrite (tally_loop visual_step color_temperatures color_temperature_of)
    by reflexivity.
  rewrite (tally_loop visual_step lighting_conditions lighting_of)
    by reflexivity.
  rewrite (tally_loop visual_step indoor_outdoor setting_of) by reflexivity.
  rewrite (tally_loop visual_step times_of_day time_of_day_of) by reflexivity.
  rewrite (tally_loop visual_step weather weather_of) by reflexivity.
  repeat split; reflexivity.
Qed.

Lemma mood_ok (analyses : list Analysis.t) :
  analyses <> [] ->
  exists m,
    _aggregate_mood_atmosphere analyses = Ok m /\
    MoodSummary.dominant_mood m =
      top_value (Counter_of (field_seq overall_mood_of analyses)) "mixed" /\
    MoodSummary.overall_energy m =
      top_value (Counter_of (field_seq energy_level_of analyses)) "medium".
Proof.
  intros Hne. apply len_nonzero in Hne.
  unfold _aggregate_mood_atmosphere. rewrite !top_or_total. cbn [bind].
  assert (Hc : exists q,
             match moods (fold_left mood_step analyses MoodAcc_init) with
             | [] => Ok 0%Q
             | _ :: _ =>
                 e <- subscript0
                        (most_common_n 1
                           (moods (fold_left mood_step analyses MoodAcc_init))) ;;
                 py_truediv (inject_Z (snd e)) (inject_Z (len analyses))
             end = Ok q).
  { destruct (moods (fold_left mood_step analyses MoodAcc_init)) as [|e c] eqn:E.
    - eexists. reflexivity.
    - pose proof (sorted_reverse_nonempty count_gtb (e :: c)
                    ltac:(discriminate)) as H.
      unfold most_common_n, most_common.
      destruct (sorted_reverse count_gtb (e :: c)) as [|e' r]; [contradiction|].
      cbn [firstn subscript0 bind]. rewrite py_truediv_Z by assumption.
      eexists. reflexivity. }
  destruct Hc as [q ->]. cbn [bind].
  eexists. split; [reflexivity|]. simpl.
  rewrite (tally_loop mood_step moods overall_mood_of) by reflexivity.
  rewrite (tally_loop mood_step energy_levels energy_level_of) by reflexivity.
  split; reflexivity.
Qed.

Lemma notable_ok (analyses : list Analysis.t) :
  _aggregate_notable_elements analyses =
  Ok {| NotableSummary.all_notable_elements :=
          most_common_n 20 (Counter_of (notable_seq analyses));
        NotableSummary.unique_notable_count :=
          len (Counter_of (notable_seq analyses));
        NotableSummary.recurring_elements :=
          map fst (filter (fun e => snd e >=? 2)
                          (Counter_of (notable_seq analyses))) |}.
Proof.
  unfold _aggregate_notable_elements.
  rewrite (extend_loop notable_step (fun x => x)
             (fun a => get_default (Analysis.notable_elements a) []))
    by reflexivity.
  reflexivity.
Qed.

(** ** The whole call *)

Lemma aggregate_failure (l : list ImageAnalysis.t) :
  payloads l = [] ->
  aggregate_album_analysis l = Ok (Failure "No valid image analyses to aggregate").
Proof.
  intros E. unfold aggregate_album_analysis.
  rewrite valid_analyses_ok, E. reflexivity.
Qed.

Lemma aggregate_success (l : list ImageAnalysis.t) :
  payloads l <> [] ->
  exists sc el vi mo no,
    _aggregate_scene_classifications (payloads l) = Ok sc /\
    _aggregate_segmented_elements (payloads l) = Ok el /\
    _aggregate_visual_features (payloads l) = Ok vi /\
    _aggregate_mood_atmosphere (payloads l) = Ok mo /\
    _aggregate_notable_elements (payloads l) = Ok no /\
    aggregate_album_analysis l =
    Ok (Success
          {| AlbumProfile.total_images_analyzed := len (payloads l);
             AlbumProfile.scene_summary := sc;
             AlbumProfile.element_summary := el;
             AlbumProfile.visual_summary := vi;
             AlbumProfile.mood_summary := mo;
             AlbumProfile.notable_elements := no;
             AlbumProfile.synthesis_prompt_data :=
               _create_synthesis_prompt_data sc el vi mo no |}).
Proof.
  intros Hne. unfold aggregate_album_analysis. rewrite valid_analyses_ok.
  cbn [bind].
  pose proof (scene_ok (payloads l) Hne) as Hsc.
  destruct (elements_ok (payloads l) Hne) as [avg Hel].
  destruct (visual_ok (payloads l)) as [vi [Hvi _]].
  destruct (mood_ok (payloads l) Hne) as [mo [Hmo _]].
  pose proof (notable_ok (payloads l)) as Hno.
  destruct (payloads l) as [|a r] eqn:E; [contradiction|].
  rewrite Hsc, Hel, Hvi, Hmo, Hno. cbn [bind].
  do 5 eexists. repeat (split; [reflexivity|]). reflexivity.
Qed.

(** ** Counts against the number of records *)

Lemma count_in_counted (k : string) (o : option string) :
  count_in k (counted o) <= 1.
Proof.
  unfold counted. destruct o as [x|]; [|rewrite count_in_nil; lia].
  destruct (truthy_str (Some x)); [|rewrite count_in_nil; lia].
  rewrite count_in_cons, count_in_nil. destruct (String.eqb x k); lia.
Qed.

Lemma count_in_flat_map_le {A : Type} (k : string) (f : A -> list string)
      (l : list A) :
  (forall a, count_in k (f a) <= 1) -> count_in k (flat_map f l) <= len l.
Proof.
  intros H. unfold len. induction l as [|a l IH]; cbn [flat_map List.length].
  - rewrite count_in_nil. lia.
  - rewrite count_in_app. specialize (H a). lia.
Qed.

Lemma elements_to_track_NoDup : NoDup elements_to_track.
Proof.
  unfold elements_to_track.
  repeat (constructor; [simpl; intuition discriminate|]). constructor.
Qed.

Lemma count_in_filter_tracked (k : string) (f : string -> bool) :
  count_in k (filter f elements_to_track) <= 1.
Proof.
  unfold count_in.
  pose proof (NoDup_filter f _ elements_to_track_NoDup) as H.
  rewrite (NoDup_count_occ string_dec) in H. specialize (H k). lia.
Qed.

Lemma dd_get_Counter_of (xs : list string) (k : string) :
  dd_get 0 (Counter_of xs) k = count_in k xs.
Proof. unfold Counter_of. rewrite dd_get_fold_incr. reflexivity. Qed.

Lemma ratio_nonneg (c n : Z) :
  0 <= c -> 0 < n -> (0 <= inject_Z c / inject_Z n * 100)%Q.
Proof.
  intros Hc Hn. destruct n as [|n|n]; try lia.
  unfold Qle, Qdiv, Qmult, Qinv, inject_Z. simpl. lia.
Qed.

Lemma ratio_le_100 (c n : Z) :
  c <= n -> 0 < n -> (inject_Z c / inject_Z n * 100 <= inject_Z 100)%Q.
Proof.
  intros Hc Hn. destruct n as [|n|n]; try lia.
  unfold Qle, Qdiv, Qmult, Qinv, inject_Z. simpl. lia.
Qed.

Lemma percentage_of_bounds (c n : Z) :
  0 <= c -> 0 < n ->
  (0 <= percentage_of c n)%Q /\ (c <= n -> (percentage_of c n <= 100)%Q).
Proof.
  intros Hc Hn. unfold percentage_of. split.
  - apply py_round_nonneg, ratio_nonneg; assumption.
  - intros Hle. apply (py_round_le _ 1 100), ratio_le_100; assumption.
Qed.

(** ** Thresholds, fallbacks and rankings *)

Lemma Qgtb_iff (a b : Q) : Qgtb a b = true <-> (b < a)%Q.
Proof.
  unfold Qgtb. rewrite Qgt_alt.
  destruct (a ?= b)%Q; split; congruence.
Qed.

Lemma Qgeb_iff (a b : Q) : Qgeb a b = true <-> (b <= a)%Q.
Proof.
  unfold Qgeb, Qgtb. rewrite Qle_alt.
  destruct (b ?= a)%Q; simpl; split; congruence.
Qed.

Lemma dict_get_map {V : Type} (f : string -> V) (ks : list string) (k : string) :
  In k ks -> dict_get (map (fun e => (e, f e)) ks) k = Some (f k).
Proof.
  induction ks as [|x ks IH]; simpl; [tauto|].
  destruct (String.eqb x k) eqn:E.
  - apply String.eqb_eq in E. subst. reflexivity.
  - apply String.eqb_neq in E. intros [H|H]; [contradiction | auto].
Qed.

Lemma In_selected (P : string * ElemStats.t -> bool) (f : string -> ElemStats.t)
      (ks : list string) (k : string) :
  In k (map fst (filter P (sorted_reverse stats_gtb
                             (map (fun e => (e, f e)) ks))))
  <-> In k ks /\ P (k, f k) = true.
Proof.
  rewrite in_map_iff. split.
  - intros [[k' s] [<- H]]. apply filter_In in H as [H HP].
    apply -> (sorted_reverse_In stats_gtb) in H.
    apply in_map_iff in H as [e [E He]]. inversion E; subst. auto.
  - intros [Hk HP]. exists (k, f k). split; [reflexivity|].
    apply filter_In. split; [|assumption].
    apply (sorted_reverse_In stats_gtb).
    apply in_map_iff. exists k. auto.
Qed.

Lemma never_supplied_seq (field : Analysis.t -> option string)
      (analyses : list Analysis.t) :
  never_supplied field analyses -> field_seq field analyses = [].
Proof.
  unfold never_supplied, field_seq.
  induction analyses as [|a l IH]; intros H; [reflexivity|].
  cbn [flat_map]. rewrite IH by (intros; apply H; right; assumption).
  destruct (H a (or_introl eq_refl)) as [-> | ->]; reflexivity.
Qed.

Lemma fallback_value (field : Analysis.t -> option string)
      (analyses : list Analysis.t) (fallback : string) :
  never_supplied field analyses ->
  top_value (Counter_of (field_seq field analyses)) fallback = fallback.
Proof. intros H. rewrite never_supplied_seq by assumption. reflexivity. Qed.

Lemma ranking_sorted (n : Z) (seq : list string) :
  StronglySorted (ranked_before seq)
                 (map (entry_of n) (most_common (Counter_of seq))).
Proof.
  apply StronglySorted_map.
  apply (most_common_ranked
           (fun a b => (first_index a seq < first_index b seq)%nat)).
  rewrite Counter_of_spec.
  apply (StronglySorted_map
           (fun x y : string * Z =>
              (first_index (fst x) seq < first_index (fst y) seq)%nat)).
  apply first_seen_sorted.
Qed.

Lemma ranking_categories (n : Z) (seq : list string) :
  Permutation (map RankedCategory.category
                   (map (entry_of n) (most_common (Counter_of seq))))
              (first_seen seq).
Proof.
  rewrite map_map. cbn [entry_of RankedCategory.category].
  unfold most_common. rewrite (sorted_reverse_perm count_gtb (Counter_of seq)).
  rewrite Counter_of_spec, map_map. cbn [fst]. rewrite map_id. reflexivity.
Qed.

Lemma ranking_counts (n : Z) (seq : list string) (e : RankedCategory.t) :
  In e (map (entry_of n) (most_common (Counter_of seq))) ->
  RankedCategory.count e = count_in (RankedCategory.category e) seq.
Proof.
  intros He. apply in_map_iff in He as [x [<- Hx]].
  apply -> most_common_In in Hx. apply Counter_of_count in Hx as [Hc _].
  exact Hc.
Qed.

Lemma no_segments_no_presence (analyses : list Analysis.t) :
  (forall a, In a analyses -> Analysis.segmented_elements a = None) ->
  presence_seq analyses = [].
Proof.
  unfold presence_seq. induction analyses as [|a l IH]; intros H; [reflexivity|].
  cbn [flat_map]. rewrite IH by (intros; apply H; right; assumption).
  unfold present_in, elem_data_of, segments_of.
  rewrite (H a (or_introl eq_refl)). reflexivity.
Qed.

(** * The claims of the specification *)

(** C1: the call returns the [NoValidInput] failure (no profile) if and only
    if no input record is valid, a record being valid exactly when its
    success flag is true and its payload is there and not empty; with at
    least one valid record it returns a success carrying a profile. *)
Theorem no_valid_input_iff (l : list ImageAnalysis.t) :
  (forall a, survives a = true <-> is_valid_record a) /\
  ((exists msg, aggregate_album_analysis l = Ok (Failure msg))
   <-> ~ exists a, In a l /\ is_valid_record a) /\
  ((~ exists a, In a l /\ is_valid_record a) ->
   aggregate_album_analysis l =
   Ok (Failure "No valid image analyses to aggregate")) /\
  ((exists a, In a l /\ is_valid_record a) ->
   exists p, aggregate_album_analysis l = Ok (Success p)).
Proof.
  assert (Hfail : (~ exists a, In a l /\ is_valid_record a) ->
                  aggregate_album_analysis l =
                  Ok (Failure "No valid image analyses to aggregate")).
  { intros H. apply aggregate_failure, payloads_nil_iff, H. }
  assert (Hsucc : (exists a, In a l /\ is_valid_record a) ->
                  exists p, aggregate_album_analysis l = Ok (Success p)).
  { intros H.
    assert (Hne : payloads l <> []).
    { intros E. apply payloads_nil_iff in E. contradiction. }
    destruct (aggregate_success l Hne)
      as [sc [el [vi [mo [no [_ [_ [_ [_ [_ H']]]]]]]]]].
    eexists. exact H'. }
  split; [exact survives_iff|]. split; [|split; assumption].
  split.
  - intros [msg Hmsg] Hex. destruct (Hsucc Hex) as [p Hp]. congruence.
  - intros H. eexists. apply Hfail, H.
Qed.

Lemma no_valid_input_iff_witness :
  (exists a, In a beach_beach_city /\ is_valid_record a) /\
  exists p, aggregate_album_analysis beach_beach_city = Ok (Success p).
Proof.
  assert (H : exists a, In a beach_beach_city /\ is_valid_record a).
  { exists (scene_only "beach" []). split.
    - right. left. reflexivity.
    - split; [reflexivity|]. eexists. split; [reflexivity | discriminate]. }
  split; [exact H|].
  exact (proj2 (proj2 (proj2 (no_valid_input_iff beach_beach_city))) H).
Defined.

(** With at least one valid record, whatever keys the valid records lack,
    none of the five reducers raises, and the call returns the profile made
    of their results and of the projection of these. *)
Lemma missing_keys_never_raise (l : list ImageAnalysis.t) :
  payloads l <> [] ->
  exists sc el vi mo no,
    _aggregate_scene_classifications (payloads l) = Ok sc /\
    _aggregate_segmented_elements (payloads l) = Ok el /\
    _aggregate_visual_features (payloads l) = Ok vi /\
    _aggregate_mood_atmosphere (payloads l) = Ok mo /\
    _aggregate_notable_elements (payloads l) = Ok no /\
    exists p,
      aggregate_album_analysis l = Ok (Success p) /\
      AlbumProfile.synthesis_prompt_data p =
      _create_synthesis_prompt_data sc el vi mo no.
Proof.
  intros Hne.
  destruct (aggregate_success l Hne)
    as [sc [el [vi [mo [no [Hsc [Hel [Hvi [Hmo [Hno H]]]]]]]]]].
  exists sc, el, vi, mo, no. repeat (split; [assumption|]).
  eexists. split; [exact H | reflexivity].
Qed.

(** *** The scene block bound to [null] *)

Lemma null_scene_step (analyses : list WithNull.analysis)
      (a : WithNull.analysis) (st : Counter * Counter) :
  In a analyses ->
  WithNull.scene_classification a = Some WithNull.Null ->
  foldM WithNull.scene_step analyses st = Raise AttributeError.
Proof.
  intros Hin Hnull. revert st.
  induction analyses as [|b l IH]; intros st; [contradiction|].
  cbn [foldM]. destruct Hin as [->|Hin].
  - unfold WithNull.scene_step. rewrite Hnull. reflexivity.
  - destruct (WithNull.scene_step st b) as [st'|e] eqn:E.
    + cbn [bind]. apply IH. exact Hin.
    + unfold WithNull.scene_step in E.
      destruct (get_default (WithNull.scene_classification b)
                            (WithNull.Val Scene.empty)) as [|d];
        cbn in E; [|discriminate].
      inversion E. reflexivity.
Qed.

(** On a list with a payload whose scene block is [null], the scene reducer
    raises [AttributeError]. *)
Lemma null_scene_raises (analyses : list WithNull.analysis)
      (a : WithNull.analysis) :
  In a analyses ->
  WithNull.scene_classification a = Some WithNull.Null ->
  WithNull._aggregate_scene_classifications analyses = Raise AttributeError.
Proof.
  intros Hin Hnull. unfold WithNull._aggregate_scene_classifications.
  rewrite (null_scene_step analyses a _ Hin Hnull). reflexivity.
Qed.

Lemma typed_scene_step (analyses : list Analysis.t) (st : Counter * Counter) :
  foldM WithNull.scene_step (map WithNull.of_typed analyses) st
  = Ok (fold_left scene_step analyses st).
Proof.
  revert st. induction analyses as [|a l IH]; intros st; [reflexivity|].
  cbn [map foldM fold_left].
  assert (E : WithNull.scene_step st (WithNull.of_typed a)
              = Ok (scene_step st a)).
  { unfold WithNull.scene_step, scene_step, WithNull.of_typed.
    cbn [WithNull.scene_classification].
    destruct (Analysis.scene_classification a); reflexivity. }
  rewrite E. cbn [bind]. apply IH.
Qed.

(** On payloads without [null] the two embeddings of the scene reducer
    agree. *)
Lemma typed_scene_agrees (analyses : list Analysis.t) :
  WithNull._aggregate_scene_classifications (map WithNull.of_typed analyses)
  = _aggregate_scene_classifications analyses.
Proof.
  unfold WithNull._aggregate_scene_classifications,
         _aggregate_scene_classifications.
  rewrite typed_scene_step. cbn [bind]. unfold len. rewrite length_map.
  reflexivity.
Qed.

(** C7: the scene reducer run on the one payload
    [{"scene_classification": None}] does not degrade to the default
    ["mixed"]: [analysis.get("scene_classification", {})] is [None] there and
    the [.get] on it raises [AttributeError]. *)
Theorem null_scene_block_raises :
  WithNull._aggregate_scene_classifications null_scene = Raise AttributeError.
Proof.
  apply (null_scene_raises null_scene
           {| WithNull.scene_classification := Some WithNull.Null |}).
  - left. reflexivity.
  - reflexivity.
Qed.

(** C2, as stated, fails: with people present in the only image but no
    people count given, [has_people] is false. *)
Lemma has_people_misses_uncounted :
  exists p,
    aggregate_album_analysis people_without_count = Ok (Success p) /\
    Synthesis.has_people (AlbumProfile.synthesis_prompt_data p) = false /\
    images_with_people_present (payloads people_without_count) = 1.
Proof.
  eexists. split; [vm_compute; reflexivity|]. split; reflexivity.
Qed.

(** C2, amended: with at least one valid record, [has_people] is true if and
    only if the number of valid records in which people are present and the
    people count is truthy (there and not zero) is greater than zero. *)
Theorem has_people_iff_counted (l : list ImageAnalysis.t) :
  payloads l <> [] ->
  exists p,
    aggregate_album_analysis l = Ok (Success p) /\
    (Synthesis.has_people (AlbumProfile.synthesis_prompt_data p) = true
     <-> 0 < len (filter people_counted (payloads l))).
Proof.
  intros Hne.
  destruct (aggregate_success l Hne)
    as [sc [el [vi [mo [no [_ [Hel [_ [_ [_ H]]]]]]]]]].
  eexists. split; [exact H|]. cbn [AlbumProfile.synthesis_prompt_data].
  destruct (elements_ok (payloads l) Hne) as [avg Hel'].
  rewrite Hel' in Hel. apply Ok_inj in Hel. subst el. simpl.
  rewrite Z.gtb_ltb. apply Z.ltb_lt.
Qed.

Lemma has_people_iff_counted_witness :
  payloads people_with_count <> [] /\
  exists p,
    aggregate_album_analysis people_with_count = Ok (Success p) /\
    (Synthesis.has_people (AlbumProfile.synthesis_prompt_data p) = true
     <-> 0 < len (filter people_counted (payloads people_with_count))).
Proof.
  assert (H : payloads people_with_count <> []) by (vm_compute; discriminate).
  split; [exact H|].
  exact (has_people_iff_counted people_with_count H).
Defined.

(** C3, as stated, fails: [recurring_elements] is in first-seen order, not
    in the frequency order of the top-20 list, and it can be longer than 20
    entries. *)
Lemma recurring_not_from_top20 :
  (exists p,
     aggregate_album_analysis harbor_lighthouse = Ok (Success p) /\
     NotableSummary.recurring_elements (AlbumProfile.notable_elements p)
       = ["harbor"; "lighthouse"] /\
     recurring_of_top20 (AlbumProfile.notable_elements p)
       = ["lighthouse"; "harbor"]) /\
  (exists p,
     aggregate_album_analysis twenty_one_twice = Ok (Success p) /\
     List.length
       (NotableSummary.recurring_elements (AlbumProfile.notable_elements p))
       = 21%nat).
Proof.
  split; eexists; (split; [vm_compute; reflexivity|]); [split|]; reflexivity.
Qed.

(** C3, amended: with at least one valid record, [recurring_elements] holds
    exactly the notable entries that occur at least twice in all, each once,
    in the order in which they are first seen in the input; its length is
    bounded by the number of distinct entries only. *)
Theorem recurring_first_seen (l : list ImageAnalysis.t) :
  payloads l <> [] ->
  exists p,
    aggregate_album_analysis l = Ok (Success p) /\
    let seq := notable_seq (payloads l) in
    let recurring :=
      NotableSummary.recurring_elements (AlbumProfile.notable_elements p) in
    recurring = filter (fun k => count_in k seq >=? 2) (first_seen seq) /\
    (forall k, In k recurring <-> 2 <= count_in k seq) /\
    NoDup recurring.
Proof.
  intros Hne.
  destruct (aggregate_success l Hne)
    as [sc [el [vi [mo [no [_ [_ [_ [_ [Hno H]]]]]]]]]].
  eexists. split; [exact H|]. cbn [AlbumProfile.notable_elements].
  rewrite notable_ok in Hno. apply Ok_inj in Hno. subst no. cbn zeta.
  cbn [NotableSummary.recurring_elements].
  set (seq := notable_seq (payloads l)).
  assert (E : map fst (filter (fun e => snd e >=? 2) (Counter_of seq)) =
              filter (fun k => count_in k seq >=? 2) (first_seen seq)).
  { rewrite Counter_of_spec. induction (first_seen seq) as [|k ks IH];
      [reflexivity|].
    cbn [map filter snd]. destruct (count_in k seq >=? 2); cbn [map fst];
      rewrite IH; reflexivity. }
  rewrite E. split; [reflexivity|]. split.
  - intros k. rewrite filter_In, first_seen_In, Z.geb_le.
    split; [tauto|]. intros Hk. split; [|assumption].
    apply count_in_pos. lia.
  - apply NoDup_filter, first_seen_NoDup.
Qed.

Lemma recurring_first_seen_witness :
  payloads harbor_lighthouse <> [] /\
  exists p,
    aggregate_album_analysis harbor_lighthouse = Ok (Success p) /\
    let seq := notable_seq (payloads harbor_lighthouse) in
    let recurring :=
      NotableSummary.recurring_elements (AlbumProfile.notable_elements p) in
    recurring = filter (fun k => count_in k seq >=? 2) (first_seen seq) /\
    (forall k, In k recurring <-> 2 <= count_in k seq) /\
    NoDup recurring.
Proof.
  assert (H : payloads harbor_lighthouse <> []) by (vm_compute; discriminate).
  split; [exact H|].
  exact (recurring_first_seen harbor_lighthouse H).
Defined.

(** C4, as stated, fails: a category that is both the primary and a
    secondary category of the only image gets 200 percent in the combined
    ranking. *)
Lemma combined_percentage_above_100 :
  exists p,
    aggregate_album_analysis beach_twice = Ok (Success p) /\
    SceneSummary.all_categories (AlbumProfile.scene_summary p) =
      [{| RankedCategory.category := "beach";
          RankedCategory.count := 2;
          RankedCategory.percentage := 200 |}] /\
    ~ (200 <= 100)%Q.
Proof.
  eexists. split; [vm_compute; reflexivity|]. split; [reflexivity|].
  unfold Qle. simpl. lia.
Qed.

(** C4, amended: with at least one valid record, every percentage in the two
    ranked lists of the scene reducer and every rate in the stats of the
    element reducer is the entry's count divided by the number of valid
    records (not of input records) times 100, rounded to 1 decimal place; it
    is at least 0, and in the primary-only ranking and in the element stats
    it is at most 100. *)
Theorem percentage_law (l : list ImageAnalysis.t) :
  payloads l <> [] ->
  exists p,
    aggregate_album_analysis l = Ok (Success p) /\
    let n := len (filter survives l) in
    let share (count : Z) := (inject_Z count / inject_Z n * 100)%Q in
    (forall e,
        In e (SceneSummary.primary_categories (AlbumProfile.scene_summary p)) ->
        rounded_to_tenth (RankedCategory.percentage e)
                         (share (RankedCategory.count e))
        /\ (0 <= RankedCategory.percentage e)%Q
        /\ (RankedCategory.percentage e <= 100)%Q) /\
    (forall e,
        In e (SceneSummary.all_categories (AlbumProfile.scene_summary p)) ->
        rounded_to_tenth (RankedCategory.percentage e)
                         (share (RankedCategory.count e))
        /\ (0 <= RankedCategory.percentage e)%Q) /\
    (forall element stats,
        In (element, stats)
           (ElementSummary.element_stats (AlbumProfile.element_summary p)) ->
        rounded_to_tenth (ElemStats.presence_rate stats)
                         (share (ElemStats.presence_count stats))
        /\ (0 <= ElemStats.presence_rate stats)%Q
        /\ (ElemStats.presence_rate stats <= 100)%Q).
Proof.
  intros Hne.
  destruct (aggregate_success l Hne)
    as [sc [el [vi [mo [no [Hsc [Hel [_ [_ [_ H]]]]]]]]]].
  eexists. split; [exact H|].
  cbn [AlbumProfile.scene_summary AlbumProfile.element_summary].
  rewrite (scene_ok _ Hne) in Hsc. apply Ok_inj in Hsc. subst sc.
  destruct (elements_ok (payloads l) Hne) as [avg Hel'].
  rewrite Hel' in Hel. apply Ok_inj in Hel. subst el. clear Hel'.
  cbn [SceneSummary.primary_categories SceneSummary.all_categories
       ElementSummary.element_stats].
  assert (Hn : len (filter survives l) = len (payloads l)).
  { unfold len. rewrite payloads_length. reflexivity. }
  cbn zeta. rewrite Hn.
  assert (Hpos : 0 < len (payloads l)).
  { pose proof (len_nonzero _ Hne). unfold len in *. lia. }
  split; [|split].
  - intros e He. apply in_map_iff in He as [[k c] [<- He]].
    apply -> most_common_In in He.
    apply Counter_of_count in He as [Hc Hin]. cbn [fst snd] in Hc, Hin.
    cbn [entry_of RankedCategory.percentage RankedCategory.count fst snd].
    split; [apply py_round_tenth|].
    assert (Hle : c <= len (payloads l)).
    { rewrite Hc. apply count_in_flat_map_le. intros a. apply count_in_counted. }
    apply count_in_pos in Hin.
    destruct (percentage_of_bounds c (len (payloads l))) as [H0 H100];
      [lia | lia |]. split; [exact H0 | apply H100; exact Hle].
  - intros e He. apply in_map_iff in He as [[k c] [<- He]].
    apply -> most_common_In in He.
    apply Counter_of_count in He as [Hc Hin]. cbn [fst snd] in Hc, Hin.
    cbn [entry_of RankedCategory.percentage RankedCategory.count fst snd].
    split; [apply py_round_tenth|].
    apply count_in_pos in Hin.
    apply percentage_of_bounds; lia.
  - intros element stats He. apply in_map_iff in He as [k [E Hk]].
    inversion E; subst. clear E.
    cbn [stats_of ElemStats.presence_rate ElemStats.presence_count].
    split; [apply py_round_tenth|].
    rewrite elem_presence_loop, dd_get_Counter_of.
    assert (Hle : count_in element (presence_seq (payloads l))
                  <= len (payloads l)).
    { apply count_in_flat_map_le. intros a. apply count_in_filter_tracked. }
    pose proof (count_in_nonneg element (presence_seq (payloads l))) as Hge.
    destruct (percentage_of_bounds
                (count_in element (presence_seq (payloads l)))
                (len (payloads l))) as [H0 H100]; [lia | lia |].
    split; [exact H0 | apply H100; exact Hle].
Qed.

Lemma percentage_law_witness :
  payloads beach_beach_city <> [] /\
  len (filter survives beach_beach_city) = 3 /\
  len beach_beach_city = 4 /\
  exists p,
    aggregate_album_analysis beach_beach_city = Ok (Success p) /\
    let n := len (filter survives beach_beach_city) in
    let share (count : Z) := (inject_Z count / inject_Z n * 100)%Q in
    (forall e,
        In e (SceneSummary.primary_categories (AlbumProfile.scene_summary p)) ->
        rounded_to_tenth (RankedCategory.percentage e)
                         (share (RankedCategory.count e))
        /\ (0 <= RankedCategory.percentage e)%Q
        /\ (RankedCategory.percentage e <= 100)%Q) /\
    (forall e,
        In e (SceneSummary.all_categories (AlbumProfile.scene_summary p)) ->
        rounded_to_tenth (RankedCategory.percentage e)
                         (share (RankedCategory.count e))
        /\ (0 <= RankedCategory.percentage e)%Q) /\
    (forall element stats,
        In (element, stats)
           (ElementSummary.element_stats (AlbumProfile.element_summary p)) ->
        rounded_to_tenth (ElemStats.presence_rate stats)
                         (share (ElemStats.presence_count stats))
        /\ (0 <= ElemStats.presence_rate stats)%Q
        /\ (ElemStats.presence_rate stats <= 100)%Q).
Proof.
  assert (H : payloads beach_beach_city <> []) by (vm_compute; discriminate).
  split; [exact H|]. split; [reflexivity|]. split; [reflexivity|].
  exact (percentage_law beach_beach_city H).
Defined.

(** C5: with at least one valid record, a tracked element is in
    [dominant_elements] if and only if its presence rate is at least 50 (so a
    rate of exactly 50.0 is in), and it is in [rare_elements] if and only if
    its presence rate is strictly between 0 and 20 (so exactly 20.0 is out
    and 19.9 is in). *)
Theorem dominant_rare_thresholds (l : list ImageAnalysis.t) :
  payloads l <> [] ->
  exists p,
    aggregate_album_analysis l = Ok (Success p) /\
    let el := AlbumProfile.element_summary p in
    forall element,
      In element elements_to_track ->
      exists stats,
        dict_get (ElementSummary.element_stats el) element = Some stats /\
        let rate := ElemStats.presence_rate stats in
        (In element (ElementSummary.dominant_elements el) <-> (50 <= rate)%Q) /\
        (In element (ElementSummary.rare_elements el)
         <-> (0 < rate)%Q /\ (rate < 20)%Q) /\
        ((rate == 50)%Q -> In element (ElementSummary.dominant_elements el)) /\
        ((rate == 20)%Q -> ~ In element (ElementSummary.rare_elements el)) /\
        ((rate == 19.9)%Q -> In element (ElementSummary.rare_elements el)).
Proof.
  intros Hne.
  destruct (aggregate_success l Hne)
    as [sc [el [vi [mo [no [_ [Hel [_ [_ [_ H]]]]]]]]]].
  eexists. split; [exact H|]. cbn [AlbumProfile.element_summary]. cbn zeta.
  destruct (elements_ok (payloads l) Hne) as [avg Hel'].
  rewrite Hel' in Hel. apply Ok_inj in Hel. subst el. clear Hel'.
  cbn [ElementSummary.element_stats ElementSummary.dominant_elements
       ElementSummary.rare_elements].
  intros element Hin.
  set (f := stats_of (fold_left elem_loop_body (payloads l) ElemAcc_init)
                     (len (payloads l))).
  exists (f element). split; [apply (dict_get_map f); assumption|].
  assert (Hdom : In element
                   (map fst (filter is_dominant
                      (sorted_reverse stats_gtb
                         (map (fun e => (e, f e)) elements_to_track))))
                 <-> (50 <= ElemStats.presence_rate (f element))%Q).
  { rewrite In_selected. unfold is_dominant. cbn [snd]. rewrite Qgeb_iff.
    tauto. }
  assert (Hrare : In element
                    (map fst (filter is_rare
                       (sorted_reverse stats_gtb
                          (map (fun e => (e, f e)) elements_to_track))))
                  <-> (0 < ElemStats.presence_rate (f element))%Q
                      /\ (ElemStats.presence_rate (f element) < 20)%Q).
  { rewrite In_selected. unfold is_rare. cbn [snd].
    rewrite andb_true_iff, !Qgtb_iff. tauto. }
  split; [exact Hdom|]. split; [exact Hrare|]. split; [|split].
  - intros E. apply Hdom. rewrite E. apply Qle_refl.
  - intros E Hr. apply Hrare in Hr as [_ Hr]. rewrite E in Hr.
    exact (Qlt_irrefl _ Hr).
  - intros E. apply Hrare. rewrite E. split; reflexivity.
Qed.

Lemma dominant_rare_thresholds_witness :
  payloads sky_in_one_of_two <> [] /\
  exists p,
    aggregate_album_analysis sky_in_one_of_two = Ok (Success p) /\
    let el := AlbumProfile.element_summary p in
    forall element,
      In element elements_to_track ->
      exists stats,
        dict_get (ElementSummary.element_stats el) element = Some stats /\
        let rate := ElemStats.presence_rate stats in
        (In element (ElementSummary.dominant_elements el) <-> (50 <= rate)%Q) /\
        (In element (ElementSummary.rare_elements el)
         <-> (0 < rate)%Q /\ (rate < 20)%Q) /\
        ((rate == 50)%Q -> In element (ElementSummary.dominant_elements el)) /\
        ((rate == 20)%Q -> ~ In element (ElementSummary.rare_elements el)) /\
        ((rate == 19.9)%Q -> In element (ElementSummary.rare_elements el)).
Proof.
  assert (H : payloads sky_in_one_of_two <> []) by (vm_compute; discriminate).
  split; [exact H|].
  exact (dominant_rare_thresholds sky_in_one_of_two H).
Defined.

(** The boundary cases on concrete albums: a rate of exactly 50.0 is
    dominant, a rate of exactly 20.0 is not rare. *)
Example threshold_boundaries :
  (exists p,
     aggregate_album_analysis sky_in_one_of_two = Ok (Success p) /\
     dict_get (ElementSummary.element_stats (AlbumProfile.element_summary p))
              "sky"
       = Some {| ElemStats.presence_count := 1;
                 ElemStats.presence_rate := 50;
                 ElemStats.avg_prominence := 2 # 5 |} /\
     ElementSummary.dominant_elements (AlbumProfile.element_summary p)
       = ["sky"]) /\
  (exists p,
     aggregate_album_analysis sky_in_one_of_five = Ok (Success p) /\
     dict_get (ElementSummary.element_stats (AlbumProfile.element_summary p))
              "sky"
       = Some {| ElemStats.presence_count := 1;
                 ElemStats.presence_rate := 20;
                 ElemStats.avg_prominence := 2 # 5 |} /\
     ElementSummary.rare_elements (AlbumProfile.element_summary p) = []).
Proof.
  split; eexists; (split; [vm_compute; reflexivity|]); split; reflexivity.
Qed.

(** C6: with at least one valid record, a single-winner field that no valid
    record supplies gets its fallback literal: ["mixed"] for
    [dominant_scene_type], ["mixed"] for the dominant colour temperature,
    ["varied"] for the dominant lighting, ["mixed"] for the primary setting,
    ["varied"] for the most common time of day and weather, ["mixed"] for
    [dominant_mood] and ["medium"] for [overall_energy]. *)
Theorem fallback_completeness (l : list ImageAnalysis.t) :
  payloads l <> [] ->
  exists p,
    aggregate_album_analysis l = Ok (Success p) /\
    let sc := AlbumProfile.scene_summary p in
    let vi := AlbumProfile.visual_summary p in
    let mo := AlbumProfile.mood_summary p in
    (never_supplied primary_of (payloads l) ->
     SceneSummary.dominant_scene_type sc = "mixed") /\
    (never_supplied color_temperature_of (payloads l) ->
     ColorTemperature.dominant (VisualSummary.color_temperature vi) = "mixed") /\
    (never_supplied lighting_of (payloads l) ->
     Lighting.dominant (VisualSummary.lighting vi) = "varied") /\
    (never_supplied setting_of (payloads l) ->
     Setting.primary_setting (VisualSummary.setting vi) = "mixed") /\
    (never_supplied time_of_day_of (payloads l) ->
     TimeOfDay.most_common (VisualSummary.time_of_day vi) = "varied") /\
    (never_supplied weather_of (payloads l) ->
     Weather.most_common (VisualSummary.weather vi) = "varied") /\
    (never_supplied overall_mood_of (payloads l) ->
     MoodSummary.dominant_mood mo = "mixed") /\
    (never_supplied energy_level_of (payloads l) ->
     MoodSummary.overall_energy mo = "medium").
Proof.
  intros Hne.
  destruct (aggregate_success l Hne)
    as [sc [el [vi [mo [no [Hsc [_ [Hvi [Hmo [_ H]]]]]]]]]].
  eexists. split; [exact H|].
  cbn [AlbumProfile.scene_summary AlbumProfile.visual_summary
       AlbumProfile.mood_summary]. cbn zeta.
  rewrite (scene_ok _ Hne) in Hsc. apply Ok_inj in Hsc. subst sc.
  destruct (visual_ok (payloads l)) as [vi' [Hvi' [Ht [Hl [Hs [Hd Hw]]]]]].
  rewrite Hvi' in Hvi. apply Ok_inj in Hvi. subst vi'.
  destruct (mood_ok (payloads l) Hne) as [mo' [Hmo' [Hm He]]].
  rewrite Hmo' in Hmo. apply Ok_inj in Hmo. subst mo'.
  cbn [SceneSummary.dominant_scene_type].
  rewrite Ht, Hl, Hs, Hd, Hw, Hm, He.
  repeat split; intros Hnone.
  - apply (fallback_value primary_of). assumption.
  - apply fallback_value. assumption.
  - apply fallback_value. assumption.
  - apply fallback_value. assumption.
  - apply fallback_value. assumption.
  - apply fallback_value. assumption.
  - apply fallback_value. assumption.
  - apply fallback_value. assumption.
Qed.

Lemma fallback_completeness_witness :
  payloads [failed; blockless] <> [] /\
  exists p,
    aggregate_album_analysis [failed; blockless] = Ok (Success p) /\
    let sc := AlbumProfile.scene_summary p in
    let vi := AlbumProfile.visual_summary p in
    let mo := AlbumProfile.mood_summary p in
    SceneSummary.dominant_scene_type sc = "mixed" /\
    ColorTemperature.dominant (VisualSummary.color_temperature vi) = "mixed" /\
    Lighting.dominant (VisualSummary.lighting vi) = "varied" /\
    Setting.primary_setting (VisualSummary.setting vi) = "mixed" /\
    TimeOfDay.most_common (VisualSummary.time_of_day vi) = "varied" /\
    Weather.most_common (VisualSummary.weather vi) = "varied" /\
    MoodSummary.dominant_mood mo = "mixed" /\
    MoodSummary.overall_energy mo = "medium".
Proof.
  assert (H : payloads [failed; blockless] <> []) by (vm_compute; discriminate).
  split; [exact H|].
  destruct (fallback_completeness [failed; blockless] H)
    as [p [Hp [H1 [H2 [H3 [H4 [H5 [H6 [H7 H8]]]]]]]]].
  exists p. split; [exact Hp|]. cbn zeta.
  repeat split;
    [apply H1 | apply H2 | apply H3 | apply H4
     | apply H5 | apply H6 | apply H7 | apply H8];
    intros a Ha; vm_compute in Ha; destruct Ha as [<-|[]];
    left; reflexivity.
Defined.

(** C8: with at least one valid record, each of the two ranked lists of the
    scene reducer lists every counted category once, with its number of
    occurrences, sorted by descending count; of two categories with the same
    count, the one first seen earlier in input order comes first. *)
Theorem ranking_first_seen_tie_break (l : list ImageAnalysis.t) :
  payloads l <> [] ->
  exists p,
    aggregate_album_analysis l = Ok (Success p) /\
    let sc := AlbumProfile.scene_summary p in
    let ranking_of (seq : list string) (ranked : list RankedCategory.t) :=
      StronglySorted (ranked_before seq) ranked /\
      Permutation (map RankedCategory.category ranked) (first_seen seq) /\
      (forall e, In e ranked ->
                 RankedCategory.count e
                 = count_in (RankedCategory.category e) seq) in
    ranking_of (primary_seq (payloads l)) (SceneSummary.primary_categories sc)
    /\ ranking_of (all_seq (payloads l)) (SceneSummary.all_categories sc).
Proof.
  intros Hne.
  destruct (aggregate_success l Hne)
    as [sc [el [vi [mo [no [Hsc [_ [_ [_ [_ H]]]]]]]]]].
  eexists. split; [exact H|]. cbn [AlbumProfile.scene_summary]. cbn zeta.
  rewrite (scene_ok _ Hne) in Hsc. apply Ok_inj in Hsc. subst sc.
  cbn [SceneSummary.primary_categories SceneSummary.all_categories].
  repeat split;
    try apply ranking_sorted; try apply ranking_categories;
    apply ranking_counts.
Qed.

Lemma ranking_first_seen_tie_break_witness :
  payloads city_then_beach <> [] /\
  exists p,
    aggregate_album_analysis city_then_beach = Ok (Success p) /\
    let sc := AlbumProfile.scene_summary p in
    let ranking_of (seq : list string) (ranked : list RankedCategory.t) :=
      StronglySorted (ranked_before seq) ranked /\
      Permutation (map RankedCategory.category ranked) (first_seen seq) /\
      (forall e, In e ranked ->
                 RankedCategory.count e
                 = count_in (RankedCategory.category e) seq) in
    ranking_of (primary_seq (payloads city_then_beach))
               (SceneSummary.primary_categories sc)
    /\ ranking_of (all_seq (payloads city_then_beach))
                  (SceneSummary.all_categories sc).
Proof.
  assert (H : payloads city_then_beach <> []) by (vm_compute; discriminate).
  split; [exact H|].
  exact (ranking_first_seen_tie_break city_then_beach H).
Defined.

(** The ranking on a concrete album: "city" and "beach" tie in the
    primary-only ranking and "city", seen first, comes first; "harbor",
    counted twice, leads the combined ranking. *)
Example ranking_of_city_then_beach :
  exists p,
    aggregate_album_analysis city_then_beach = Ok (Success p) /\
    map RankedCategory.category
        (SceneSummary.primary_categories (AlbumProfile.scene_summary p))
      = ["city"; "beach"] /\
    map RankedCategory.category
        (SceneSummary.all_categories (AlbumProfile.scene_summary p))
      = ["harbor"; "city"; "beach"; "sunset"].
Proof.
  eexists. split; [vm_compute; reflexivity|]. split; reflexivity.
Qed.

(** C10: with at least one valid record, [element_stats] has exactly the
    seven tracked element names as keys, each with its three stats; when no
    valid record has an elements block, the three stats of every element
    are zero. *)
Theorem element_stats_complete (l : list ImageAnalysis.t) :
  payloads l <> [] ->
  exists p,
    aggregate_album_analysis l = Ok (Success p) /\
    let stats := ElementSummary.element_stats (AlbumProfile.element_summary p) in
    keys stats =
      ["sky"; "buildings"; "water"; "people"; "vegetation"; "food_drinks";
       "vehicles_transit"] /\
    (forall element,
        In element (keys stats) -> exists s, dict_get stats element = Some s) /\
    ((forall a, In a (payloads l) -> Analysis.segmented_elements a = None) ->
     forall element,
       In element (keys stats) -> dict_get stats element = Some zero_stats).
Proof.
  intros Hne.
  destruct (aggregate_success l Hne)
    as [sc [el [vi [mo [no [_ [Hel [_ [_ [_ H]]]]]]]]]].
  eexists. split; [exact H|]. cbn [AlbumProfile.element_summary]. cbn zeta.
  destruct (elements_ok (payloads l) Hne) as [avg Hel'].
  rewrite Hel' in Hel. apply Ok_inj in Hel. subst el. clear Hel'.
  cbn [ElementSummary.element_stats].
  set (f := stats_of (fold_left elem_loop_body (payloads l) ElemAcc_init)
                     (len (payloads l))).
  assert (Hk : keys (map (fun e => (e, f e)) elements_to_track)
               = elements_to_track).
  { unfold keys. rewrite map_map. cbn [fst]. apply map_id. }
  rewrite Hk. split; [reflexivity|]. split.
  - intros element Hin. exists (f element). apply (dict_get_map f). exact Hin.
  - intros Hnone element Hin. rewrite (dict_get_map f) by exact Hin.
    f_equal. unfold f, stats_of, percentage_of.
    rewrite elem_presence_loop, (no_segments_no_presence _ Hnone).
    cbn [Counter_of fold_left dd_get dict_get get_default Z.gtb Z.compare].
    rewrite py_round_zero by reflexivity. reflexivity.
Qed.

Lemma element_stats_complete_witness :
  payloads [failed; blockless] <> [] /\
  exists p,
    aggregate_album_analysis [failed; blockless] = Ok (Success p) /\
    let stats := ElementSummary.element_stats (AlbumProfile.element_summary p) in
    keys stats =
      ["sky"; "buildings"; "water"; "people"; "vegetation"; "food_drinks";
       "vehicles_transit"] /\
    (forall element, In element (keys stats) ->
                     dict_get stats element = Some zero_stats).
Proof.
  assert (H : payloads [failed; blockless] <> []) by (vm_compute; discriminate).
  split; [exact H|].
  destruct (element_stats_complete [failed; blockless] H)
    as [p [Hp [Hk [_ Hz]]]].
  exists p. split; [exact Hp|]. split; [exact Hk|].
  apply Hz. intros a Ha. vm_compute in Ha. destruct Ha as [<-|[]]. reflexivity.
Defined.

(** * Further properties of the code *)

(** ** Auxiliary facts *)

Lemma py_truediv_inv (a b q : Q) : py_truediv a b = Ok q -> q = (a / b)%Q.
Proof.
  unfold py_truediv. destruct (Qeq_bool b 0); congruence.
Qed.

(** The profile of a call with at least one valid record, and the reducer
    results it is made of. *)
Lemma aggregate_profile (l : list ImageAnalysis.t) :
  payloads l <> [] ->
  exists p,
    aggregate_album_analysis l = Ok (Success p) /\
    AlbumProfile.total_images_analyzed p = len (payloads l) /\
    _aggregate_scene_classifications (payloads l)
      = Ok (AlbumProfile.scene_summary p) /\
    _aggregate_segmented_elements (payloads l)
      = Ok (AlbumProfile.element_summary p) /\
    _aggregate_visual_features (payloads l)
      = Ok (AlbumProfile.visual_summary p) /\
    _aggregate_mood_atmosphere (payloads l)
      = Ok (AlbumProfile.mood_summary p) /\
    _aggregate_notable_elements (payloads l)
      = Ok (AlbumProfile.notable_elements p) /\
    AlbumProfile.synthesis_prompt_data p =
    _create_synthesis_prompt_data
      (AlbumProfile.scene_summary p) (AlbumProfile.element_summary p)
      (AlbumProfile.visual_summary p) (AlbumProfile.mood_summary p)
      (AlbumProfile.notable_elements p).
Proof.
  intros Hne.
  destruct (aggregate_success l Hne)
    as [sc [el [vi [mo [no [Hsc [Hel [Hvi [Hmo [Hno H]]]]]]]]]].
  eexists. split; [exact H|]. cbn. repeat split; assumption.
Qed.

Lemma payloads_app (l1 l2 : list ImageAnalysis.t) :
  payloads (l1 ++ l2) = payloads l1 ++ payloads l2.
Proof. unfold payloads. rewrite filter_app, flat_map_app. reflexivity. Qed.

Lemma aggregate_by_payloads (l1 l2 : list ImageAnalysis.t) :
  payloads l1 = payloads l2 ->
  aggregate_album_analysis l1 = aggregate_album_analysis l2.
Proof.
  intros E. unfold aggregate_album_analysis.
  rewrite !valid_analyses_ok, E. reflexivity.
Qed.

Lemma counter_ranking_sorted (seq : list string) :
  StronglySorted (tally_before seq) (most_common (Counter_of seq)).
Proof.
  apply most_common_ranked. rewrite Counter_of_spec.
  apply (StronglySorted_map
           (fun x y : string * Z =>
              (first_index (fst x) seq < first_index (fst y) seq)%nat)).
  apply first_seen_sorted.
Qed.

Lemma counter_ranking_keys (seq : list string) :
  Permutation (map fst (most_common (Counter_of seq))) (first_seen seq).
Proof.
  unfold most_common. rewrite (sorted_reverse_perm count_gtb (Counter_of seq)).
  rewrite Counter_of_spec, map_map. cbn [fst]. rewrite map_id. reflexivity.
Qed.

Lemma counter_ranking_NoDup (seq : list string) :
  NoDup (map fst (most_common (Counter_of seq))).
Proof.
  eapply Permutation_NoDup; [symmetry; apply counter_ranking_keys|].
  apply first_seen_NoDup.
Qed.

Lemma counter_ranking_length (seq : list string) :
  List.length (most_common (Counter_of seq)) = List.length (first_seen seq).
Proof.
  rewrite <- (length_map fst (most_common (Counter_of seq))).
  apply Permutation_length, counter_ranking_keys.
Qed.

Lemma Counter_of_length (seq : list string) :
  List.length (Counter_of seq) = List.length (first_seen seq).
Proof. rewrite Counter_of_spec. apply length_map. Qed.

Lemma counter_ranking_entry (seq : list string) (k : string) :
  In k seq -> In (k, count_in k seq) (most_common (Counter_of seq)).
Proof.
  intros Hk. apply most_common_In. rewrite Counter_of_spec.
  apply in_map_iff. exists k. split; [reflexivity|].
  apply first_seen_In. exact Hk.
Qed.

Lemma counter_ranking_count (seq : list string) (e : string * Z) :
  In e (most_common (Counter_of seq)) ->
  In (fst e) seq /\ snd e = count_in (fst e) seq.
Proof.
  intros He. apply -> most_common_In in He.
  apply Counter_of_count in He. tauto.
Qed.

Lemma top_value_winner (seq : list string) (fallback : string) :
  winner_or fallback (top_value (Counter_of seq) fallback) seq.
Proof.
  unfold winner_or, top_value. destruct seq as [|x xs]; [reflexivity|].
  set (seq := x :: xs).
  pose proof (counter_ranking_sorted seq) as Hs.
  pose proof (counter_ranking_count seq) as Hc.
  pose proof (counter_ranking_entry seq) as He.
  destruct (most_common (Counter_of seq)) as [|e r].
  - exfalso. apply (He x). left. reflexivity.
  - destruct (Hc e (or_introl eq_refl)) as [Hin Hcnt]. split; [exact Hin|].
    intros k Hk. specialize (He k Hk). destruct He as [E|Hr].
    + rewrite E. cbn [fst]. right. split; [reflexivity | apply Nat.le_refl].
    + inversion Hs as [|? ? _ Hall]; subst.
      rewrite Forall_forall in Hall. specialize (Hall _ Hr).
      unfold tally_before, ranks_before in Hall. cbn [fst snd] in Hall.
      rewrite <- Hcnt. destruct Hall as [Hgt | [Heq Hlt]].
      * left. lia.
      * right. split; [lia | lia].
Qed.

Lemma filter_length_mono {A : Type} (f g : A -> bool) (l : list A) :
  (forall a, f a = true -> g a = true) ->
  (List.length (filter f l) <= List.length (filter g l))%nat.
Proof.
  intros H. induction l as [|x xs IH]; simpl; [lia|].
  destruct (f x) eqn:Ef.
  - rewrite (H x Ef). simpl. lia.
  - destruct (g x); simpl; lia.
Qed.

(** ** The whole call *)

(** X1: a record that is not valid has no effect on the result, wherever it
    stands in the input. *)
Theorem invalid_record_ignored (l1 l2 : list ImageAnalysis.t)
        (a : ImageAnalysis.t) :
  ~ is_valid_record a ->
  aggregate_album_analysis (l1 ++ a :: l2) = aggregate_album_analysis (l1 ++ l2).
Proof.
  intros Ha. apply aggregate_by_payloads.
  rewrite !payloads_app. f_equal.
  change (a :: l2) with ([a] ++ l2). rewrite payloads_app.
  assert (E : payloads [a] = []).
  { apply payloads_nil_iff. intros [b [[<-|[]] Hb]]. contradiction. }
  rewrite E. reflexivity.
Qed.

Lemma invalid_record_ignored_witness :
  ~ is_valid_record failed /\
  aggregate_album_analysis ([scene_only "beach" []] ++ failed :: beach_twice)
  = aggregate_album_analysis ([scene_only "beach" []] ++ beach_twice).
Proof.
  assert (H : ~ is_valid_record failed).
  { intros [Hs _]. discriminate Hs. }
  split; [exact H|].
  exact (invalid_record_ignored [scene_only "beach" []] beach_twice failed H).
Defined.

(** X2: [total_images_analyzed] is the number of valid records; it is at
    least 1, at most the number of records whose success flag is truthy, and
    so at most the number of input records. *)
Theorem total_images_counts_valid (l : list ImageAnalysis.t) :
  payloads l <> [] ->
  exists p,
    aggregate_album_analysis l = Ok (Success p) /\
    AlbumProfile.total_images_analyzed p = len (filter survives l) /\
    1 <= AlbumProfile.total_images_analyzed p /\
    AlbumProfile.total_images_analyzed p <= successful l /\
    successful l <= len l.
Proof.
  intros Hne. destruct (aggregate_profile l Hne) as [p [Hp [Ht _]]].
  exists p. split; [exact Hp|]. rewrite Ht.
  assert (E : len (payloads l) = len (filter survives l)).
  { unfold len. rewrite payloads_length. reflexivity. }
  rewrite E. split; [reflexivity|]. split; [|split].
  - rewrite <- E. pose proof (len_nonzero _ Hne). unfold len in *. lia.
  - unfold successful, len. apply inj_le. apply filter_length_mono.
    intros a Ha. unfold survives in Ha. apply andb_true_iff in Ha. tauto.
  - unfold successful, len. apply inj_le. apply filter_length_le.
Qed.

Lemma total_images_counts_valid_witness :
  payloads beach_beach_city <> [] /\
  exists p,
    aggregate_album_analysis beach_beach_city = Ok (Success p) /\
    AlbumProfile.total_images_analyzed p
      = len (filter survives beach_beach_city) /\
    1 <= AlbumProfile.total_images_analyzed p /\
    AlbumProfile.total_images_analyzed p <= successful beach_beach_city /\
    successful beach_beach_city <= len beach_beach_city.
Proof.
  assert (H : payloads beach_beach_city <> []) by (vm_compute; discriminate).
  split; [exact H|].
  exact (total_images_counts_valid beach_beach_city H).
Defined.

(** ** Single winners *)

(** X3: [dominant_scene_type] is the head of the primary-only ranking: the
    most frequent primary category, the first seen among the most frequent;
    it is ["mixed"] when no primary category was counted.
    [scene_diversity] is the number of distinct primary categories, which is
    the length of the primary-only ranking. *)
Theorem dominant_scene_is_winner (analyses : list Analysis.t) :
  analyses <> [] ->
  exists s,
    _aggregate_scene_classifications analyses = Ok s /\
    winner_or "mixed" (SceneSummary.dominant_scene_type s)
              (primary_seq analyses) /\
    SceneSummary.dominant_scene_type s =
      match SceneSummary.primary_categories s with
      | e :: _ => RankedCategory.category e
      | [] => "mixed"
      end /\
    SceneSummary.scene_diversity s
      = len (first_seen (primary_seq analyses)) /\
    SceneSummary.scene_diversity s = len (SceneSummary.primary_categories s).
Proof.
  intros Hne. eexists. split; [apply scene_ok; exact Hne|].
  cbn [SceneSummary.dominant_scene_type SceneSummary.primary_categories
       SceneSummary.scene_diversity].
  split; [apply top_value_winner|]. split; [|split].
  - unfold top_value.
    destruct (most_common (Counter_of (primary_seq analyses))); reflexivity.
  - unfold len. rewrite Counter_of_length. reflexivity.
  - unfold len. rewrite length_map, counter_ranking_length, Counter_of_length.
    reflexivity.
Qed.

Lemma dominant_scene_is_winner_witness :
  payloads beach_beach_city <> [] /\
  exists s,
    _aggregate_scene_classifications (payloads beach_beach_city) = Ok s /\
    winner_or "mixed" (SceneSummary.dominant_scene_type s)
              (primary_seq (payloads beach_beach_city)) /\
    SceneSummary.dominant_scene_type s =
      match SceneSummary.primary_categories s with
      | e :: _ => RankedCategory.category e
      | [] => "mixed"
      end /\
    SceneSummary.scene_diversity s
      = len (first_seen (primary_seq (payloads beach_beach_city))) /\
    SceneSummary.scene_diversity s = len (SceneSummary.primary_categories s).
Proof.
  assert (H : payloads beach_beach_city <> []) by (vm_compute; discriminate).
  split; [exact H|].
  exact (dominant_scene_is_winner (payloads beach_beach_city) H).
Defined.

(** X4: the visual-feature reducer returns on every list, the empty one
    included, and each of its five single winners is the most frequent
    truthy value of its field, the first seen among the most frequent, or
    the field's fallback when no value was counted. *)
Theorem visual_winners (analyses : list Analysis.t) :
  exists v,
    _aggregate_visual_features analyses = Ok v /\
    winner_or "mixed"
      (ColorTemperature.dominant (VisualSummary.color_temperature v))
      (field_seq color_temperature_of analyses) /\
    winner_or "varied" (Lighting.dominant (VisualSummary.lighting v))
      (field_seq lighting_of analyses) /\
    winner_or "mixed" (Setting.primary_setting (VisualSummary.setting v))
      (field_seq setting_of analyses) /\
    winner_or "varied" (TimeOfDay.most_common (VisualSummary.time_of_day v))
      (field_seq time_of_day_of analyses) /\
    winner_or "varied" (Weather.most_common (VisualSummary.weather v))
      (field_seq weather_of analyses).
Proof.
  destruct (visual_ok analyses) as [v [Hv [Ht [Hl [Hs [Hd Hw]]]]]].
  exists v. split; [exact Hv|].
  rewrite Ht, Hl, Hs, Hd, Hw. repeat split; apply top_value_winner.
Qed.

(** X5: with at least one record, [dominant_mood] and [overall_energy] are
    the most frequent truthy value of their field, the first seen among the
    most frequent, or the fallback (["mixed"], ["medium"]) when no value was
    counted. *)
Theorem mood_winners (analyses : list Analysis.t) :
  analyses <> [] ->
  exists m,
    _aggregate_mood_atmosphere analyses = Ok m /\
    winner_or "mixed" (MoodSummary.dominant_mood m)
      (field_seq overall_mood_of analyses) /\
    winner_or "medium" (MoodSummary.overall_energy m)
      (field_seq energy_level_of analyses).
Proof.
  intros Hne. destruct (mood_ok analyses Hne) as [m [Hm [Hd He]]].
  exists m. split; [exact Hm|]. rewrite Hd, He.
  split; apply top_value_winner.
Qed.

Lemma mood_winners_witness :
  payloads rich_album <> [] /\
  field_seq overall_mood_of (payloads rich_album)
    = ["serene"; "bustling"; "vibrant"; "bustling"; "playful"] /\
  field_seq energy_level_of (payloads rich_album)
    = ["low"; "high"; "high"; "medium"; "high"] /\
  exists m,
    _aggregate_mood_atmosphere (payloads rich_album) = Ok m /\
    MoodSummary.dominant_mood m = "bustling" /\
    MoodSummary.overall_energy m = "high" /\
    is_winner (MoodSummary.dominant_mood m)
      (field_seq overall_mood_of (payloads rich_album)) /\
    is_winner (MoodSummary.overall_energy m)
      (field_seq energy_level_of (payloads rich_album)).
Proof.
  assert (H : payloads rich_album <> []) by (vm_compute; discriminate).
  split; [exact H|]. split; [reflexivity|]. split; [reflexivity|].
  destruct (mood_winners (payloads rich_album) H) as [m [Hm [Hd He]]].
  exists m. split; [exact Hm|].
  pose proof Hm as Hc. vm_compute in Hc. apply Ok_inj in Hc.
  split; [rewrite <- Hc; reflexivity|].
  split; [rewrite <- Hc; reflexivity|].
  split; [exact Hd | exact He].
Defined.

(** ** The element reducer, further *)

Lemma count_occ_filter_NoDup (f : string -> bool) (l : list string) (e : string) :
  NoDup l -> In e l ->
  count_occ string_dec (filter f l) e = if f e then 1%nat else 0%nat.
Proof.
  induction 1 as [|x l Hx Hnd IH]; simpl; [tauto|].
  intros [->|He].
  - assert (Hz : count_occ string_dec (filter f l) e = 0%nat).
    { apply count_occ_not_In. rewrite filter_In. tauto. }
    destruct (f e); simpl; [|exact Hz].
    destruct (string_dec e e); [|contradiction]. rewrite Hz. reflexivity.
  - specialize (IH He). destruct (f x); simpl; [|exact IH].
    destruct (string_dec x e) as [->|_]; [contradiction | exact IH].
Qed.

Lemma presence_seq_count (analyses : list Analysis.t) (e : string) :
  In e elements_to_track ->
  count_in e (presence_seq analyses)
  = len (filter (fun a => present_in a e) analyses).
Proof.
  intros He. unfold presence_seq, len.
  induction analyses as [|a l IH]; [reflexivity|].
  cbn [flat_map filter]. rewrite count_in_app, IH. unfold count_in at 1.
  rewrite (count_occ_filter_NoDup _ _ _ elements_to_track_NoDup He).
  destruct (present_in a e); cbn [List.length]; lia.
Qed.

Lemma presence_count_value (analyses : list Analysis.t) (e : string) :
  In e elements_to_track ->
  dd_get 0 (element_presence (fold_left elem_loop_body analyses ElemAcc_init)) e
  = len (filter (fun a => present_in a e) analyses).
Proof.
  intros He. rewrite elem_presence_loop, dd_get_Counter_of.
  apply presence_seq_count. exact He.
Qed.

(** X6: for each tracked element, [presence_count] is the number of records
    in which the element is present; it lies between 0 and the number of
    records, and [avg_prominence] is 0 when it is 0. *)
Theorem presence_count_counts_records (analyses : list Analysis.t) :
  analyses <> [] ->
  exists s,
    _aggregate_segmented_elements analyses = Ok s /\
    forall element,
      In element elements_to_track ->
      exists stats,
        dict_get (ElementSummary.element_stats s) element = Some stats /\
        ElemStats.presence_count stats
          = len (filter (fun a => present_in a element) analyses) /\
        0 <= ElemStats.presence_count stats <= len analyses /\
        (ElemStats.presence_count stats = 0 ->
         ElemStats.avg_prominence stats = 0%Q).
Proof.
  intros Hne. destruct (elements_ok analyses Hne) as [avg Hs].
  eexists. split; [exact Hs|]. cbn [ElementSummary.element_stats].
  intros element He.
  set (f := stats_of (fold_left elem_loop_body analyses ElemAcc_init)
                     (len analyses)).
  exists (f element). split; [apply (dict_get_map f); exact He|].
  unfold f, stats_of. cbn [ElemStats.presence_count ElemStats.avg_prominence].
  rewrite (presence_count_value analyses element He).
  split; [reflexivity|]. split.
  - unfold len. split; [lia|]. apply inj_le, filter_length_le.
  - intros ->. reflexivity.
Qed.

Lemma presence_count_counts_records_witness :
  payloads sky_in_one_of_two <> [] /\
  exists s,
    _aggregate_segmented_elements (payloads sky_in_one_of_two) = Ok s /\
    forall element,
      In element elements_to_track ->
      exists stats,
        dict_get (ElementSummary.element_stats s) element = Some stats /\
        ElemStats.presence_count stats
          = len (filter (fun a => present_in a element)
                        (payloads sky_in_one_of_two)) /\
        0 <= ElemStats.presence_count stats <= len (payloads sky_in_one_of_two)
        /\ (ElemStats.presence_count stats = 0 ->
            ElemStats.avg_prominence stats = 0%Q).
Proof.
  assert (H : payloads sky_in_one_of_two <> []) by (vm_compute; discriminate).
  split; [exact H|].
  exact (presence_count_counts_records (payloads sky_in_one_of_two) H).
Defined.

Lemma dd_get_dd_add_Q (k k' : string) (x : Q) (d : dict Q) :
  dd_get 0%Q (dd_add 0%Q Qplus k x d) k' =
  if String.eqb k k' then (dd_get 0%Q d k + x)%Q else dd_get 0%Q d k'.
Proof.
  unfold dd_add, dd_get. rewrite dict_get_set.
  destruct (String.eqb k k'); reflexivity.
Qed.

Lemma prominence_inv_step (segments : dict Elem.t) (st : ElemAcc) (e : string) :
  (0 <= get_default (Elem.prominence
                       (get_default (dict_get segments e) Elem.empty)) 0)%Q ->
  (get_default (Elem.prominence
                  (get_default (dict_get segments e) Elem.empty)) 0 <= 1)%Q ->
  prominence_inv st -> prominence_inv (elem_step segments st e).
Proof.
  intros H0 H1 Hinv k. unfold elem_step.
  destruct (truthy_bool _); [|apply Hinv].
  assert (Hk : (0 <= dd_get 0%Q
                       (dd_add 0%Q Qplus e
                          (get_default
                             (Elem.prominence
                                (get_default (dict_get segments e) Elem.empty))
                             0%Q)
                          (element_prominence_sum st)) k)%Q /\
               (dd_get 0%Q
                       (dd_add 0%Q Qplus e
                          (get_default
                             (Elem.prominence
                                (get_default (dict_get segments e) Elem.empty))
                             0%Q)
                          (element_prominence_sum st)) k
                <= inject_Z (dd_get 0%Z (counter_incr (element_presence st) e)
                                    k))%Q).
  { rewrite dd_get_dd_add_Q, dd_get_counter_incr.
    destruct (Hinv k) as [Hk0 Hk1]. destruct (Hinv e) as [He0 He1].
    destruct (String.eqb e k) eqn:E.
    - apply String.eqb_eq in E. subst k. split.
      + apply Qle_trans with (0 + 0)%Q; [apply Qle_refl|].
        apply Qplus_le_compat; assumption.
      + rewrite inject_Z_plus. apply Qplus_le_compat; assumption.
    - rewrite Z.add_0_r. split; assumption. }
  destruct (_ && _); exact Hk.
Qed.

Lemma prominence_inv_loop (analyses : list Analysis.t) (st : ElemAcc) :
  prominences_in_unit analyses ->
  prominence_inv st ->
  prominence_inv (fold_left elem_loop_body analyses st).
Proof.
  revert st. induction analyses as [|a l IH]; intros st Hp Hinv; [exact Hinv|].
  cbn [fold_left]. apply IH.
  - intros b element Hb. apply Hp. right. exact Hb.
  - unfold elem_loop_body.
    assert (Ha : forall element,
               (0 <= prominence_of a element)%Q
               /\ (prominence_of a element <= 1)%Q).
    { intros element. apply Hp. left. reflexivity. }
    clear IH Hp. revert st Hinv.
    induction elements_to_track as [|e es IHe]; intros st Hinv; [exact Hinv|].
    cbn [fold_left]. apply IHe. apply prominence_inv_step; [| |exact Hinv].
    + apply (Ha e).
    + apply (Ha e).
Qed.

Lemma prominence_inv_init : prominence_inv ElemAcc_init.
Proof. intros e. split; apply Qle_refl. Qed.

Lemma ratio_in_unit (s : Q) (c : Z) :
  0 < c -> (0 <= s)%Q -> (s <= inject_Z c)%Q ->
  (0 <= s / inject_Z c)%Q /\ (s / inject_Z c <= inject_Z 1)%Q.
Proof.
  intros Hc H0 H1.
  assert (Hpos : (0 < inject_Z c)%Q) by (unfold Qlt; simpl; lia).
  split.
  - apply Qle_shift_div_l; [exact Hpos|]. rewrite Qmult_0_l. exact H0.
  - apply Qle_shift_div_r; [exact Hpos|]. rewrite Qmult_1_l. exact H1.
Qed.

(** X7: when every prominence of the records lies in [[0, 1]], so does the
    [avg_prominence] of every tracked element. *)
Theorem avg_prominence_in_unit (analyses : list Analysis.t) :
  analyses <> [] ->
  prominences_in_unit analyses ->
  exists s,
    _aggregate_segmented_elements analyses = Ok s /\
    forall element stats,
      In (element, stats) (ElementSummary.element_stats s) ->
      (0 <= ElemStats.avg_prominence stats)%Q
      /\ (ElemStats.avg_prominence stats <= 1)%Q.
Proof.
  intros Hne Hp. destruct (elements_ok analyses Hne) as [avg Hs].
  eexists. split; [exact Hs|]. cbn [ElementSummary.element_stats].
  intros element stats He. apply in_map_iff in He as [k [E Hk]].
  inversion E; subst. clear E.
  unfold stats_of. cbn [ElemStats.avg_prominence].
  pose proof (prominence_inv_loop analyses ElemAcc_init Hp prominence_inv_init
                                  element) as [H0 H1].
  destruct (_ >? 0) eqn:Epos.
  - apply Z.gtb_lt in Epos.
    destruct (ratio_in_unit _ _ Epos H0 H1) as [Hlo Hhi]. split.
    + apply py_round_nonneg. exact Hlo.
    + apply (py_round_le _ 2 1). exact Hhi.
  - split; [apply Qle_refl | unfold Qle; simpl; lia].
Qed.

Lemma avg_prominence_in_unit_witness :
  payloads sky_in_one_of_two <> [] /\
  prominences_in_unit (payloads sky_in_one_of_two) /\
  exists s,
    _aggregate_segmented_elements (payloads sky_in_one_of_two) = Ok s /\
    forall element stats,
      In (element, stats) (ElementSummary.element_stats s) ->
      (0 <= ElemStats.avg_prominence stats)%Q
      /\ (ElemStats.avg_prominence stats <= 1)%Q.
Proof.
  assert (H : payloads sky_in_one_of_two <> []) by (vm_compute; discriminate).
  assert (Hp : prominences_in_unit (payloads sky_in_one_of_two)).
  { intros a element Ha. vm_compute in Ha.
    destruct Ha as [<-|[<-|[]]]; unfold prominence_of, elem_data_of, segments_of;
      cbn [Analysis.segmented_elements get_default dict_get].
    - destruct (String.eqb "sky" element); cbn; split; unfold Qle; simpl; lia.
    - cbn; split; unfold Qle; simpl; lia. }
  split; [exact H|]. split; [exact Hp|].
  exact (avg_prominence_in_unit (payloads sky_in_one_of_two) H Hp).
Defined.

(** The stable descending sort puts no entry before an entry with a greater
    key, when "not greater" is transitive. *)
Section SortedReverseOrder.
Context {A : Type} (gtb : A -> A -> bool).
Hypothesis gtb_asym : forall x y, gtb x y = true -> gtb y x = false.
Hypothesis ngt_trans :
  forall x y z, gtb y x = false -> gtb z y = false -> gtb z x = false.

Lemma insert_desc_sorted (x : A) (l : list A) :
  StronglySorted (fun a b => gtb b a = false) l ->
  StronglySorted (fun a b => gtb b a = false) (insert_desc gtb x l).
Proof.
  induction 1 as [|y ys Hs IH Hall]; simpl.
  - constructor; constructor.
  - destruct (gtb y x) eqn:E.
    + constructor; [exact IH|].
      rewrite Forall_forall in *. intros z Hz.
      apply (Permutation_in _ (insert_desc_perm gtb x ys)) in Hz.
      destruct Hz as [<-|Hz]; [apply gtb_asym; exact E | auto].
    + constructor; [constructor; assumption|].
      rewrite Forall_forall in *. intros z [<-|Hz]; [exact E|].
      apply (ngt_trans x y z); [exact E | auto].
Qed.

Lemma sorted_reverse_sorted (l : list A) :
  StronglySorted (fun a b => gtb b a = false) (sorted_reverse gtb l).
Proof.
  induction l as [|x xs IH]; simpl; [constructor|].
  apply insert_desc_sorted. exact IH.
Qed.
End SortedReverseOrder.

Lemma stats_gtb_false_iff (x y : string * ElemStats.t) :
  stats_gtb y x = false <-> stats_ge x y.
Proof.
  unfold stats_gtb, stats_ge.
  set (cx := ElemStats.presence_count (snd x)).
  set (cy := ElemStats.presence_count (snd y)).
  set (ax := ElemStats.avg_prominence (snd x)).
  set (ay := ElemStats.avg_prominence (snd y)).
  rewrite orb_false_iff, andb_false_iff, Z.gtb_ltb, Z.ltb_ge, Z.eqb_neq.
  assert (Hq : Qgtb ay ax = false <-> (ay <= ax)%Q).
  { rewrite <- Qgeb_iff. unfold Qgeb. destruct (Qgtb ay ax); simpl;
      split; congruence. }
  rewrite Hq. split.
  - intros [Hle [Hne|Hq']]; [left; lia|].
    destruct (Z.eq_dec cx cy); [right; tauto | left; lia].
  - intros [Hgt|[He Hq']].
    + split; [lia | left; lia].
    + split; [lia | right; exact Hq'].
Qed.

Lemma stats_gtb_asym (x y : string * ElemStats.t) :
  stats_gtb x y = true -> stats_gtb y x = false.
Proof.
  intros H. apply stats_gtb_false_iff. unfold stats_gtb in H. unfold stats_ge.
  apply orb_true_iff in H as [H|H].
  - left. apply Z.gtb_lt in H. lia.
  - apply andb_true_iff in H as [He Hq]. apply Z.eqb_eq in He.
    apply Qgtb_iff in Hq. right. split; [exact He | apply Qlt_le_weak, Hq].
Qed.

Lemma stats_ge_trans (x y z : string * ElemStats.t) :
  stats_ge x y -> stats_ge y z -> stats_ge x z.
Proof.
  unfold stats_ge. intros [H1|[E1 Q1]] [H2|[E2 Q2]].
  - left. lia.
  - left. lia.
  - left. lia.
  - right. split; [lia | eapply Qle_trans; eassumption].
Qed.

Lemma ranked_elements_sorted (es : list (string * ElemStats.t)) :
  StronglySorted stats_ge (sorted_reverse stats_gtb es).
Proof.
  eapply StronglySorted_weaken;
    [|apply (sorted_reverse_sorted stats_gtb)].
  - intros a b _ _ H. apply stats_gtb_false_iff. exact H.
  - apply stats_gtb_asym.
  - intros x y z H1 H2. apply stats_gtb_false_iff.
    apply stats_gtb_false_iff in H1. apply stats_gtb_false_iff in H2.
    eapply stats_ge_trans; eassumption.
Qed.

(** X8: [ranked_by_presence] lists the seven entries of [element_stats],
    rearranged so that no entry stands before an entry with a greater
    [(presence_count, avg_prominence)] pair. *)
Theorem ranked_by_presence_sorted (analyses : list Analysis.t) :
  analyses <> [] ->
  exists s,
    _aggregate_segmented_elements analyses = Ok s /\
    Permutation (ElementSummary.ranked_by_presence s)
                (ElementSummary.element_stats s) /\
    StronglySorted stats_ge (ElementSummary.ranked_by_presence s) /\
    List.length (ElementSummary.ranked_by_presence s) = 7%nat.
Proof.
  intros Hne. destruct (elements_ok analyses Hne) as [avg Hs].
  eexists. split; [exact Hs|].
  cbn [ElementSummary.ranked_by_presence ElementSummary.element_stats].
  split; [apply sorted_reverse_perm|]. split; [apply ranked_elements_sorted|].
  rewrite (Permutation_length (sorted_reverse_perm stats_gtb _)).
  rewrite length_map. reflexivity.
Qed.

Lemma ranked_by_presence_sorted_witness :
  payloads sky_in_one_of_two <> [] /\
  exists s,
    _aggregate_segmented_elements (payloads sky_in_one_of_two) = Ok s /\
    Permutation (ElementSummary.ranked_by_presence s)
                (ElementSummary.element_stats s) /\
    StronglySorted stats_ge (ElementSummary.ranked_by_presence s) /\
    List.length (ElementSummary.ranked_by_presence s) = 7%nat.
Proof.
  assert (H : payloads sky_in_one_of_two <> []) by (vm_compute; discriminate).
  split; [exact H|].
  exact (ranked_by_presence_sorted (payloads sky_in_one_of_two) H).
Defined.

Lemma round_half_even_ge (x : Q) (m : Z) :
  (inject_Z m <= x)%Q -> m <= round_half_even x.
Proof.
  intros Hx. pose proof (round_half_even_bounds x) as [[Hlo _] _].
  unfold Qle in Hx. simpl in Hx.
  assert (m <= Qnum x / Zpos (Qden x)); [|lia].
  apply Z.div_le_lower_bound; lia.
Qed.

Lemma py_round_ge (x : Q) (nd : nat) (m : Z) :
  (inject_Z m <= x)%Q -> (inject_Z m <= py_round x nd)%Q.
Proof.
  intros Hx. unfold py_round. rewrite Qred_correct.
  set (p := 10 ^ Z.of_nat nd).
  assert (Hp : 0 < p) by (apply Z.pow_pos_nonneg; lia).
  assert (H : m * p <= round_half_even (x * inject_Z p)).
  { apply round_half_even_ge. rewrite inject_Z_mult.
    apply Qmult_le_compat_r; [assumption|]. unfold Qle; simpl; lia. }
  unfold Qle; simpl. rewrite Z2Pos.id by assumption. lia.
Qed.

Lemma ratio_ge (c n k : Z) :
  0 < n -> k * n <= 100 * c -> (inject_Z k <= inject_Z c / inject_Z n * 100)%Q.
Proof.
  intros Hn H. destruct n as [|n|n]; try lia.
  unfold Qle, Qdiv, Qmult, Qinv, inject_Z. simpl. lia.
Qed.

Lemma percentage_of_ge (c n k : Z) :
  0 < n -> k * n <= 100 * c -> (inject_Z k <= percentage_of c n)%Q.
Proof. intros Hn H. apply py_round_ge, ratio_ge; assumption. Qed.

Lemma percentage_of_zero (n : Z) : percentage_of 0 n = 0%Q.
Proof. unfold percentage_of. apply py_round_zero. reflexivity. Qed.

Lemma NoDup_map_fst_filter {A B : Type} (f : A * B -> bool) (l : list (A * B)) :
  NoDup (map fst l) -> NoDup (map fst (filter f l)).
Proof.
  induction l as [|x xs IH]; simpl; intros H; [constructor|].
  inversion H as [|? ? Hx Hnd]; subst.
  destruct (f x); simpl; [constructor|]; auto.
  intros Hin. apply Hx. apply in_map_iff in Hin as [y [E Hy]].
  apply filter_In in Hy as [Hy _]. apply in_map_iff. exists y. auto.
Qed.

Lemma selected_NoDup (P : string * ElemStats.t -> bool)
      (f : string -> ElemStats.t) :
  NoDup (map fst (filter P (sorted_reverse stats_gtb
                              (map (fun e => (e, f e)) elements_to_track)))).
Proof.
  apply NoDup_map_fst_filter.
  eapply Permutation_NoDup.
  - apply Permutation_map. symmetry. apply sorted_reverse_perm.
  - rewrite map_map. cbn [fst]. rewrite map_id. apply elements_to_track_NoDup.
Qed.

(** X9: how the two lists follow from the counts.  A tracked element present
    in at least half of the records is dominant; a rare element is present
    in at least one record and in fewer than a fifth of them; an element
    present in no record is in neither list; no element is in both; neither
    list repeats an element. *)
Theorem dominant_rare_by_counts (analyses : list Analysis.t) :
  analyses <> [] ->
  exists s,
    _aggregate_segmented_elements analyses = Ok s /\
    NoDup (ElementSummary.dominant_elements s) /\
    NoDup (ElementSummary.rare_elements s) /\
    forall element,
      let c := len (filter (fun a => present_in a element) analyses) in
      (In element elements_to_track -> len analyses <= 2 * c ->
       In element (ElementSummary.dominant_elements s)) /\
      (In element (ElementSummary.dominant_elements s) ->
       In element elements_to_track /\ 1 <= c) /\
      (In element (ElementSummary.rare_elements s) ->
       In element elements_to_track /\ 1 <= c /\ 5 * c < len analyses) /\
      ~ (In element (ElementSummary.dominant_elements s)
         /\ In element (ElementSummary.rare_elements s)).
Proof.
  intros Hne. destruct (elements_ok analyses Hne) as [avg Hs].
  eexists. split; [exact Hs|].
  cbn [ElementSummary.dominant_elements ElementSummary.rare_elements].
  split; [apply selected_NoDup|]. split; [apply selected_NoDup|].
  intros element. cbn zeta.
  set (c := len (filter (fun a => present_in a element) analyses)).
  assert (Hn : 0 < len analyses).
  { pose proof (len_nonzero _ Hne). unfold len in *. lia. }
  assert (Hc : 0 <= c) by (unfold c, len; lia).
  rewrite !In_selected. unfold is_dominant, is_rare. cbn [snd].
  rewrite andb_true_iff, Qgeb_iff, !Qgtb_iff.
  assert (Hrate : In element elements_to_track ->
                  ElemStats.presence_rate
                    (stats_of (fold_left elem_loop_body analyses ElemAcc_init)
                              (len analyses) element)
                  = percentage_of c (len analyses)).
  { intros He. unfold stats_of. cbn [ElemStats.presence_rate].
    rewrite (presence_count_value analyses element He). reflexivity. }
  assert (Hpos : (0 < percentage_of c (len analyses))%Q -> 1 <= c).
  { intros H. destruct (Z.eq_dec c 0) as [E|]; [|lia].
    rewrite E, percentage_of_zero in H. exfalso. exact (Qlt_irrefl _ H). }
  split; [|split; [|split]].
  - intros He Hhalf. split; [exact He|]. rewrite (Hrate He).
    apply (percentage_of_ge c (len analyses) 50); lia.
  - intros [He H50]. split; [exact He|]. rewrite (Hrate He) in H50.
    apply Hpos. eapply Qlt_le_trans; [|exact H50]. reflexivity.
  - intros [He [H0 H20]]. split; [exact He|]. rewrite (Hrate He) in H0, H20.
    split; [apply Hpos; exact H0|].
    destruct (Z_lt_le_dec (5 * c) (len analyses)) as [Hlt|Hge]; [exact Hlt|].
    exfalso. apply (Qlt_not_le _ _ H20).
    apply (percentage_of_ge c (len analyses) 20); lia.
  - intros [[He H50] [_ [_ H20]]].
    apply (Qlt_not_le _ _ H20). eapply Qle_trans; [|exact H50].
    unfold Qle; simpl; lia.
Qed.

Lemma dominant_rare_by_counts_witness :
  payloads sky_in_one_of_two <> [] /\
  exists s,
    _aggregate_segmented_elements (payloads sky_in_one_of_two) = Ok s /\
    NoDup (ElementSummary.dominant_elements s) /\
    NoDup (ElementSummary.rare_elements s) /\
    In "sky" (ElementSummary.dominant_elements s).
Proof.
  assert (H : payloads sky_in_one_of_two <> []) by (vm_compute; discriminate).
  split; [exact H|].
  destruct (dominant_rare_by_counts (payloads sky_in_one_of_two) H)
    as [s [Hs [Hd [Hr Hall]]]].
  exists s. split; [exact Hs|]. split; [exact Hd|]. split; [exact Hr|].
  apply (proj1 (Hall "sky")).
  - left. reflexivity.
  - vm_compute. discriminate.
Defined.

Lemma people_total_step (segments : dict Elem.t) (st : ElemAcc) (e : string) :
  people_count_total (elem_step segments st e) =
  people_count_total st
  + (if people_hit segments e
     then get_default
            (Elem.count (get_default (dict_get segments e) Elem.empty)) 0
     else 0).
Proof.
  unfold elem_step, people_hit.
  destruct (truthy_bool _); simpl; [|lia].
  destruct (_ && _); simpl; lia.
Qed.

Lemma people_total_inner (a : Analysis.t) (st : ElemAcc) :
  people_count_total (elem_loop_body st a) =
  people_count_total st + (if people_counted a then people_count_of a else 0).
Proof.
  unfold elem_loop_body.
  rewrite (fold_left_proj _ people_count_total
             (fun n e =>
                n + (if people_hit (segments_of a) e
                     then get_default
                            (Elem.count
                               (get_default (dict_get (segments_of a) e)
                                            Elem.empty)) 0
                     else 0)))
    by (intros; apply people_total_step).
  unfold elements_to_track. cbn [fold_left].
  unfold people_hit at 1 2 3 5 6 7. cbn [String.eqb Ascii.eqb Bool.eqb].
  rewrite !andb_false_r. unfold people_hit, people_counted, present_in,
    people_count_of, elem_data_of, segments_of.
  rewrite String.eqb_refl. cbn [andb]. lia.
Qed.

Lemma people_total_loop (analyses : list Analysis.t) (st : ElemAcc) :
  people_count_total (fold_left elem_loop_body analyses st) =
  people_count_total st + sum_Z (counted_people analyses).
Proof.
  unfold counted_people, sum_Z.
  revert st. induction analyses as [|a l IH]; intros st; cbn [fold_left filter].
  - simpl. lia.
  - rewrite IH, people_total_inner.
    destruct (people_counted a); cbn [map fold_right]; lia.
Qed.

Lemma people_presence_value (analyses : list Analysis.t) (s : ElementSummary.t) :
  _aggregate_segmented_elements analyses = Ok s ->
  let images := len (filter people_counted analyses) in
  ElementSummary.people_presence s =
  {| PeoplePresence.images_with_people := images;
     PeoplePresence.avg_people_per_image :=
       if images >? 0
       then py_round (inject_Z (sum_Z (counted_people analyses))
                      / inject_Z images) 1
       else 0%Q |}.
Proof.
  intros Hs. cbn zeta. revert Hs.
  unfold _aggregate_segmented_elements.
  set (acc := fold_left elem_loop_body analyses ElemAcc_init).
  assert (Hi : people_images acc = len (filter people_counted analyses)).
  { unfold acc. rewrite people_images_loop. reflexivity. }
  assert (Ht : people_count_total acc = sum_Z (counted_people analyses)).
  { unfold acc. rewrite people_total_loop. reflexivity. }
  rewrite Hi, Ht.
  destruct (foldM _ _ _) as [es|]; cbn [bind]; [|discriminate].
  destruct (len (filter people_counted analyses) >? 0) eqn:E.
  - destruct (py_truediv _ _) as [q|] eqn:Eq; cbn [bind]; [|discriminate].
    apply py_truediv_inv in Eq. subst q.
    intros H. apply Ok_inj in H. subst s. reflexivity.
  - cbn [bind]. intros H. apply Ok_inj in H. subst s. reflexivity.
Qed.

Lemma sum_counted_ge (analyses : list Analysis.t) :
  counts_nonneg analyses ->
  len (filter people_counted analyses) <= sum_Z (counted_people analyses).
Proof.
  unfold counted_people, sum_Z, len.
  induction analyses as [|a l IH]; intros H; cbn [filter]; [simpl; lia|].
  assert (Hl : counts_nonneg l) by (intros b Hb; apply H; right; exact Hb).
  specialize (IH Hl).
  destruct (people_counted a) eqn:E; [|exact IH].
  cbn [map fold_right List.length].
  pose proof (H a (or_introl eq_refl)) as Ha.
  unfold people_counted in E. apply andb_true_iff in E as [_ E].
  unfold truthy_int in E. apply negb_true_iff, Z.eqb_neq in E.
  unfold people_count_of in *. lia.
Qed.

(** X10: [images_with_people] is the number of records in which people are
    present with a truthy count; it is at most the number of records in
    which people are present.  [avg_people_per_image] is 0 when that number
    is 0; otherwise it is the sum of those counts divided by that number,
    rounded to 1 decimal place, and it is at least 1 when no people count is
    negative. *)
Theorem people_presence_counts (analyses : list Analysis.t) :
  analyses <> [] ->
  exists s,
    _aggregate_segmented_elements analyses = Ok s /\
    let images :=
      PeoplePresence.images_with_people (ElementSummary.people_presence s) in
    let avg :=
      PeoplePresence.avg_people_per_image (ElementSummary.people_presence s) in
    images = len (filter people_counted analyses) /\
    images <= len (filter (fun a => present_in a "people") analyses) /\
    (images = 0 -> avg = 0%Q) /\
    (0 < images ->
     rounded_to_tenth
       avg (inject_Z (sum_Z (counted_people analyses)) / inject_Z images)) /\
    (counts_nonneg analyses -> 0 < images -> (1 <= avg)%Q).
Proof.
  intros Hne. destruct (elements_ok analyses Hne) as [avg Hs].
  eexists. split; [exact Hs|].
  rewrite (people_presence_value _ _ Hs). cbn zeta.
  cbn [PeoplePresence.images_with_people PeoplePresence.avg_people_per_image].
  set (images := len (filter people_counted analyses)).
  split; [reflexivity|]. split; [|split; [|split]].
  - unfold images, len. apply inj_le, filter_length_mono.
    intros a Ha. unfold people_counted in Ha.
    apply andb_true_iff in Ha. tauto.
  - intros ->. reflexivity.
  - intros Hpos. apply Z.gtb_lt in Hpos. rewrite Hpos. apply py_round_tenth.
  - intros Hnn Hpos. pose proof (sum_counted_ge analyses Hnn) as Hge.
    fold images in Hge.
    assert (E : (images >? 0) = true) by (apply Z.gtb_lt; exact Hpos).
    rewrite E. apply (py_round_ge _ 1 1).
    apply Qle_shift_div_l; [unfold Qlt; simpl; lia|].
    rewrite Qmult_1_l. rewrite <- Zle_Qle. exact Hge.
Qed.

Lemma people_presence_counts_witness :
  payloads people_album <> [] /\
  counts_nonneg (payloads people_album) /\
  sum_Z (counted_people (payloads people_album)) = 7 /\
  len (filter (fun a => present_in a "people") (payloads people_album)) = 3 /\
  exists s,
    _aggregate_segmented_elements (payloads people_album) = Ok s /\
    let images :=
      PeoplePresence.images_with_people (ElementSummary.people_presence s) in
    let avg :=
      PeoplePresence.avg_people_per_image (ElementSummary.people_presence s) in
    images = 2 /\
    rounded_to_tenth
      avg (inject_Z (sum_Z (counted_people (payloads people_album)))
           / inject_Z images) /\
    (1 <= avg)%Q.
Proof.
  assert (H : payloads people_album <> []) by (vm_compute; discriminate).
  assert (Hn : counts_nonneg (payloads people_album)).
  { intros a Ha. vm_compute in Ha.
    destruct Ha as [<-|[<-|[<-|[]]]]; vm_compute; discriminate. }
  split; [exact H|]. split; [exact Hn|].
  split; [reflexivity|]. split; [reflexivity|].
  destruct (people_presence_counts (payloads people_album) H)
    as [s [Hs [Hi [_ [_ [Hround Havg]]]]]].
  assert (Hpos : 0 < PeoplePresence.images_with_people
                       (ElementSummary.people_presence s))
    by (rewrite Hi; reflexivity).
  exists s. split; [exact Hs|]. cbn zeta.
  split; [rewrite Hi; reflexivity|].
  split; [apply Hround; exact Hpos | apply Havg; [exact Hn | exact Hpos]].
Defined.

(** ** Top-n rankings *)

Lemma StronglySorted_app_inv {A : Type} (R : A -> A -> Prop) (l1 l2 : list A) :
  StronglySorted R (l1 ++ l2) ->
  StronglySorted R l1 /\ StronglySorted R l2 /\
  forall x y, In x l1 -> In y l2 -> R x y.
Proof.
  induction l1 as [|a l1 IH]; simpl; intros H.
  - split; [constructor|]. split; [exact H|]. intros x y [].
  - inversion H as [|? ? Hs Hall]; subst.
    destruct (IH Hs) as [H1 [H2 H12]].
    rewrite Forall_forall in Hall. split; [|split; [exact H2|]].
    + constructor; [exact H1|]. rewrite Forall_forall.
      intros x Hx. apply Hall, in_or_app. left. exact Hx.
    + intros x y [<-|Hx] Hy; [|auto].
      apply Hall, in_or_app. right. exact Hy.
Qed.

Lemma most_common_n_top (n : nat) (seq : list string) :
  top_ranking n seq (most_common_n n (Counter_of seq)).
Proof.
  unfold top_ranking, most_common_n.
  set (R := most_common (Counter_of seq)).
  pose proof (counter_ranking_sorted seq) as Hs. fold R in Hs.
  rewrite <- (firstn_skipn n R) in Hs.
  apply StronglySorted_app_inv in Hs as [H1 [_ H12]].
  split; [|split; [exact H1|split]].
  - rewrite length_firstn. unfold R. rewrite counter_ranking_length.
    reflexivity.
  - intros e He. apply counter_ranking_count. fold R.
    rewrite <- (firstn_skipn n R). apply in_or_app. left. exact He.
  - intros k e Hk Hout He.
    pose proof (counter_ranking_entry seq k Hk) as Hin. fold R in Hin.
    rewrite <- (firstn_skipn n R) in Hin. apply in_app_or in Hin as [Hin|Hin].
    + exfalso. apply Hout. apply in_map_iff.
      exists (k, count_in k seq). split; [reflexivity | exact Hin].
    + apply H12; assumption.
Qed.

Lemma visual_palette (analyses : list Analysis.t) (v : VisualSummary.t) :
  _aggregate_visual_features analyses = Ok v ->
  ColorPalette.top_colors (VisualSummary.color_palette v)
    = most_common_n 8 (Counter_of (color_seq analyses)) /\
  ColorPalette.unique_colors_mentioned (VisualSummary.color_palette v)
    = len (Counter_of (color_seq analyses)).
Proof.
  unfold _aggregate_visual_features. rewrite !top_or_total. cbn [bind].
  intros H. apply Ok_inj in H. subst v.
  cbn [VisualSummary.color_palette ColorPalette.top_colors
       ColorPalette.unique_colors_mentioned].
  rewrite (extend_loop visual_step all_colors
             (fun a => get_default (Visual.dominant_colors (visual_of a)) []))
    by reflexivity.
  split; reflexivity.
Qed.

(** X11: [top_colors] holds the 8 most frequent colour names (all of them
    when fewer are mentioned), each with its number of mentions, ranked by
    descending count and, among equal counts, by first mention; every colour
    left out ranks after every colour listed.  [unique_colors_mentioned] is
    the number of distinct colour names. *)
Theorem top_colors_ranking (analyses : list Analysis.t) :
  exists v,
    _aggregate_visual_features analyses = Ok v /\
    top_ranking 8 (color_seq analyses)
                (ColorPalette.top_colors (VisualSummary.color_palette v)) /\
    ColorPalette.unique_colors_mentioned (VisualSummary.color_palette v)
      = len (first_seen (color_seq analyses)).
Proof.
  destruct (visual_ok analyses) as [v [Hv _]]. exists v. split; [exact Hv|].
  destruct (visual_palette analyses v Hv) as [-> ->].
  split; [apply most_common_n_top|].
  unfold len. rewrite Counter_of_length. reflexivity.
Qed.

(** X13: [all_notable_elements] holds the 20 most frequent notable entries
    (all of them when fewer are distinct), each with its number of
    occurrences, ranked by descending count and, among equal counts, by first
    occurrence; every entry left out ranks after every entry listed.
    [unique_notable_count] is the number of distinct entries.  The reducer
    returns on every list. *)
Theorem all_notable_ranking (analyses : list Analysis.t) :
  exists no,
    _aggregate_notable_elements analyses = Ok no /\
    top_ranking 20 (notable_seq analyses)
                (NotableSummary.all_notable_elements no) /\
    NotableSummary.unique_notable_count no
      = len (first_seen (notable_seq analyses)).
Proof.
  eexists. split; [apply notable_ok|].
  cbn [NotableSummary.all_notable_elements NotableSummary.unique_notable_count].
  split; [apply most_common_n_top|].
  unfold len. rewrite Counter_of_length. reflexivity.
Qed.

(** ** The combined scene ranking *)

Lemma primary_in_all (analyses : list Analysis.t) (k : string) :
  count_in k (primary_seq analyses) <= count_in k (all_seq analyses).
Proof.
  unfold primary_seq, field_seq, all_seq.
  induction analyses as [|a l IH]; cbn [flat_map]; [lia|].
  rewrite !count_in_app.
  pose proof (count_in_nonneg k
                (get_default (Scene.secondary_categories (scene_of a)) [])).
  lia.
Qed.

(** X14: every category of the primary-only ranking is in the combined
    ranking too, with a count that is at least as large. *)
Theorem combined_covers_primary (analyses : list Analysis.t) :
  analyses <> [] ->
  exists s,
    _aggregate_scene_classifications analyses = Ok s /\
    forall e,
      In e (SceneSummary.primary_categories s) ->
      exists e',
        In e' (SceneSummary.all_categories s) /\
        RankedCategory.category e' = RankedCategory.category e /\
        RankedCategory.count e <= RankedCategory.count e'.
Proof.
  intros Hne. eexists. split; [apply scene_ok; exact Hne|].
  cbn [SceneSummary.primary_categories SceneSummary.all_categories].
  intros e He. apply in_map_iff in He as [[k c] [<- Hk]].
  apply counter_ranking_count in Hk as [Hin Hc]. cbn [fst snd] in Hin, Hc.
  exists (entry_of (len analyses) (k, count_in k (all_seq analyses))).
  split; [|split].
  - apply in_map, counter_ranking_entry.
    apply count_in_pos. apply count_in_pos in Hin.
    pose proof (primary_in_all analyses k). lia.
  - reflexivity.
  - cbn [entry_of RankedCategory.count snd]. rewrite Hc.
    apply primary_in_all.
Qed.

Lemma combined_covers_primary_witness :
  payloads city_then_beach <> [] /\
  exists s,
    _aggregate_scene_classifications (payloads city_then_beach) = Ok s /\
    forall e,
      In e (SceneSummary.primary_categories s) ->
      exists e',
        In e' (SceneSummary.all_categories s) /\
        RankedCategory.category e' = RankedCategory.category e /\
        RankedCategory.count e <= RankedCategory.count e'.
Proof.
  assert (H : payloads city_then_beach <> []) by (vm_compute; discriminate).
  split; [exact H|].
  exact (combined_covers_primary (payloads city_then_beach) H).
Defined.

(** ** The mood reducer, further *)

Lemma mood_details (analyses : list Analysis.t) (m : MoodSummary.t) :
  _aggregate_mood_atmosphere analyses = Ok m ->
  let R := most_common (Counter_of (field_seq overall_mood_of analyses)) in
  MoodSummary.top_atmosphere_tags m
    = most_common_n 10 (Counter_of (tag_seq analyses)) /\
  MoodSummary.secondary_moods m
    = (if len (Counter_of (field_seq overall_mood_of analyses)) >? 1
       then map fst (skipn 1 (firstn 3 R)) else []) /\
  MoodSummary.mood_consistency m
    = match R with
      | [] => 0%Q
      | e :: _ => (inject_Z (snd e) / inject_Z (len analyses))%Q
      end.
Proof.
  cbn zeta. unfold _aggregate_mood_atmosphere. rewrite !top_or_total.
  cbn [bind].
  rewrite (tally_loop mood_step moods overall_mood_of) by reflexivity.
  rewrite (extend_loop mood_step all_tags
             (fun a => get_default (Mood.descriptive_tags (mood_of a)) []))
    by reflexivity.
  cbn [moods all_tags MoodAcc_init app].
  fold (Counter_of (field_seq overall_mood_of analyses)).
  set (c := Counter_of (field_seq overall_mood_of analyses)).
  destruct (match c with
            | [] => Ok 0%Q
            | _ :: _ =>
                e <- subscript0 (most_common_n 1 c) ;;
                py_truediv (inject_Z (snd e)) (inject_Z (len analyses))
            end) as [q|] eqn:Eq; cbn [bind]; [|discriminate].
  intros H. apply Ok_inj in H. subst m.
  cbn [MoodSummary.top_atmosphere_tags MoodSummary.secondary_moods
       MoodSummary.mood_consistency].
  split; [reflexivity|]. split; [reflexivity|].
  destruct c as [|e0 c0] eqn:Ec.
  - apply Ok_inj in Eq. subst q. reflexivity.
  - unfold most_common_n in Eq.
    destruct (most_common (e0 :: c0)) as [|e r]; cbn in Eq; [discriminate|].
    apply py_truediv_inv in Eq. exact Eq.
Qed.

(** X12: [top_atmosphere_tags] holds the 10 most frequent mood tags (all of
    them when fewer are distinct), each with its number of occurrences,
    ranked by descending count and, among equal counts, by first occurrence;
    every tag left out ranks after every tag listed. *)
Theorem top_tags_ranking (analyses : list Analysis.t) :
  analyses <> [] ->
  exists m,
    _aggregate_mood_atmosphere analyses = Ok m /\
    top_ranking 10 (tag_seq analyses) (MoodSummary.top_atmosphere_tags m).
Proof.
  intros Hne. destruct (mood_ok analyses Hne) as [m [Hm _]].
  exists m. split; [exact Hm|].
  destruct (mood_details analyses m Hm) as [-> _].
  apply most_common_n_top.
Qed.

Lemma top_tags_ranking_witness :
  payloads tagged_album <> [] /\
  exists m,
    _aggregate_mood_atmosphere (payloads tagged_album) = Ok m /\
    MoodSummary.top_atmosphere_tags m
      = [("busy", 2); ("scenic", 2); ("calm", 1); ("warm", 1); ("tasty", 1);
         ("fresh", 1); ("bright", 1); ("quiet", 1); ("lively", 1);
         ("rustic", 1)] /\
    top_ranking 10 (tag_seq (payloads tagged_album))
                (MoodSummary.top_atmosphere_tags m).
Proof.
  assert (H : payloads tagged_album <> []) by (vm_compute; discriminate).
  split; [exact H|].
  destruct (top_tags_ranking (payloads tagged_album) H) as [m [Hm Htop]].
  exists m. split; [exact Hm|].
  pose proof Hm as Hc. vm_compute in Hc. apply Ok_inj in Hc.
  split; [rewrite <- Hc; reflexivity | exact Htop].
Defined.

(** X15: [mood_consistency] is the share of the records that carry the
    dominant mood: the count of [dominant_mood] divided by the number of
    records, not rounded, to the precision of a double.  It is 0 when no
    mood was counted; otherwise it is greater than 0 and at most 1, and it
    is 1 exactly when every record carries the dominant mood. *)
Theorem mood_consistency_share (analyses : list Analysis.t) :
  analyses <> [] ->
  exists m,
    _aggregate_mood_atmosphere analyses = Ok m /\
    let seq := field_seq overall_mood_of analyses in
    let mc := MoodSummary.mood_consistency m in
    let count := count_in (MoodSummary.dominant_mood m) seq in
    (seq = [] -> mc = 0%Q) /\
    (seq <> [] ->
     within_double_precision
       mc (inject_Z count / inject_Z (len analyses))
     /\ (0 < mc)%Q
     /\ ((mc == 1)%Q <-> count = len analyses)) /\
    (0 <= mc)%Q /\ (mc <= 1)%Q.
Proof.
  intros Hne. destruct (mood_ok analyses Hne) as [m [Hm [Hd _]]].
  exists m. split; [exact Hm|]. cbn zeta.
  destruct (mood_details analyses m Hm) as [_ [_ Hmc]]. cbn zeta in Hmc.
  rewrite Hmc, Hd. clear Hmc Hd Hm.
  set (seq := field_seq overall_mood_of analyses).
  assert (Hn : 0 < len analyses).
  { pose proof (len_nonzero _ Hne). unfold len in *. lia. }
  pose proof (counter_ranking_count seq) as Hc.
  pose proof (counter_ranking_entry seq) as He.
  unfold top_value.
  destruct (most_common (Counter_of seq)) as [|e r] eqn:ER.
  - split; [reflexivity|]. split.
    + intros Hs. destruct seq as [|x xs]; [contradiction|].
      exfalso. apply (He x). left. reflexivity.
    + split; [apply Qle_refl | unfold Qle; simpl; lia].
  - destruct (Hc e (or_introl eq_refl)) as [Hin Hcnt].
    assert (Hpos : 0 < snd e).
    { rewrite Hcnt. apply count_in_pos. exact Hin. }
    assert (Hle : snd e <= len analyses).
    { rewrite Hcnt. apply count_in_flat_map_le. intros a.
      apply count_in_counted. }
    assert (Hq : (0 < inject_Z (snd e) / inject_Z (len analyses))%Q).
    { apply Qlt_shift_div_l; [unfold Qlt; simpl; lia|].
      rewrite Qmult_0_l. unfold Qlt; simpl; lia. }
    split; [|split; [|split]].
    + intros Hs. exfalso. rewrite Hs in Hin. exact Hin.
    + intros _. rewrite <- Hcnt. split; [|split].
      * apply exact_within_double_precision, Qlt_le_weak, Hq.
      * exact Hq.
      * apply quotient_is_one. exact Hn.
    + apply Qlt_le_weak. exact Hq.
    + apply Qle_shift_div_r; [unfold Qlt; simpl; lia|].
      rewrite Qmult_1_l. rewrite <- Zle_Qle. exact Hle.
Qed.

Lemma mood_consistency_share_witness :
  payloads rich_album <> [] /\
  field_seq overall_mood_of (payloads rich_album)
    = ["serene"; "bustling"; "vibrant"; "bustling"; "playful"] /\
  len (payloads rich_album) = 5 /\
  exists m,
    _aggregate_mood_atmosphere (payloads rich_album) = Ok m /\
    MoodSummary.dominant_mood m = "bustling" /\
    let mc := MoodSummary.mood_consistency m in
    within_double_precision mc (inject_Z 2 / inject_Z 5) /\
    (0 < mc)%Q /\ (mc <= 1)%Q /\ ~ (mc == 1)%Q.
Proof.
  assert (H : payloads rich_album <> []) by (vm_compute; discriminate).
  split; [exact H|]. split; [reflexivity|]. split; [reflexivity|].
  destruct (mood_consistency_share (payloads rich_album) H)
    as [m [Hm [_ [Hs [_ Hle]]]]].
  exists m. split; [exact Hm|].
  assert (Ed : MoodSummary.dominant_mood m = "bustling").
  { pose proof Hm as Hc. vm_compute in Hc. apply Ok_inj in Hc.
    rewrite <- Hc. reflexivity. }
  split; [exact Ed|]. cbn zeta.
  assert (Hseq : field_seq overall_mood_of (payloads rich_album) <> [])
    by (vm_compute; discriminate).
  destruct (Hs Hseq) as [Hw [Hpos Hone]]. rewrite Ed in Hw, Hone.
  split; [exact Hw|]. split; [exact Hpos|]. split; [exact Hle|].
  intros H1. apply Hone in H1. vm_compute in H1. discriminate.
Defined.

(** ** Runners-up *)

Lemma runners_up (j : nat) (e : string * Z) (r : list (string * Z)) :
  NoDup (map fst (e :: r)) ->
  let names := map fst (firstn j r) in
  List.length names = Nat.min j (List.length r) /\
  NoDup names /\
  ~ In (fst e) names /\
  forall k, In k names -> In k (map fst r).
Proof.
  intros Hnd. cbn zeta. inversion Hnd as [|? ? He Hr]; subst.
  assert (Hsub : forall k, In k (map fst (firstn j r)) -> In k (map fst r)).
  { intros k Hk. rewrite <- (firstn_skipn j r), map_app.
    apply in_or_app. left. exact Hk. }
  split; [rewrite length_map; apply length_firstn|].
  split; [|split; [|exact Hsub]].
  - rewrite <- (firstn_skipn j r), map_app in Hr.
    apply NoDup_app_remove_r in Hr. exact Hr.
  - intros Hin. apply He, Hsub, Hin.
Qed.

Lemma ranking_tail_keys (seq : list string) (e : string * Z)
      (r : list (string * Z)) (k : string) :
  most_common (Counter_of seq) = e :: r -> In k (map fst r) -> In k seq.
Proof.
  intros ER Hk. apply in_map_iff in Hk as [x [<- Hx]].
  apply (counter_ranking_count seq). rewrite ER. right. exact Hx.
Qed.

Lemma secondary_moods_length (analyses : list Analysis.t) (m : MoodSummary.t) :
  _aggregate_mood_atmosphere analyses = Ok m ->
  List.length (MoodSummary.secondary_moods m)
  = Nat.min 2 (List.length (first_seen (field_seq overall_mood_of analyses)) - 1).
Proof.
  intros Hm.
  destruct (mood_details analyses m Hm) as [_ [Hsec _]]. cbn zeta in Hsec.
  rewrite Hsec. clear Hsec Hm.
  set (seq := field_seq overall_mood_of analyses).
  pose proof (counter_ranking_length seq) as Hlen.
  unfold len. rewrite Counter_of_length, <- Hlen.
  destruct (most_common (Counter_of seq)) as [|e [|e2 r]];
    [reflexivity | reflexivity |].
  replace (Z.of_nat (List.length (e :: e2 :: r)) >? 1) with true
    by (symmetry; apply Z.gtb_lt; cbn [List.length]; lia).
  cbn [firstn skipn]. rewrite length_map. cbn [List.length].
  destruct r; cbn [firstn List.length]; lia.
Qed.

(** X16: [secondary_moods] holds the moods ranked second and third: the
    top-3 ranking of the counted moods (by descending count and, among equal
    counts, by first occurrence) is [dominant_mood] followed by
    [secondary_moods].  So it has as many entries as there are distinct
    moods beside the dominant one, at most 2; they are distinct counted
    moods and [dominant_mood] is not among them. *)
Theorem secondary_moods_runners_up (analyses : list Analysis.t) :
  analyses <> [] ->
  exists m,
    _aggregate_mood_atmosphere analyses = Ok m /\
    let seq := field_seq overall_mood_of analyses in
    let sec := MoodSummary.secondary_moods m in
    (exists top,
       top_ranking 3 seq top /\
       sec = map fst (skipn 1 top) /\
       (seq <> [] -> map fst top = MoodSummary.dominant_mood m :: sec)) /\
    List.length sec = Nat.min 2 (List.length (first_seen seq) - 1) /\
    NoDup sec /\
    ~ In (MoodSummary.dominant_mood m) sec /\
    forall k, In k sec -> In k seq.
Proof.
  intros Hne. destruct (mood_ok analyses Hne) as [m [Hm [Hd _]]].
  exists m. split; [exact Hm|]. cbn zeta.
  destruct (mood_details analyses m Hm) as [_ [Hsec _]]. cbn zeta in Hsec.
  rewrite Hsec, Hd. clear Hsec Hd Hm.
  set (seq := field_seq overall_mood_of analyses).
  pose proof (counter_ranking_NoDup seq) as Hnd.
  pose proof (counter_ranking_length seq) as Hlen.
  pose proof (counter_ranking_entry seq) as Hent.
  pose proof (most_common_n_top 3 seq) as Htop. unfold most_common_n in Htop.
  unfold len. rewrite Counter_of_length, <- Hlen. unfold top_value.
  destruct (most_common (Counter_of seq)) as [|e r] eqn:ER.
  - split.
    + exists []. split; [exact Htop|]. split; [reflexivity|].
      intros Hs. destruct seq as [|x xs]; [contradiction|].
      exfalso. apply (Hent x). left. reflexivity.
    + cbn. repeat split; try constructor; tauto.
  - destruct (runners_up 2 e r Hnd) as [H1 [H2 [H3 H4]]].
    assert (E : (if Z.of_nat (List.length (e :: r)) >? 1
                 then map fst (skipn 1 (firstn 3 (e :: r))) else [])
                = map fst (firstn 2 r)).
    { cbn [firstn skipn].
      destruct (Z.of_nat (List.length (e :: r)) >? 1) eqn:E1; [reflexivity|].
      destruct r; [reflexivity|].
      cbn [List.length] in E1. rewrite Z.gtb_ltb, Z.ltb_ge in E1. lia. }
    rewrite E. split.
    + exists (e :: firstn 2 r). split; [exact Htop|].
      split; [reflexivity|]. intros _. reflexivity.
    + cbn [List.length]. rewrite Nat.sub_1_r. cbn [Nat.pred].
      split; [exact H1|]. split; [exact H2|]. split; [exact H3|].
      intros k Hk. eapply ranking_tail_keys; [exact ER | apply H4, Hk].
Qed.

Lemma secondary_moods_runners_up_witness :
  payloads rich_album <> [] /\
  field_seq overall_mood_of (payloads rich_album)
    = ["serene"; "bustling"; "vibrant"; "bustling"; "playful"] /\
  exists m,
    _aggregate_mood_atmosphere (payloads rich_album) = Ok m /\
    MoodSummary.dominant_mood m = "bustling" /\
    MoodSummary.secondary_moods m = ["serene"; "vibrant"] /\
    let seq := field_seq overall_mood_of (payloads rich_album) in
    let sec := MoodSummary.secondary_moods m in
    (exists top,
       top_ranking 3 seq top /\
       sec = map fst (skipn 1 top) /\
       (seq <> [] -> map fst top = MoodSummary.dominant_mood m :: sec)) /\
    List.length sec = Nat.min 2 (List.length (first_seen seq) - 1) /\
    NoDup sec /\
    ~ In (MoodSummary.dominant_mood m) sec /\
    forall k, In k sec -> In k seq.
Proof.
  assert (H : payloads rich_album <> []) by (vm_compute; discriminate).
  split; [exact H|]. split; [reflexivity|].
  destruct (secondary_moods_runners_up (payloads rich_album) H)
    as [m [Hm Hrest]].
  exists m. split; [exact Hm|].
  pose proof Hm as Hc. vm_compute in Hc. apply Ok_inj in Hc.
  split; [rewrite <- Hc; reflexivity|].
  split; [rewrite <- Hc; reflexivity | exact Hrest].
Defined.

(** ** The synthesis projection *)

(** X17: [secondary_scene_types] holds the categories ranked second to
    fourth in the primary-only ranking: the top-4 ranking of the counted
    primary categories (by descending count and, among equal counts, by
    first occurrence) is [primary_scene_type] followed by
    [secondary_scene_types].  So it has as many entries as there are
    distinct primary categories beside the first, at most 3; they are
    distinct counted categories and [primary_scene_type] is not among
    them. *)
Theorem secondary_scene_types_runners_up (l : list ImageAnalysis.t) :
  payloads l <> [] ->
  exists p,
    aggregate_album_analysis l = Ok (Success p) /\
    let seq := primary_seq (payloads l) in
    let syn := AlbumProfile.synthesis_prompt_data p in
    let sec := Synthesis.secondary_scene_types syn in
    (exists top,
       top_ranking 4 seq top /\
       sec = map fst (skipn 1 top) /\
       (seq <> [] -> map fst top = Synthesis.primary_scene_type syn :: sec)) /\
    List.length sec = Nat.min 3 (List.length (first_seen seq) - 1) /\
    NoDup sec /\
    ~ In (Synthesis.primary_scene_type syn) sec /\
    forall k, In k sec -> In k seq.
Proof.
  intros Hne.
  destruct (aggregate_profile l Hne) as [p [Hp [_ [Hsc [_ [_ [_ [_ Hsyn]]]]]]]].
  exists p. split; [exact Hp|]. cbn zeta. rewrite Hsyn.
  rewrite (scene_ok _ Hne) in Hsc. apply Ok_inj in Hsc. rewrite <- Hsc.
  cbn [_create_synthesis_prompt_data Synthesis.secondary_scene_types
       Synthesis.primary_scene_type SceneSummary.primary_categories
       SceneSummary.dominant_scene_type].
  set (seq := primary_seq (payloads l)).
  pose proof (counter_ranking_NoDup seq) as Hnd.
  pose proof (counter_ranking_length seq) as Hlen.
  pose proof (counter_ranking_entry seq) as Hent.
  pose proof (most_common_n_top 4 seq) as Htop. unfold most_common_n in Htop.
  rewrite <- Hlen. unfold top_value, slice.
  destruct (most_common (Counter_of seq)) as [|e r] eqn:ER.
  - split.
    + exists []. split; [exact Htop|]. split; [reflexivity|].
      intros Hs. destruct seq as [|x xs]; [contradiction|].
      exfalso. apply (Hent x). left. reflexivity.
    + cbn. repeat split; try constructor; tauto.
  - destruct (runners_up 3 e r Hnd) as [H1 [H2 [H3 H4]]].
    assert (E : map RankedCategory.category
                    (firstn (4 - 1)
                       (skipn 1 (map (entry_of (len (payloads l))) (e :: r))))
                = map fst (firstn 3 r)).
    { cbn [map skipn Nat.sub]. rewrite firstn_map, map_map. reflexivity. }
    rewrite E. split.
    + exists (e :: firstn 3 r). split; [exact Htop|].
      split; [reflexivity|]. intros _. reflexivity.
    + cbn [List.length]. rewrite Nat.sub_1_r. cbn [Nat.pred].
      split; [exact H1|]. split; [exact H2|]. split; [exact H3|].
      intros k Hk. eapply ranking_tail_keys; [exact ER | apply H4, Hk].
Qed.

Lemma secondary_scene_types_runners_up_witness :
  payloads rich_album <> [] /\
  primary_seq (payloads rich_album)
    = ["beach"; "city"; "food"; "city"; "nature"] /\
  exists p,
    aggregate_album_analysis rich_album = Ok (Success p) /\
    Synthesis.primary_scene_type (AlbumProfile.synthesis_prompt_data p)
      = "city" /\
    Synthesis.secondary_scene_types (AlbumProfile.synthesis_prompt_data p)
      = ["beach"; "food"; "nature"] /\
    let seq := primary_seq (payloads rich_album) in
    let syn := AlbumProfile.synthesis_prompt_data p in
    let sec := Synthesis.secondary_scene_types syn in
    (exists top,
       top_ranking 4 seq top /\
       sec = map fst (skipn 1 top) /\
       (seq <> [] -> map fst top = Synthesis.primary_scene_type syn :: sec)) /\
    List.length sec = Nat.min 3 (List.length (first_seen seq) - 1) /\
    NoDup sec /\
    ~ In (Synthesis.primary_scene_type syn) sec /\
    forall k, In k sec -> In k seq.
Proof.
  assert (H : payloads rich_album <> []) by (vm_compute; discriminate).
  split; [exact H|]. split; [reflexivity|].
  destruct (secondary_scene_types_runners_up rich_album H) as [p [Hp Hrest]].
  exists p. split; [exact Hp|].
  pose proof Hp as Hc. vm_compute in Hc. apply Ok_inj in Hc.
  assert (Hs : Success p = Success p) by reflexivity.
  split; [|split; [|exact Hrest]].
  - injection Hc as Hc. rewrite <- Hc. reflexivity.
  - injection Hc as Hc. rewrite <- Hc. reflexivity.
Defined.

(** X18: the single-valued fields of the synthesis profile are the winners
    of the reducers: each is the most frequent truthy value of its field over
    the valid records, the first seen among the most frequent, and when no
    value was counted it is the reducer's fallback (["mixed"], ["mixed"],
    ["varied"], ["mixed"], ["varied"], ["mixed"], ["medium"]). *)
Theorem synthesis_winners (l : list ImageAnalysis.t) :
  payloads l <> [] ->
  exists p,
    aggregate_album_analysis l = Ok (Success p) /\
    let syn := AlbumProfile.synthesis_prompt_data p in
    let valid := payloads l in
    winner_or "mixed" (Synthesis.primary_scene_type syn) (primary_seq valid) /\
    winner_or "mixed" (Synthesis.color_temperature syn)
              (field_seq color_temperature_of valid) /\
    winner_or "varied" (Synthesis.lighting_style syn)
              (field_seq lighting_of valid) /\
    winner_or "mixed" (Synthesis.setting syn) (field_seq setting_of valid) /\
    winner_or "varied" (Synthesis.time_of_day syn)
              (field_seq time_of_day_of valid) /\
    winner_or "mixed" (Synthesis.dominant_mood syn)
              (field_seq overall_mood_of valid) /\
    winner_or "medium" (Synthesis.energy_level syn)
              (field_seq energy_level_of valid).
Proof.
  intros Hne.
  destruct (aggregate_profile l Hne)
    as [p [Hp [_ [Hsc [_ [Hvi [Hmo [_ Hsyn]]]]]]]].
  exists p. split; [exact Hp|]. cbn zeta. rewrite Hsyn.
  cbn [_create_synthesis_prompt_data Synthesis.primary_scene_type
       Synthesis.color_temperature Synthesis.lighting_style Synthesis.setting
       Synthesis.time_of_day Synthesis.dominant_mood Synthesis.energy_level].
  rewrite (scene_ok _ Hne) in Hsc. apply Ok_inj in Hsc. rewrite <- Hsc.
  cbn [SceneSummary.dominant_scene_type].
  destruct (visual_ok (payloads l)) as [vi [Hvi' [Ht [Hl [Hs [Hd Hw]]]]]].
  rewrite Hvi' in Hvi. apply Ok_inj in Hvi. subst vi.
  destruct (mood_ok (payloads l) Hne) as [mo [Hmo' [Hm He]]].
  rewrite Hmo' in Hmo. apply Ok_inj in Hmo. subst mo.
  rewrite Ht, Hl, Hs, Hd, Hm, He.
  repeat split; apply top_value_winner.
Qed.

Lemma synthesis_winners_witness :
  payloads rich_album <> [] /\
  field_seq color_temperature_of (payloads rich_album)
    = ["warm"; "cool"; "warm"; "cool"; "neutral"] /\
  field_seq lighting_of (payloads rich_album)
    = ["golden_hour"; "overcast"; "indoor_artificial"; "overcast";
       "bright_daylight"] /\
  exists p,
    aggregate_album_analysis rich_album = Ok (Success p) /\
    let syn := AlbumProfile.synthesis_prompt_data p in
    let valid := payloads rich_album in
    (Synthesis.primary_scene_type syn = "city" /\
     Synthesis.color_temperature syn = "warm" /\
     Synthesis.lighting_style syn = "overcast" /\
     Synthesis.setting syn = "outdoor" /\
     Synthesis.time_of_day syn = "midday" /\
     Synthesis.dominant_mood syn = "bustling" /\
     Synthesis.energy_level syn = "high") /\
    is_winner (Synthesis.primary_scene_type syn) (primary_seq valid) /\
    is_winner (Synthesis.color_temperature syn)
              (field_seq color_temperature_of valid) /\
    is_winner (Synthesis.lighting_style syn) (field_seq lighting_of valid) /\
    is_winner (Synthesis.setting syn) (field_seq setting_of valid) /\
    is_winner (Synthesis.time_of_day syn) (field_seq time_of_day_of valid) /\
    is_winner (Synthesis.dominant_mood syn)
              (field_seq overall_mood_of valid) /\
    is_winner (Synthesis.energy_level syn) (field_seq energy_level_of valid).
Proof.
  assert (H : payloads rich_album <> []) by (vm_compute; discriminate).
  split; [exact H|]. split; [reflexivity|]. split; [reflexivity|].
  destruct (synthesis_winners rich_album H) as [p [Hp Hw]].
  exists p. split; [exact Hp|]. cbn zeta. cbn zeta in Hw.
  split; [|exact Hw].
  pose proof Hp as Hc. vm_compute in Hc. apply Ok_inj in Hc.
  injection Hc as Hc. rewrite <- Hc. repeat split.
Defined.

Lemma recurring_value (seq : list string) :
  map fst (filter (fun e => snd e >=? 2) (Counter_of seq)) =
  filter (fun k => count_in k seq >=? 2) (first_seen seq).
Proof.
  rewrite Counter_of_spec.
  induction (first_seen seq) as [|k ks IH]; [reflexivity|].
  cbn [map filter snd]. destruct (count_in k seq >=? 2); cbn [map fst];
    rewrite IH; reflexivity.
Qed.

Lemma NoDup_firstn {A : Type} (n : nat) (l : list A) :
  NoDup l -> NoDup (firstn n l).
Proof.
  intros H. rewrite <- (firstn_skipn n l) in H.
  apply NoDup_app_remove_r in H. exact H.
Qed.

Lemma In_firstn {A : Type} (n : nat) (l : list A) (x : A) :
  In x (firstn n l) -> In x l.
Proof.
  intros H. rewrite <- (firstn_skipn n l). apply in_or_app. left. exact H.
Qed.

(** X19: the lists of the synthesis profile.  [color_palette] names the 5
    best-ranked colours and [mood_descriptors] is [secondary_moods] followed
    by the names of the 5 best-ranked mood tags, so it has at most 7 entries;
    [recurring_notable_elements] is the first 10 entries of
    [recurring_elements]: distinct notable entries that occur at least
    twice. *)
Theorem synthesis_lists (l : list ImageAnalysis.t) :
  payloads l <> [] ->
  exists p,
    aggregate_album_analysis l = Ok (Success p) /\
    let syn := AlbumProfile.synthesis_prompt_data p in
    let valid := payloads l in
    (exists top, top_ranking 5 (color_seq valid) top /\
                 Synthesis.color_palette syn = map fst top) /\
    (exists top, top_ranking 5 (tag_seq valid) top /\
                 Synthesis.mood_descriptors syn =
                 MoodSummary.secondary_moods (AlbumProfile.mood_summary p)
                 ++ map fst top) /\
    (List.length (Synthesis.mood_descriptors syn) <= 7)%nat /\
    Synthesis.recurring_notable_elements syn =
      firstn 10 (NotableSummary.recurring_elements
                   (AlbumProfile.notable_elements p)) /\
    NoDup (Synthesis.recurring_notable_elements syn) /\
    (forall k, In k (Synthesis.recurring_notable_elements syn) ->
               2 <= count_in k (notable_seq valid)).
Proof.
  intros Hne.
  destruct (aggregate_profile l Hne)
    as [p [Hp [_ [_ [_ [Hvi [Hmo [Hno Hsyn]]]]]]]].
  exists p. split; [exact Hp|]. cbn zeta. rewrite Hsyn.
  cbn [_create_synthesis_prompt_data Synthesis.color_palette
       Synthesis.mood_descriptors Synthesis.recurring_notable_elements].
  unfold slice. cbn [Nat.sub skipn].
  destruct (visual_palette _ _ Hvi) as [Hc _].
  destruct (mood_details _ _ Hmo) as [Htags _].
  rewrite notable_ok in Hno. apply Ok_inj in Hno. rewrite <- Hno.
  cbn [NotableSummary.recurring_elements].
  rewrite Hc, Htags. unfold most_common_n. rewrite !firstn_firstn.
  cbn [Nat.min].
  pose proof (most_common_n_top 5 (color_seq (payloads l))) as Hcol.
  pose proof (most_common_n_top 5 (tag_seq (payloads l))) as Htag.
  unfold most_common_n in Hcol, Htag.
  split; [eexists; split; [exact Hcol | reflexivity]|].
  split; [eexists; split; [exact Htag | reflexivity]|].
  split; [|split; [reflexivity|split]].
  - rewrite length_app, length_map, length_firstn.
    rewrite (secondary_moods_length _ _ Hmo). lia.
  - rewrite recurring_value. apply NoDup_firstn, NoDup_filter, first_seen_NoDup.
  - intros k Hk. apply In_firstn in Hk. rewrite recurring_value in Hk.
    apply filter_In in Hk as [_ Hk]. apply Z.geb_le in Hk. exact Hk.
Qed.

Lemma synthesis_lists_witness :
  payloads harbor_lighthouse <> [] /\
  exists p,
    aggregate_album_analysis harbor_lighthouse = Ok (Success p) /\
    NoDup (Synthesis.recurring_notable_elements
             (AlbumProfile.synthesis_prompt_data p)) /\
    (List.length (Synthesis.mood_descriptors
                    (AlbumProfile.synthesis_prompt_data p)) <= 7)%nat.
Proof.
  assert (H : payloads harbor_lighthouse <> []) by (vm_compute; discriminate).
  split; [exact H|].
  destruct (synthesis_lists harbor_lighthouse H)
    as [p [Hp [_ [_ [Hlen [_ [Hnd _]]]]]]].
  exists p. split; [exact Hp|]. split; [exact Hnd | exact Hlen].
Defined.

(** ** The empty list *)

(** X20: of the five reducers only the element reducer raises, and it raises
    exactly on the empty list, with [ZeroDivisionError]: the guard of
    [aggregate_album_analysis] is what keeps the call from raising. *)
Theorem element_reducer_raises_on_empty (analyses : list Analysis.t) :
  (_aggregate_segmented_elements analyses = Raise ZeroDivisionError
   <-> analyses = []) /\
  (analyses <> [] -> exists s, _aggregate_segmented_elements analyses = Ok s) /\
  (exists s, _aggregate_scene_classifications [] = Ok s) /\
  (exists v, _aggregate_visual_features [] = Ok v) /\
  (exists m, _aggregate_mood_atmosphere [] = Ok m) /\
  (exists no, _aggregate_notable_elements [] = Ok no).
Proof.
  assert (Hok : analyses <> [] ->
                exists s, _aggregate_segmented_elements analyses = Ok s).
  { intros Hne. destruct (elements_ok analyses Hne) as [avg Hs].
    eexists. exact Hs. }
  split; [|split; [exact Hok|]].
  - split.
    + intros H. destruct analyses as [|a r]; [reflexivity|].
      destruct (Hok ltac:(discriminate)) as [s Hs]. congruence.
    + intros ->. reflexivity.
  - repeat split; eexists; reflexivity.
Qed.

(** * The Flask application *)

(** ** File names *)

Lemma rsplit_dot_none (s : string) :
  rsplit_dot s = None <-> contains_dot s = false.
Proof.
  induction s as [|c rest IH]; simpl; [tauto|].
  destruct (rsplit_dot rest) as [[before after]|].
  - split; [discriminate|]. intros H. apply orb_false_iff in H as [_ H].
    apply IH in H. discriminate.
  - destruct (Ascii.eqb c "."); simpl; [split; discriminate|].
    split; [intros _; apply IH; reflexivity | reflexivity].
Qed.

Lemma rsplit_dot_app (name ext : string) :
  contains_dot ext = false ->
  rsplit_dot (name ++ String "." ext) = Some (name, ext).
Proof.
  intros H. induction name as [|c rest IH]; simpl.
  - apply rsplit_dot_none in H. rewrite H. reflexivity.
  - rewrite IH. reflexivity.
Qed.

Lemma rsplit_dot_sound (s before after : string) :
  rsplit_dot s = Some (before, after) ->
  s = (before ++ String "." after)%string /\ contains_dot after = false.
Proof.
  revert before. induction s as [|c rest IH]; simpl; intros before H;
    [discriminate|].
  destruct (rsplit_dot rest) as [[b a]|] eqn:E.
  - inversion H; subst. destruct (IH b eq_refl) as [-> Hc].
    split; [reflexivity | exact Hc].
  - destruct (Ascii.eqb c ".") eqn:Ec; [|discriminate].
    inversion H; subst. apply Ascii.eqb_eq in Ec. subst c.
    split; [reflexivity | apply rsplit_dot_none; exact E].
Qed.

Lemma contains_dot_app (name ext : string) :
  contains_dot (name ++ String "." ext) = true.
Proof.
  induction name as [|c rest IH]; simpl; [reflexivity|].
  rewrite IH. apply orb_true_r.
Qed.

(** X21: only what follows the last dot counts, and its case does not.  For
    a name [name.ext] whose [ext] has no dot, [allowed_file] says whether
    the lower-cased [ext] is one of the five allowed extensions, and
    [get_image_format] returns the lower-cased [ext], with ["jpeg"] for
    ["jpg"]; whatever [name] is, dots included. *)
Theorem extension_decides (name ext : string) :
  contains_dot ext = false ->
  allowed_file (name ++ String "." ext)
    = Ok (is_allowed_extension (lower ext)) /\
  get_image_format (name ++ String "." ext)
    = Ok (if String.eqb (lower ext) "jpg" then "jpeg" else lower ext).
Proof.
  intros H. unfold allowed_file, get_image_format, rsplit1.
  rewrite contains_dot_app, (rsplit_dot_app name ext H). cbn [subscript1 bind].
  split; [reflexivity|]. destruct (String.eqb (lower ext) "jpg"); reflexivity.
Qed.

Lemma extension_decides_witness :
  contains_dot "JPG" = false /\
  allowed_file "my.trip.JPG" = Ok true /\
  get_image_format "my.trip.JPG" = Ok "jpeg".
Proof.
  assert (H : contains_dot "JPG" = false) by reflexivity.
  split; [exact H|].
  exact (extension_decides "my.trip" "JPG" H).
Defined.

(** X22: [allowed_file] never raises.  [get_image_format] raises
    [IndexError] exactly on the names without a dot; on every name that
    [allowed_file] accepts it returns one of ["png"], ["jpeg"], ["gif"],
    ["webp"]. *)
Theorem allowed_file_guards_format (filename : string) :
  (exists b, allowed_file filename = Ok b) /\
  (get_image_format filename = Raise IndexError
   <-> contains_dot filename = false) /\
  (allowed_file filename = Ok true ->
   exists fmt,
     get_image_format filename = Ok fmt /\
     In fmt ["png"; "jpeg"; "gif"; "webp"]).
Proof.
  unfold allowed_file, get_image_format, rsplit1.
  destruct (rsplit_dot filename) as [[before after]|] eqn:E.
  - assert (Hd : contains_dot filename = true).
    { destruct (contains_dot filename) eqn:Hd; [reflexivity|].
      apply rsplit_dot_none in Hd. congruence. }
    rewrite Hd. cbn [subscript1 bind].
    split; [eexists; reflexivity|]. split.
    + split; [|discriminate].
      destruct (String.eqb (lower after) "jpg"); discriminate.
    + intros H. apply Ok_inj in H. unfold is_allowed_extension in H.
      apply existsb_exists in H as [x [Hx Ex]]. apply String.eqb_eq in Ex.
      rewrite Ex. unfold ALLOWED_EXTENSIONS in Hx.
      repeat (destruct Hx as [<-|Hx]; [eexists; split; [reflexivity|]; simpl; tauto|]).
      destruct Hx.
  - assert (Hd : contains_dot filename = false)
      by (apply rsplit_dot_none; exact E).
    rewrite Hd. cbn [subscript1 bind].
    split; [eexists; reflexivity|]. split; [tauto | discriminate].
Qed.

Lemma allowed_file_guards_format_witness :
  allowed_file "IMG_0042.JPEG" = Ok true /\
  exists fmt,
    get_image_format "IMG_0042.JPEG" = Ok fmt /\
    In fmt ["png"; "jpeg"; "gif"; "webp"].
Proof.
  assert (H : allowed_file "IMG_0042.JPEG" = Ok true) by reflexivity.
  split; [exact H|].
  exact (proj2 (proj2 (allowed_file_guards_format "IMG_0042.JPEG")) H).
Defined.

(** ** The aggregation endpoint *)

Lemma aggregate_total (l : list ImageAnalysis.t) :
  exists r,
    aggregate_album_analysis l = Ok r /\
    (result_success r = true <-> exists a, In a l /\ is_valid_record a).
Proof.
  destruct (payloads l) as [|a0 r0] eqn:E.
  - eexists. split; [apply aggregate_failure; exact E|].
    simpl. split; [discriminate|]. intros H.
    apply payloads_nil_iff in E. contradiction.
  - assert (Hne : payloads l <> []) by (rewrite E; discriminate).
    destruct (aggregate_profile l Hne) as [p [Hp _]].
    eexists. split; [exact Hp|]. simpl. split; [|reflexivity].
    intros _. destruct (filter survives l) as [|a r] eqn:Ef.
    + exfalso. apply Hne. unfold payloads. rewrite Ef. reflexivity.
    + exists a. assert (Hin : In a (filter survives l))
        by (rewrite Ef; left; reflexivity).
      apply filter_In in Hin as [Hin Hs]. split; [exact Hin|].
      apply survives_iff. exact Hs.
Qed.

Section AggregateHandlerFacts.
Context {Image Postcard : Type}.
Implicit Types (sessions : dict (Session.t Image Postcard))
               (session : Session.t Image Postcard).

Lemma aggregate_analysis_rejected data sessions :
  requested_session data sessions = None ->
  aggregate_analysis data sessions
  = Ok ((ErrorBody "Invalid or missing session_id", 400), sessions).
Proof.
  unfold requested_session, aggregate_analysis.
  destruct data as [[[sid|]]|]; try reflexivity.
  cbn [AggregateRequest.session_id truthy_str get_default].
  destruct (String.eqb sid ""); [reflexivity|]. cbn [negb orb].
  destruct (dict_get sessions sid); [discriminate | reflexivity].
Qed.

Lemma aggregate_analysis_accepted data sessions sid session :
  requested_session data sessions = Some (sid, session) ->
  aggregate_analysis data sessions =
  match Session.analyses session with
  | [] => Ok ((ErrorBody "No analyses available. Run /api/analyze first.", 400),
              sessions)
  | _ :: _ =>
      r <- aggregate_album_analysis (Session.analyses session) ;;
      Ok ((AggregationBody (result_success r) r, 200),
          dict_set sid (aggregated session r) sessions)
  end.
Proof.
  unfold requested_session, aggregate_analysis.
  destruct data as [[[sid'|]]|]; try discriminate.
  cbn [AggregateRequest.session_id truthy_str get_default].
  destruct (String.eqb sid' ""); [discriminate|]. cbn [negb orb].
  unfold subscript_session.
  destruct (dict_get sessions sid') as [s|]; [|discriminate].
  intros H. inversion H; subst. reflexivity.
Qed.

Lemma requested_session_get data sessions sid session :
  requested_session data sessions = Some (sid, session) ->
  dict_get sessions sid = Some session /\
  data = Some {| AggregateRequest.session_id := Some sid |}.
Proof.
  unfold requested_session.
  destruct data as [[[sid'|]]|]; try discriminate.
  cbn [AggregateRequest.session_id].
  destruct (String.eqb sid' ""); [discriminate|].
  destruct (dict_get sessions sid') as [s|] eqn:E; [|discriminate].
  intros H. inversion H; subst. split; [exact E | reflexivity].
Qed.

Lemma dict_get_In_keys {V : Type} (d : dict V) (k : string) (v : V) :
  dict_get d k = Some v -> memb k (keys d) = true.
Proof.
  induction d as [|[k0 v0] d IH]; simpl; [discriminate|].
  rewrite (String.eqb_sym k k0).
  destruct (String.eqb k0 k); [reflexivity | exact IH].
Qed.

Lemma dict_set_twice {V : Type} (d : dict V) (k : string) (v w : V) :
  dict_set k w (dict_set k v d) = dict_set k w d.
Proof.
  induction d as [|[k0 v0] d IH]; simpl.
  - rewrite String.eqb_refl. reflexivity.
  - destruct (String.eqb k0 k) eqn:E; simpl; rewrite E;
      [reflexivity | rewrite IH; reflexivity].
Qed.

(** X23: what the handler of [/api/aggregate] rejects.  [data] is the
    parsed JSON body, [None] for [null], and its [session_id] is a string or
    missing.  When the body is [null] or names no session of the store (no
    [session_id], an empty one, or one the store does not have), the handler
    answers 400 with ["Invalid or missing session_id"]; when the session it
    names has no analyses, it answers 400 with ["No analyses available. Run
    /api/analyze first."]; in both cases [sessions] stays as it was.  It
    answers 400 in no other case. *)
Theorem aggregate_endpoint_rejections (data : option AggregateRequest.t)
        sessions :
  (requested_session data sessions = None ->
   aggregate_analysis data sessions
   = Ok ((ErrorBody "Invalid or missing session_id", 400), sessions)) /\
  (forall sid session,
     requested_session data sessions = Some (sid, session) ->
     Session.analyses session = [] ->
     aggregate_analysis data sessions
     = Ok ((ErrorBody "No analyses available. Run /api/analyze first.", 400),
           sessions)) /\
  (forall body sessions',
     aggregate_analysis data sessions = Ok ((body, 400), sessions') ->
     sessions' = sessions /\
     (requested_session data sessions = None
      \/ exists sid session,
           requested_session data sessions = Some (sid, session)
           /\ Session.analyses session = [])).
Proof.
  split; [|split].
  - apply aggregate_analysis_rejected.
  - intros sid session E Ea.
    rewrite (aggregate_analysis_accepted _ _ _ _ E), Ea. reflexivity.
  - intros body sessions' Hrun.
    destruct (requested_session data sessions) as [[sid session]|] eqn:E.
    + rewrite (aggregate_analysis_accepted _ _ _ _ E) in Hrun.
      destruct (Session.analyses session) as [|a l] eqn:Ea.
      * apply Ok_inj in Hrun. inversion Hrun; subst.
        split; [reflexivity|]. right. exists sid, session. auto.
      * destruct (aggregate_total (a :: l)) as [r [Hr _]].
        rewrite Hr in Hrun. cbn [bind] in Hrun.
        apply Ok_inj in Hrun. inversion Hrun.
    + rewrite (aggregate_analysis_rejected _ _ E) in Hrun.
      apply Ok_inj in Hrun. inversion Hrun; subst.
      split; [reflexivity | left; reflexivity].
Qed.

(** X24: what a successful run of the handler does to [sessions].  The
    session the request names gets the result under [aggregation] and the
    status ["aggregated"], whether the aggregation succeeded or not; its
    other fields, the other sessions and the order of the keys stay as they
    were.  The body's [success] is true exactly when one of the session's
    analyses is valid. *)
Theorem aggregate_endpoint_effects (data : option AggregateRequest.t)
        sessions sid session :
  requested_session data sessions = Some (sid, session) ->
  Session.analyses session <> [] ->
  exists r sessions',
    aggregate_analysis data sessions
      = Ok ((AggregationBody (result_success r) r, 200), sessions') /\
    aggregate_album_analysis (Session.analyses session) = Ok r /\
    (result_success r = true
     <-> exists a, In a (Session.analyses session) /\ is_valid_record a) /\
    dict_get sessions' sid = Some (aggregated session r) /\
    (forall other, other <> sid ->
                   dict_get sessions' other = dict_get sessions other) /\
    keys sessions' = keys sessions.
Proof.
  intros E Hne. rewrite (aggregate_analysis_accepted _ _ _ _ E).
  destruct (aggregate_total (Session.analyses session)) as [r [Hr Hv]].
  destruct (Session.analyses session) as [|a l] eqn:Ea; [contradiction|].
  rewrite Hr. cbn [bind]. exists r. eexists. split; [reflexivity|].
  split; [reflexivity|]. split; [exact Hv|].
  apply requested_session_get in E as [Hget _].
  split; [|split].
  - rewrite dict_get_set, String.eqb_refl. reflexivity.
  - intros other Hother. rewrite dict_get_set.
    destruct (String.eqb sid other) eqn:Eo; [|reflexivity].
    apply String.eqb_eq in Eo. congruence.
  - rewrite keys_dict_set, (dict_get_In_keys _ _ _ Hget). reflexivity.
Qed.

(** X25: the handler is idempotent: run again on the store it left, with
    the same request, it gives the same answer and leaves the store as it
    is. *)
Theorem aggregate_endpoint_idempotent (data : option AggregateRequest.t)
        sessions :
  exists answer sessions',
    aggregate_analysis data sessions = Ok (answer, sessions') /\
    aggregate_analysis data sessions' = Ok (answer, sessions').
Proof.
  destruct (requested_session data sessions) as [[sid session]|] eqn:E.
  - rewrite (aggregate_analysis_accepted _ _ _ _ E).
    destruct (Session.analyses session) as [|a l] eqn:Ea.
    + do 2 eexists. split; [reflexivity|].
      rewrite (aggregate_analysis_accepted _ _ _ _ E), Ea. reflexivity.
    + destruct (aggregate_total (a :: l)) as [r [Hr _]]. rewrite Hr.
      cbn [bind]. do 2 eexists. split; [reflexivity|].
      destruct (requested_session_get _ _ _ _ E) as [Hget ->].
      assert (E' : requested_session
                     (Some {| AggregateRequest.session_id := Some sid |})
                     (dict_set sid (aggregated session r) sessions)
                   = Some (sid, aggregated session r)).
      { unfold requested_session in *.
        cbn [AggregateRequest.session_id] in *.
        destruct (String.eqb sid ""); [discriminate|].
        rewrite dict_get_set, String.eqb_refl. reflexivity. }
      rewrite (aggregate_analysis_accepted _ _ _ _ E').
      cbn [aggregated Session.analyses]. rewrite Ea, Hr. cbn [bind].
      rewrite dict_set_twice. reflexivity.
  - rewrite (aggregate_analysis_rejected _ _ E).
    do 2 eexists. split; [reflexivity|].
    apply aggregate_analysis_rejected. exact E.
Qed.
End AggregateHandlerFacts.

Lemma aggregate_endpoint_rejections_witness :
  requested_session request_unknown one_session = None /\
  aggregate_analysis request_unknown one_session
  = Ok ((ErrorBody "Invalid or missing session_id", 400), one_session) /\
  (exists session,
     requested_session request_s0 unanalysed_session = Some ("s0", session) /\
     Session.analyses session = []) /\
  aggregate_analysis request_s0 unanalysed_session
  = Ok ((ErrorBody "No analyses available. Run /api/analyze first.", 400),
        unanalysed_session).
Proof.
  assert (Hnone : requested_session request_unknown one_session = None)
    by reflexivity.
  split; [exact Hnone|]. split.
  - apply (aggregate_endpoint_rejections request_unknown one_session).
    exact Hnone.
  - split; [eexists; split; reflexivity|].
    refine (proj1 (proj2 (aggregate_endpoint_rejections
                            request_s0 unanalysed_session)) "s0" _ _ _);
      reflexivity.
Defined.

Lemma aggregate_endpoint_effects_witness :
  requested_session request_s1 one_session
    = Some ("s1", {| Session.created_at := "2025-01-01T00:00:00";
                     Session.status := "analyzed";
                     Session.images := [tt; tt; tt; tt];
                     Session.analyses := beach_beach_city;
                     Session.aggregation := None;
                     Session.postcard := None |}) /\
  beach_beach_city <> [] /\
  exists r sessions',
    aggregate_analysis request_s1 one_session
      = Ok ((AggregationBody (result_success r) r, 200), sessions') /\
    keys sessions' = keys one_session.
Proof.
  assert (H : requested_session request_s1 one_session
              = Some ("s1", {| Session.created_at := "2025-01-01T00:00:00";
                               Session.status := "analyzed";
                               Session.images := [tt; tt; tt; tt];
                               Session.analyses := beach_beach_city;
                               Session.aggregation := None;
                               Session.postcard := None |}))
    by reflexivity.
  assert (Hne : beach_beach_city <> []) by discriminate.
  split; [exact H|]. split; [exact Hne|].
  destruct (aggregate_endpoint_effects request_s1 one_session _ _ H Hne)
    as [r [sessions' [Hrun [_ [_ [_ [_ Hk]]]]]]].
  exists r, sessions'. split; [exact Hrun | exact Hk].
Defined.
